(** * INGENZI HRMS backend: attendance accounting and payroll generation

    A shallow embedding of the route handlers of [routes/attendance.js]
    (check-in, check-out, HR entry) and [routes/payroll.js] (payroll
    generation, marking a payroll paid), with the properties of the
    specification proved or refuted on it.

    - JavaScript numbers are IEEE-754 binary64 values: [spec_float] of the
      standard library at precision 53, with the operations the handlers use
      ([-], [/], [*], [+], truthiness, [toFixed(2)]).
    - A [Date] is its time value, an integer count of milliseconds, with the
      ECMAScript day arithmetic behind [new Date(y, m, d)] and [setHours].
      The server's zone is a fixed offset from UTC.
    - The Prisma tables are lists of rows held in a store that every handler
      takes and gives back next to the response it sends.  A handler that
      answers with an error gives the store back as it was.  In the data of an
      update a field that is [undefined] is left alone, a field that is [null]
      is set to null.  An attendance row belongs to an employee: creating one
      for an employee id that is not on file is rejected by the database, and
      the handler answers 500.
    - Requests reach the handlers after authentication and role checks, with
      ids and dates already read as integers. *)

From Stdlib Require Import ZArith List String Ascii Bool Lia.
From Stdlib Require Import DecimalString.
From Stdlib Require Import Sorted Permutation.
From Stdlib Require Import SpecFloat.
Import ListNotations.

Open Scope Z_scope.

(* ===================================================================== *)
(** ** JavaScript numbers *)

Module Number.

(** A JS Number: a binary64 value, NaN included. *)
Definition t : Type := spec_float.

Definition prec : Z := 53.
Definition emax : Z := 1024.

Definition NaN : t := S754_nan.

(** The Number an integer converts to (round to nearest, ties to even). *)
Definition of_Z (z : Z) : t := binary_normalize prec emax z 0 false.

Definition sub (x y : t) : t := SFsub prec emax x y.
Definition add (x y : t) : t := SFadd prec emax x y.
Definition mul (x y : t) : t := SFmul prec emax x y.
Definition div (x y : t) : t := SFdiv prec emax x y.

(** The literals [0.1] and [0.05]: the doubles nearest to 1/10 and 1/20. *)
Definition lit_0_1 : t := S754_finite false 7205759403792794 (-56).
Definition lit_0_05 : t := S754_finite false 7205759403792794 (-57).

(** ToBoolean: [+0], [-0] and [NaN] are falsy, every other number truthy. *)
Definition truthy (x : t) : bool :=
  match x with
  | S754_zero _ | S754_nan => false
  | S754_infinity _ | S754_finite _ _ _ => true
  end.

(** What [toFixed] prints: a decimal numeral, or the name of a value that
    has none. *)
Inductive fixed : Type :=
| Dec (hundredths : Z)
| Sci (x : t)
| Infinite (negative : bool)
| NotANumber.

(** The integer [n] for which [n / 100] is closest to [m * 2^e], the larger
    one when two are equally close. *)
Definition nearest_hundredths (m : positive) (e : Z) : Z :=
  match e with
  | Zneg k => (200 * Zpos m + 2 ^ Zpos k) / 2 ^ (Zpos k + 1)
  | _ => 100 * Zpos m * 2 ^ e
  end.

(** [x.toFixed(2)], the numeral given by its count of hundredths; a negative
    [x] prints as the negated numeral of [-x], and from 10^21 on [toFixed]
    falls back to the exponent notation of [String(x)]. *)
Definition toFixed2 (x : t) : fixed :=
  match x with
  | S754_nan => NotANumber
  | S754_infinity s => Infinite s
  | S754_zero _ => Dec 0
  | S754_finite s m e =>
      let n := nearest_hundredths m e in
      if 10 ^ 23 <=? n then Sci x
      else Dec (if s then - n else n)
  end.

End Number.

(* ===================================================================== *)
(** ** JavaScript dates *)

Module JSDate.

(** A [Date] object: its time value in milliseconds since the epoch, or
    [None] for an invalid date (time value NaN). *)
Definition t : Type := option Z.

Definition msPerDay : Z := 86400000.
Definition msPerHour : Z := 1000 * 60 * 60.

Definition Day (tv : Z) : Z := tv / msPerDay.

Definition MakeTime (h m s ms : Z) : Z :=
  h * msPerHour + m * 60000 + s * 1000 + ms.

Definition MakeDate (day time : Z) : Z := day * msPerDay + time.

Definition TimeClip (tv : Z) : t :=
  if Z.abs tv <=? 8640000000000000 then Some tv else None.

Definition DayFromYear (y : Z) : Z :=
  365 * (y - 1970) + (y - 1969) / 4 - (y - 1901) / 100 + (y - 1601) / 400.

Definition InLeapYear (y : Z) : bool :=
  if negb (y mod 4 =? 0) then false
  else if negb (y mod 100 =? 0) then true
  else y mod 400 =? 0.

(** Day number, within its year, of the first day of month [mn] (0-based). *)
Definition DayWithinYear (leap : bool) (mn : Z) : Z :=
  let l := if leap then 1 else 0 in
  match mn with
  | 0 => 0
  | 1 => 31
  | 2 => 59 + l
  | 3 => 90 + l
  | 4 => 120 + l
  | 5 => 151 + l
  | 6 => 181 + l
  | 7 => 212 + l
  | 8 => 243 + l
  | 9 => 273 + l
  | 10 => 304 + l
  | _ => 334 + l
  end.

(** MakeDay: months beyond a year carry into the year, and [date] counts
    from the first of the month, so that 0 is the day before it. *)
Definition MakeDay (year month date : Z) : Z :=
  let ym := year + month / 12 in
  let mn := month mod 12 in
  DayFromYear ym + DayWithinYear (InLeapYear ym) mn + date - 1.

Section LocalZone.
(** The server's zone, as the offset of its local time from UTC in
    milliseconds (a zone without daylight saving, such as Africa/Kigali
    at +2h; the 23- and 25-hour days of a zone that changes its offset are
    not modelled). *)
Variable tz : Z.

Definition LocalTime (tv : Z) : Z := tv + tz.
Definition UTC (lt : Z) : Z := lt - tz.

(** [new Date(year, monthIndex, day)]. *)
Definition fromYMD (year monthIndex day : Z) : t :=
  let yr := if (0 <=? year) && (year <=? 99) then 1900 + year else year in
  TimeClip (UTC (MakeDate (MakeDay yr monthIndex day) (MakeTime 0 0 0 0))).

(** [d.setHours(h, m, s, ms)]: same local day, new time of day. *)
Definition setHours (d : t) (h m s ms : Z) : t :=
  match d with
  | None => None
  | Some tv =>
      TimeClip (UTC (MakeDate (Day (LocalTime tv)) (MakeTime h m s ms)))
  end.
End LocalZone.

(** [new Date(v)] for a request value that reads as the time value [v]. *)
Definition fromValue (v : Z) : t := TimeClip v.

(** [a - b] on dates: both are converted to numbers first. *)
Definition toNumber (d : t) : Number.t :=
  match d with
  | Some tv => Number.of_Z tv
  | None => Number.NaN
  end.

Definition diff (a b : t) : Number.t := Number.sub (toNumber a) (toNumber b).

End JSDate.

(* ===================================================================== *)
(** ** The tables *)

Module Employee.
Record row : Type := mk {
  id : Z;
  userId : option Z;
  firstName : string;
  lastName : string;
(** the number [parseFloat] reads from the stored salary *)
salary : Number.t
}.
End Employee.

Module Attendance.
Inductive status_t : Type := present | absent | late | half_day.

Definition status_eqb (a b : status_t) : bool :=
  match a, b with
  | present, present | absent, absent | late, late | half_day, half_day => true
  | _, _ => false
  end.

Record row : Type := mk {
  id : Z;
  employeeId : Z;
  date : Z;
  checkIn : option Z;
  checkOut : option Z;
  hoursWorked : option Number.fixed;
  status : status_t;
  notes : option string
}.
End Attendance.

Module Payroll.
Inductive status_t : Type := pending | paid.

Record row : Type := mk {
  id : Z;
  employeeId : Z;
  month : Z;
  year : Z;
  basicSalary : Number.t;
  allowances : Number.t;
  deductions : Number.t;
  netSalary : Number.t;
  workingDays : Z;
  status : status_t;
  paidDate : option Z
}.
End Payroll.

(** The database: the rows of each table and the counters behind the
    auto-incremented ids. *)
Record store : Type := mkStore {
  users : list Z;
  employees : list Employee.row;
  attendance : list Attendance.row;
  payroll : list Payroll.row;
  nextAttendanceId : Z;
  nextPayrollId : Z
}.

Definition with_attendance (st : store) (rows : list Attendance.row) (next : Z) : store :=
  mkStore (users st) (employees st) rows (payroll st) next (nextPayrollId st).

Definition with_payroll (st : store) (rows : list Payroll.row) (next : Z) : store :=
  mkStore (users st) (employees st) (attendance st) rows (nextAttendanceId st) next.

(* ===================================================================== *)
(** ** Responses *)

Inductive error : Type :=
| ValidationError            (* 400, { errors } *)
| AlreadyCheckedIn           (* 400, 'Already checked in today' *)
| NotCheckedIn               (* 400, 'Please check in first' *)
| AlreadyCheckedOut          (* 400, 'Already checked out today' *)
| DuplicatePayroll (message : string)   (* 400, the message built from the existing record *)
| EmployeeRecordNotFound     (* 404, 'Employee record not found' *)
| EmployeeNotFound           (* 404, 'Employee not found' *)
| NotFound                   (* 404, 'Payroll record not found' *)
| ServerError.               (* 500, from the catch block *)

Definition http_status (e : error) : Z :=
  match e with
  | ValidationError | AlreadyCheckedIn | NotCheckedIn | AlreadyCheckedOut
  | DuplicatePayroll _ => 400
  | EmployeeRecordNotFound | EmployeeNotFound | NotFound => 404
  | ServerError => 500
  end.

Inductive response (A : Type) : Type :=
| Sent (code : Z) (body : A)
| Failed (e : error).
Arguments Sent {A} code body.
Arguments Failed {A} e.

(* ===================================================================== *)
(** ** Prisma queries *)

Definition employee_by_id (st : store) (employeeId : Z) : option Employee.row :=
  find (fun e => Employee.id e =? employeeId) (employees st).

(** [prisma.user.findUnique({ where: { id }, include: { employee: true } })]:
    [None] when there is no such user, otherwise the user's employee. *)
Definition user_with_employee (st : store) (uid : Z) : option (option Employee.row) :=
  if existsb (Z.eqb uid) (users st) then
    Some (find (fun e => match Employee.userId e with
                         | Some u => u =? uid
                         | None => false
                         end) (employees st))
  else None.

Definition same_day (employeeId date : Z) (a : Attendance.row) : bool :=
  (Attendance.employeeId a =? employeeId) && (Attendance.date a =? date).

(** [prisma.attendance.findUnique({ where: { employeeId_date } })]. *)
Definition attendance_findUnique (st : store) (employeeId date : Z) : option Attendance.row :=
  find (same_day employeeId date) (attendance st).

(** What [prisma.attendance.upsert] writes: the row of that employee and day
    is updated when there is one, and created with a fresh id otherwise; the
    row written is returned.  This is the whole of the call when the employee
    is on file, as in POST /checkin, where the id is that of the employee row
    the route has just read. *)
Definition attendance_upsert (st : store) (employeeId date : Z)
    (update : Attendance.row -> Attendance.row)
    (create : Z -> Attendance.row) : Attendance.row * store :=
  match attendance_findUnique st employeeId date with
  | Some a =>
      (update a,
       with_attendance st
         (map (fun x => if same_day employeeId date x then update x else x) (attendance st))
         (nextAttendanceId st))
  | None =>
      let a := create (nextAttendanceId st) in
      (a, with_attendance st (attendance st ++ [a]) (nextAttendanceId st + 1))
  end.

(** [prisma.attendance.upsert] for an employee id taken from the request.
    The row's [employeeId] is a foreign key: when the upsert has to create
    the row and no employee has that id, the database rejects the insert
    (Prisma's P2003) and nothing is written; an update of the row on file
    goes through. *)
Definition attendance_upsert_fk (st : store) (employeeId date : Z)
    (update : Attendance.row -> Attendance.row)
    (create : Z -> Attendance.row) : option (Attendance.row * store) :=
  match attendance_findUnique st employeeId date, employee_by_id st employeeId with
  | None, None => None
  | _, _ => Some (attendance_upsert st employeeId date update create)
  end.

(** [prisma.attendance.update({ where: { id }, data })] for a row just read;
    [id] is the primary key, so the rows of that id are that one row. *)
Definition attendance_update (st : store) (a : Attendance.row)
    (update : Attendance.row -> Attendance.row) : Attendance.row * store :=
  (update a,
   with_attendance st
     (map (fun x => if Attendance.id x =? Attendance.id a then update x else x) (attendance st))
     (nextAttendanceId st)).

(** [prisma.attendance.findMany] with the filter of the payroll route:
    employee, [date] between [gte] and [lte], status ['present']. *)
Definition present_in_window (employeeId gte lte : Z) (a : Attendance.row) : bool :=
  (Attendance.employeeId a =? employeeId)
  && (gte <=? Attendance.date a) && (Attendance.date a <=? lte)
  && Attendance.status_eqb (Attendance.status a) Attendance.present.

Definition attendance_findMany (st : store) (employeeId gte lte : Z) : list Attendance.row :=
  filter (present_in_window employeeId gte lte) (attendance st).

Definition same_period (employeeId month year : Z) (p : Payroll.row) : bool :=
  (Payroll.employeeId p =? employeeId) && (Payroll.month p =? month)
  && (Payroll.year p =? year).

(** [prisma.payroll.findFirst({ where: { employeeId, month, year },
    include: { employee } })]. *)
Definition payroll_findFirst (st : store) (employeeId month year : Z)
    : option (Payroll.row * option Employee.row) :=
  match find (same_period employeeId month year) (payroll st) with
  | Some p => Some (p, employee_by_id st (Payroll.employeeId p))
  | None => None
  end.

Definition payroll_create (st : store) (mkRow : Z -> Payroll.row) : Payroll.row * store :=
  let p := mkRow (nextPayrollId st) in
  (p, with_payroll st (payroll st ++ [p]) (nextPayrollId st + 1)).

(* ===================================================================== *)
(** ** routes/attendance.js *)

Section AttendanceRoutes.
Variable tz : Z.

(** The row written at check-in, when the day has none yet. *)
Definition checkin_create (employeeId today now : Z) (id : Z) : Attendance.row :=
  Attendance.mk id employeeId today (Some now) None None Attendance.present None.

(** The fields a check-in sets on the day's existing row. *)
Definition checkin_update (now : Z) (a : Attendance.row) : Attendance.row :=
  Attendance.mk (Attendance.id a) (Attendance.employeeId a) (Attendance.date a)
    (Some now) (Attendance.checkOut a) (Attendance.hoursWorked a)
    Attendance.present (Attendance.notes a).

(** The body of POST /checkin once the employee and the day are known:
    [employeeId] is [user.employee.id], the id of an employee row on file.
    [now_u] and [now_c] are the clock readings of the two [new Date()] in
    the [update] and [create] arguments of the upsert. *)
Definition recordCheckIn (st : store) (employeeId today now_u now_c : Z)
    : response Attendance.row * store :=
  match attendance_findUnique st employeeId today with
  | Some (Attendance.mk _ _ _ (Some _) _ _ _ _) => (Failed AlreadyCheckedIn, st)
  | _ =>
      let '(a, st') :=
        attendance_upsert st employeeId today
          (checkin_update now_u) (checkin_create employeeId today now_c) in
      (Sent 201 a, st')
  end.

(** POST /api/attendance/checkin for the authenticated user [uid]; [now] is
    the clock reading that gives the day. *)
Definition checkin (st : store) (uid now now_u now_c : Z)
    : response Attendance.row * store :=
  match user_with_employee st uid with
  | None => (Failed ServerError, st)
  | Some None => (Failed EmployeeRecordNotFound, st)
  | Some (Some employee) =>
      match JSDate.setHours tz (Some now) 0 0 0 0 with
      | None => (Failed ServerError, st)
      | Some today => recordCheckIn st (Employee.id employee) today now_u now_c
      end
  end.

(** [(checkOutTime - checkInTime) / (1000 * 60 * 60)]. *)
Definition hours_between (checkInTime checkOutTime : JSDate.t) : Number.t :=
  Number.div (JSDate.diff checkOutTime checkInTime) (Number.of_Z JSDate.msPerHour).

(** The fields a check-out sets. *)
Definition checkout_update (now : Z) (h : Number.fixed) (a : Attendance.row)
    : Attendance.row :=
  Attendance.mk (Attendance.id a) (Attendance.employeeId a) (Attendance.date a)
    (Attendance.checkIn a) (Some now) (Some h)
    (Attendance.status a) (Attendance.notes a).

(** The body of POST /checkout once the employee and the day are known;
    [now] is the clock reading of [checkOutTime]. *)
Definition recordCheckOut (st : store) (employeeId today now : Z)
    : response Attendance.row * store :=
  match attendance_findUnique st employeeId today with
  | None => (Failed NotCheckedIn, st)
  | Some a =>
      match Attendance.checkIn a with
      | None => (Failed NotCheckedIn, st)
      | Some checkIn =>
          match Attendance.checkOut a with
          | Some _ => (Failed AlreadyCheckedOut, st)
          | None =>
              let checkOutTime := Some now in
              let checkInTime := Some checkIn in
              let hoursWorked := hours_between checkInTime checkOutTime in
              let '(updated, st') :=
                attendance_update st a
                  (checkout_update now (Number.toFixed2 hoursWorked)) in
              (Sent 200 updated, st')
          end
      end
  end.

(** POST /api/attendance/checkout for the authenticated user [uid]. *)
Definition checkout (st : store) (uid now0 now : Z)
    : response Attendance.row * store :=
  match user_with_employee st uid with
  | None => (Failed ServerError, st)
  | Some None => (Failed EmployeeRecordNotFound, st)
  | Some (Some employee) =>
      match JSDate.setHours tz (Some now0) 0 0 0 0 with
      | None => (Failed ServerError, st)
      | Some today => recordCheckOut st (Employee.id employee) today now
      end
  end.

(** The body of POST /api/attendance, after validation.  [checkIn] and
    [checkOut] are [None] when the field is missing, null or otherwise
    falsy, and [Some v] for a value that [new Date] reads as the time value
    [v] (beyond the range of dates: an invalid date).  [notes] is [None]
    when the field is missing ([undefined]), [Some None] for an explicit
    null. *)
Record attendance_body : Type := mkBody {
  body_employeeId : Z;
  body_date : Z;
  body_checkIn : option Z;
  body_checkOut : option Z;
  body_status : Attendance.status_t;
  body_notes : option (option string)
}.

(** [let hoursWorked = null; if (checkIn && checkOut) { ... }]. *)
Definition hr_hoursWorked (checkIn checkOut : option Z) : option Number.t :=
  match checkIn, checkOut with
  | Some ci, Some co =>
      Some (hours_between (JSDate.fromValue ci) (JSDate.fromValue co))
  | _, _ => None
  end.

(** [hoursWorked ? hoursWorked.toFixed(2) : null]. *)
Definition hr_hoursWorked_field (hoursWorked : option Number.t) : option Number.fixed :=
  match hoursWorked with
  | Some h => if Number.truthy h then Some (Number.toFixed2 h) else None
  | None => None
  end.

(** [v ? new Date(v) : null]. *)
Definition hr_date_field (v : option Z) : option JSDate.t :=
  match v with
  | Some x => Some (JSDate.fromValue x)
  | None => None
  end.

(** Prisma takes a date field that is null or a valid date, and rejects an
    invalid one. *)
Definition prisma_date (d : option JSDate.t) : option (option Z) :=
  match d with
  | None => Some None
  | Some (Some tv) => Some (Some tv)
  | Some None => None
  end.

(** The [update] argument: a field given as [undefined] is left as it is. *)
Definition hr_update (ci co : option Z) (h : option Number.fixed)
    (status : Attendance.status_t) (notes : option (option string))
    (a : Attendance.row) : Attendance.row :=
  Attendance.mk (Attendance.id a) (Attendance.employeeId a) (Attendance.date a)
    ci co h status
    (match notes with
     | Some n => n
     | None => Attendance.notes a
     end).

(** The [create] argument: a field given as [undefined] takes its default. *)
Definition hr_create (employeeId date : Z) (ci co : option Z)
    (h : option Number.fixed) (status : Attendance.status_t)
    (notes : option (option string)) (id : Z) : Attendance.row :=
  Attendance.mk id employeeId date ci co h status
    (match notes with
     | Some n => n
     | None => None
     end).

(** POST /api/attendance (HR manager and admin).  The employee id comes from
    the request body; an upsert the database rejects lands in the catch block,
    as does an invalid date. *)
Definition hrUpsert (st : store) (b : attendance_body)
    : response Attendance.row * store :=
  match JSDate.setHours tz (JSDate.fromValue (body_date b)) 0 0 0 0 with
  | None => (Failed ServerError, st)
  | Some attendanceDate =>
      let hoursWorked := hr_hoursWorked (body_checkIn b) (body_checkOut b) in
      match prisma_date (hr_date_field (body_checkIn b)),
            prisma_date (hr_date_field (body_checkOut b)) with
      | Some ci, Some co =>
          let h := hr_hoursWorked_field hoursWorked in
          match
            attendance_upsert_fk st (body_employeeId b) attendanceDate
              (hr_update ci co h (body_status b) (body_notes b))
              (hr_create (body_employeeId b) attendanceDate ci co h
                 (body_status b) (body_notes b))
          with
          | Some (a, st') => (Sent 201 a, st')
          | None => (Failed ServerError, st)
          end
      | _, _ => (Failed ServerError, st)
      end
  end.

End AttendanceRoutes.

(* ===================================================================== *)
(** ** routes/payroll.js *)

Section PayrollRoutes.
Variable tz : Z.

(** A number inside a template literal. *)
Definition show (n : Z) : string := NilZero.string_of_int (Z.to_int n).

Definition employee_name (e : option Employee.row) : string :=
  match e with
  | Some e => (Employee.firstName e ++ " " ++ Employee.lastName e)%string
  | None => "Employee"%string
  end.

Definition duplicate_message (employeeName : string) (month year : Z) : string :=
  ("Payroll for " ++ employeeName ++ " for " ++ show month ++ "/" ++ show year
   ++ " already exists. Please check the payroll list or delete the existing record first.")%string.

(** [body('month').isInt({ min: 1, max: 12 })], [body('year').isInt({ min: 2000 })]. *)
Definition valid_period (month year : Z) : bool :=
  (1 <=? month) && (month <=? 12) && (2000 <=? year).

(** [startDate]: first day of the month at 00:00:00.000. *)
Definition startDate (month year : Z) : JSDate.t :=
  JSDate.setHours tz (JSDate.fromYMD tz year (month - 1) 1) 0 0 0 0.

(** [endDate]: day 0 of the next month at 23:59:59.999. *)
Definition endDate (month year : Z) : JSDate.t :=
  JSDate.setHours tz (JSDate.fromYMD tz year month 0) 23 59 59 999.

(** The row handed to [prisma.payroll.create]. *)
Definition payroll_row (employee : Employee.row) (employeeId month year : Z)
    (present_rows : list Attendance.row) (id : Z) : Payroll.row :=
  let workingDays := Z.of_nat (List.length present_rows) in
  let basicSalary := Employee.salary employee in
  let allowances := Number.mul basicSalary Number.lit_0_1 in
  let deductions := Number.mul basicSalary Number.lit_0_05 in
  let netSalary := Number.sub (Number.add basicSalary allowances) deductions in
  Payroll.mk id employeeId month year basicSalary allowances deductions netSalary
    workingDays Payroll.pending None.

(** POST /api/payroll (HR manager and admin). *)
Definition generatePayroll (st : store) (employeeId month year : Z)
    : response Payroll.row * store :=
  if negb (valid_period month year) then (Failed ValidationError, st)
  else
    match payroll_findFirst st employeeId month year with
    | Some (_, existing_employee) =>
        (Failed (DuplicatePayroll
                   (duplicate_message (employee_name existing_employee) month year)),
         st)
    | None =>
        match employee_by_id st employeeId with
        | None => (Failed EmployeeNotFound, st)
        | Some employee =>
            match startDate month year, endDate month year with
            | Some gte, Some lte =>
                let rows := attendance_findMany st employeeId gte lte in
                let '(p, st') :=
                  payroll_create st (payroll_row employee employeeId month year rows) in
                (Sent 201 p, st')
            | _, _ => (Failed ServerError, st)
            end
        end
    end.

(** The fields PUT /:id/paid sets. *)
Definition paid_update (now : Z) (p : Payroll.row) : Payroll.row :=
  Payroll.mk (Payroll.id p) (Payroll.employeeId p) (Payroll.month p) (Payroll.year p)
    (Payroll.basicSalary p) (Payroll.allowances p) (Payroll.deductions p)
    (Payroll.netSalary p) (Payroll.workingDays p) Payroll.paid (Some now).

(** PUT /api/payroll/:id/paid; Prisma's P2025 (no row to update) becomes
    the 404. *)
Definition markPaid (st : store) (payrollId now : Z)
    : response Payroll.row * store :=
  match find (fun p => Payroll.id p =? payrollId) (payroll st) with
  | None => (Failed NotFound, st)
  | Some p =>
      (Sent 200 (paid_update now p),
       with_payroll st
         (map (fun x => if Payroll.id x =? payrollId then paid_update now x else x)
            (payroll st))
         (nextPayrollId st))
  end.

End PayrollRoutes.

(* ===================================================================== *)
(** ** Specification-side definitions *)

(** [sub] occurs inside [s]. *)
Definition includes (s sub : string) : Prop :=
  exists pre post : string, s = (pre ++ sub ++ post)%string.

(** The display name of an employee. *)
Definition display_name (e : Employee.row) : string :=
  (Employee.firstName e ++ " " ++ Employee.lastName e)%string.

(** A payroll row for that employee and period is on file. *)
Definition has_payroll (st : store) (employeeId month year : Z) : Prop :=
  exists p, In p (payroll st) /\ Payroll.employeeId p = employeeId
            /\ Payroll.month p = month /\ Payroll.year p = year.

(* --------------------------------------------------------------------- *)
(** *** The seeded database, used for the worked examples *)

Module Seed.
Definition john : Employee.row :=
  Employee.mk 1 (Some 1) "John" "Doe" (Number.of_Z 5000).
Definition jane : Employee.row :=
  Employee.mk 2 (Some 2) "Jane" "Smith" (Number.of_Z 6000).

(** Africa/Kigali: UTC+2, no daylight saving. *)
Definition kigali : Z := 2 * JSDate.msPerHour.

Definition db : store := mkStore [1; 2] [john; jane] [] [] 1 1.

(** 4 March 2024, 00:00 in Kigali, and clock readings on that day. *)
Definition mar4 : Z := 1709503200000.
Definition mar4_0800 : Z := mar4 + 8 * JSDate.msPerHour.
Definition mar4_1630 : Z := mar4 + 16 * JSDate.msPerHour + 30 * 60000.

(** March 2024 payroll of John, generated and then paid. *)
Definition march_pending : Payroll.row :=
  Payroll.mk 1 1 3 2024 (Number.of_Z 5000) (Number.of_Z 500) (Number.of_Z 250)
    (Number.of_Z 5250) 0 Payroll.pending None.
Definition db_march : store := mkStore [1; 2] [john; jane] [] [march_pending] 1 2.
Definition db_march_paid : store :=
  mkStore [1; 2] [john; jane] [] [paid_update mar4_0800 march_pending] 1 2.
End Seed.

(** A time value inside the range of dates. *)
Definition valid_time (tv : Z) : Prop := Z.abs tv <= 8640000000000000.

Definition valid_opt (v : option Z) : Prop :=
  match v with
  | Some tv => valid_time tv
  | None => True
  end.

Module Cases.
(** A day's row as the HR route leaves it when only a check-out time is
    entered. *)
Definition checkout_only : attendance_body :=
  mkBody 1 Seed.mar4_0800 None (Some Seed.mar4_1630) Attendance.present None.
Definition db_checkout_only : store :=
  snd (hrUpsert Seed.kigali Seed.db checkout_only).

(** A day's row with a note, and a later correction that sends no [notes]
    field. *)
Definition with_note : attendance_body :=
  mkBody 1 Seed.mar4_0800 (Some Seed.mar4_0800) None Attendance.late
    (Some (Some "bus strike"%string)).
Definition db_with_note : store :=
  snd (hrUpsert Seed.kigali Seed.db with_note).
Definition correction : attendance_body :=
  mkBody 1 Seed.mar4_0800 (Some Seed.mar4_0800) (Some Seed.mar4_1630)
    Attendance.present None.

(** Attendance around March 2024: rows of John on 29 February, on 1 March
    (the first instant of the month), on 4 March (late), on 31 March, at the
    last instant of the month and on 1 April, and a row of Jane. *)
Definition day_row (id employeeId date : Z) (status : Attendance.status_t)
    : Attendance.row :=
  Attendance.mk id employeeId date None None None status None.
Definition db_march_attendance : store :=
  mkStore [1; 2] [Seed.john; Seed.jane]
    [ day_row 1 1 1709157600000 Attendance.present;
      day_row 2 1 1709244000000 Attendance.present;
      day_row 3 1 Seed.mar4 Attendance.late;
      day_row 4 1 1711836000000 Attendance.present;
      day_row 5 1 1711922399999 Attendance.present;
      day_row 6 1 1711922400000 Attendance.present;
      day_row 7 2 Seed.mar4 Attendance.present ]
    [] 8 1.
End Cases.

(* --------------------------------------------------------------------- *)
(** *** The calendar, by counting days *)

Module Calendar.
Definition is_leap_year (y : Z) : bool :=
  ((y mod 4 =? 0) && negb (y mod 100 =? 0)) || (y mod 400 =? 0).

Definition days_in_year (y : Z) : Z := if is_leap_year y then 366 else 365.

(** Months are numbered from 1, as in the payroll request. *)
Definition days_in_month (y m : Z) : Z :=
  match m with
  | 1 | 3 | 5 | 7 | 8 | 10 | 12 => 31
  | 4 | 6 | 9 | 11 => 30
  | 2 => if is_leap_year y then 29 else 28
  | _ => 0
  end.

(** Days in the [n] years from 1970 on. *)
Fixpoint days_of_years (n : nat) : Z :=
  match n with
  | O => 0
  | S k => days_of_years k + days_in_year (1970 + Z.of_nat k)
  end.

(** Days in the first [n] months of year [y]. *)
Fixpoint days_of_months (y : Z) (n : nat) : Z :=
  match n with
  | O => 0
  | S k => days_of_months y k + days_in_month y (Z.of_nat (S k))
  end.

(** The day number (days since 1 January 1970) of day [d] of month [m] of
    year [y]. *)
Definition day_number (y m d : Z) : Z :=
  days_of_years (Z.to_nat (y - 1970)) + days_of_months y (Z.to_nat (m - 1)) + (d - 1).

(** The instant at which the local clock of a zone at offset [tz] shows the
    given day and time of day. *)
Definition local_instant (tz y m d h mi s ms : Z) : Z :=
  day_number y m d * 86400000 + (h * 3600000 + mi * 60000 + s * 1000 + ms) - tz.

(** First and last instant of a month, to the millisecond. *)
Definition month_start (tz y m : Z) : Z := local_instant tz y m 1 0 0 0 0.
Definition month_end (tz y m : Z) : Z :=
  local_instant tz y m (days_in_month y m) 23 59 59 999.
End Calendar.

(** The attendance rows that count as working days of an employee between two
    instants, both included. *)
Definition is_working_day (employeeId first last : Z) (a : Attendance.row) : bool :=
  match Attendance.status a with
  | Attendance.present =>
      (Attendance.employeeId a =? employeeId)
      && (first <=? Attendance.date a) && (Attendance.date a <=? last)
  | _ => false
  end.

Definition count_working_days (st : store) (employeeId first last : Z) : Z :=
  Z.of_nat (List.length (filter (is_working_day employeeId first last) (attendance st))).

(* --------------------------------------------------------------------- *)
(** *** Durations and their rounding *)

(** [h] hundredths is a closest two-decimal value to the fraction
    [num / den] (with [den] positive): it is off by at most 0.005. *)
Definition rounds_to_hundredths (num den h : Z) : Prop :=
  2 * Z.abs (den * h - 100 * num) <= den.

(** A stored [hoursWorked] that is a number below zero. *)
Definition negative_hours (h : option Number.fixed) : Prop :=
  match h with
  | Some (Number.Dec n) => n < 0
  | Some (Number.Sci (S754_finite s _ _)) => s = true
  | Some (Number.Infinite s) => s = true
  | _ => False
  end.

(** Two instants whose distance in milliseconds is a safe integer. *)
Definition safe_distance (a b : Z) : Prop := Z.abs (b - a) < 2 ^ 53.

(** A shift record with no bits shifted out yet. *)
Definition exact_record (m : Z) : shr_record := Build_shr_record m false false.

(** The binary64 form of a nonzero integer below 2^53: 53 bits of mantissa
    and the exponent that goes with them. *)
Definition canonical (z : Z) : spec_float :=
  S754_finite (z <? 0) (Z.to_pos (Z.abs z * 2 ^ (53 - Zdigits2 z))) (Zdigits2 z - 53).

(** The second half of [binary_round_aux]: the rounded mantissa is brought
    back to 53 bits. *)
Definition renormalize (s : bool) (m1 e1 : Z) : spec_float :=
  let '(mrs, e2) := shr_fexp 53 1024 m1 e1 loc_Exact in
  match shr_m mrs with
  | Z0 => S754_zero s
  | Zpos m => if e2 <=? 1024 - 53 then S754_finite s m e2 else S754_infinity s
  | Zneg _ => S754_nan
  end.

(** Mantissa of 3600000 as a binary64 number: 3600000 = hour_mantissa * 2^-31. *)
Definition hour_mantissa : positive := 7730941132800000.

Module Durations.
(** An entry with the check-out time before the check-in time. *)
Definition reversed : attendance_body :=
  mkBody 1 Seed.mar4_0800 (Some Seed.mar4_1630) (Some Seed.mar4_0800)
    Attendance.present None.

(** A day's row whose check-in time lies ahead of the clock. *)
Definition ahead : attendance_body :=
  mkBody 1 Seed.mar4_0800 (Some Seed.mar4_1630) None Attendance.present None.
Definition db_ahead : store := snd (hrUpsert Seed.kigali Seed.db ahead).

(** A day's row with a check-in at 08:00, open for check-out. *)
Definition db_checked_in : store :=
  snd (recordCheckIn Seed.db 1 Seed.mar4 Seed.mar4_0800 Seed.mar4_0800).

(** An entry with both times at 08:00. *)
Definition same_instant : attendance_body :=
  mkBody 1 Seed.mar4_0800 (Some Seed.mar4_0800) (Some Seed.mar4_0800)
    Attendance.present None.
End Durations.

(** A number that is zero or carries the sign [s]; NaN is neither. *)
Definition signed_as (s : bool) (x : spec_float) : Prop :=
  match x with
  | S754_zero _ => True
  | S754_finite s' _ _ | S754_infinity s' => s' = s
  | S754_nan => False
  end.

(* ===================================================================== *)
(** ** The reading routes, deletion and the dashboard counts *)

(** [req.user.role]. *)
Inductive role : Type := role_employee | role_hr_manager | role_system_admin.

(** What a reading route sends: a 200 with its body, or a status with the
    text of [{ error }]. *)
Inductive reply (A : Type) : Type :=
| Ok (body : A)
| Refused (code : Z) (message : string).
Arguments Ok {A} body.
Arguments Refused {A} code message.

Section OrderBy.
Context {A : Type}.
(** [before x y]: the ordering lets [x] come before [y]. *)
Variable before : A -> A -> bool.

Fixpoint insert_row (x : A) (l : list A) : list A :=
  match l with
  | [] => [x]
  | y :: l' => if before x y then x :: l else y :: insert_row x l'
  end.

(** [orderBy]: the rows in the requested order, rows that tie in table
    order. *)
Fixpoint orderBy (l : list A) : list A :=
  match l with
  | [] => []
  | x :: l' => insert_row x (orderBy l')
  end.
End OrderBy.

(** [orderBy: { date: 'desc' }]. *)
Definition date_desc (a b : Attendance.row) : bool :=
  Attendance.date b <=? Attendance.date a.

(** [orderBy: [{ year: 'desc' }, { month: 'desc' }]]. *)
Definition period_desc (p q : Payroll.row) : bool :=
  (Payroll.year q <? Payroll.year p)
  || ((Payroll.year q =? Payroll.year p) && (Payroll.month q <=? Payroll.month p)).

(** The employee whose rows a reading route is limited to: the user's own
    for role employee, the [employeeId] of the query (if any) otherwise. *)
Definition reading_scope (st : store) (uid : Z) (userRole : role)
    (employeeId : option Z) {A : Type} (k : option Z -> reply A) (crash : string)
    : reply A :=
  match userRole with
  | role_employee =>
      match user_with_employee st uid with
      | None => Refused 500 crash
      | Some None => Refused 404 "Employee record not found"
      | Some (Some employee) => k (Some (Employee.id employee))
      end
  | _ => k employeeId
  end.

Definition matches (v : option Z) (x : Z) : bool :=
  match v with
  | Some w => x =? w
  | None => true
  end.

(** The query string of GET /api/attendance: a parameter is [None] when it is
    missing or empty, [employeeId] is given as [parseInt] reads it and the
    dates as the time value [new Date] reads. *)
Record attendance_query : Type := mkAttendanceQuery {
  query_employeeId : option Z;
  query_startDate : option Z;
  query_endDate : option Z
}.

Definition attendance_where (employeeId gte lte : option Z) (a : Attendance.row) : bool :=
  matches employeeId (Attendance.employeeId a)
  && (match gte with
      | Some t => t <=? Attendance.date a
      | None => true
      end)
  && (match lte with
      | Some t => Attendance.date a <=? t
      | None => true
      end).

(** GET /api/attendance. *)
Definition getAttendance (st : store) (uid : Z) (userRole : role) (q : attendance_query)
    : reply (list Attendance.row) :=
  reading_scope st uid userRole (query_employeeId q)
    (fun employeeId =>
       match prisma_date (hr_date_field (query_startDate q)),
             prisma_date (hr_date_field (query_endDate q)) with
       | Some gte, Some lte =>
           Ok (orderBy date_desc
                 (filter (attendance_where employeeId gte lte) (attendance st)))
       | _, _ => Refused 500 "Failed to fetch attendance"
       end)
    "Failed to fetch attendance".

(** The query string of GET /api/payroll, read by [parseInt]. *)
Record payroll_query : Type := mkPayrollQuery {
  pquery_employeeId : option Z;
  pquery_month : option Z;
  pquery_year : option Z
}.

Definition payroll_where (employeeId month year : option Z) (p : Payroll.row) : bool :=
  matches employeeId (Payroll.employeeId p)
  && matches month (Payroll.month p)
  && matches year (Payroll.year p).

(** GET /api/payroll. *)
Definition getPayrolls (st : store) (uid : Z) (userRole : role) (q : payroll_query)
    : reply (list Payroll.row) :=
  reading_scope st uid userRole (pquery_employeeId q)
    (fun employeeId =>
       Ok (orderBy period_desc
             (filter (payroll_where employeeId (pquery_month q) (pquery_year q))
                (payroll st))))
    "Failed to fetch payroll".

Definition payroll_by_id (st : store) (payrollId : Z) : option Payroll.row :=
  find (fun p => Payroll.id p =? payrollId) (payroll st).

(** GET /api/payroll/:id. *)
Definition getPayrollById (st : store) (uid : Z) (userRole : role) (payrollId : Z)
    : reply Payroll.row :=
  match payroll_by_id st payrollId with
  | None => Refused 404 "Payroll record not found"
  | Some p =>
      match userRole with
      | role_employee =>
          match user_with_employee st uid with
          | None => Refused 500 "Failed to fetch payroll"
          | Some None => Refused 403 "Access denied"
          | Some (Some employee) =>
              if Employee.id employee =? Payroll.employeeId p then Ok p
              else Refused 403 "Access denied"
          end
      | _ => Ok p
      end
  end.

(** DELETE /api/payroll/:id (system admin). *)
Definition deletePayroll (st : store) (payrollId : Z) : reply string * store :=
  match payroll_by_id st payrollId with
  | None => (Refused 404 "Payroll record not found", st)
  | Some _ =>
      (Ok "Payroll record deleted successfully"%string,
       with_payroll st
         (filter (fun p => negb (Payroll.id p =? payrollId)) (payroll st))
         (nextPayrollId st))
  end.

(** GET /api/dashboard/stats, the count behind [todayAttendance] (HR manager
    and admin): rows with status present dated from today 00:00:00.000 to
    today 23:59:59.999, [None] when a bound is no date. *)
Definition todayAttendance (tz : Z) (st : store) (now : Z) : option Z :=
  match JSDate.setHours tz (Some now) 0 0 0 0 with
  | Some today =>
      match JSDate.setHours tz (Some today) 23 59 59 999 with
      | Some todayEnd =>
          Some (Z.of_nat (List.length
                  (filter (fun a => (today <=? Attendance.date a)
                                    && (Attendance.date a <=? todayEnd)
                                    && Attendance.status_eqb (Attendance.status a)
                                         Attendance.present)
                     (attendance st))))
      | None => None
      end
  | None => None
  end.

(** GET /api/dashboard/stats, the count behind [myPayroll] (employee). *)
Definition myPayroll (st : store) (employeeId : Z) : Z :=
  Z.of_nat (List.length (filter (fun p => Payroll.employeeId p =? employeeId) (payroll st))).

(* --------------------------------------------------------------------- *)
(** *** What the tables keep *)

Definition attendance_key (a : Attendance.row) : Z * Z :=
  (Attendance.employeeId a, Attendance.date a).

(** The attendance table: one row per employee and day, ids distinct and
    below the counter. *)
Definition attendance_ok (st : store) : Prop :=
  NoDup (map attendance_key (attendance st))
  /\ NoDup (map Attendance.id (attendance st))
  /\ forall a, In a (attendance st) -> Attendance.id a < nextAttendanceId st.

Definition payroll_period (p : Payroll.row) : Z * Z * Z :=
  (Payroll.employeeId p, Payroll.month p, Payroll.year p).

(** The payroll table: one row per employee, month and year, ids distinct
    and below the counter. *)
Definition payroll_ok (st : store) : Prop :=
  NoDup (map payroll_period (payroll st))
  /\ NoDup (map Payroll.id (payroll st))
  /\ forall p, In p (payroll st) -> Payroll.id p < nextPayrollId st.

(** A date that is a midnight on the server's clock. *)
Definition local_midnight (tz d : Z) : Prop := (d + tz) mod JSDate.msPerDay = 0.

(** Two rows that differ at most in the named fields. *)
Definition same_but_checkIn_status (a a' : Attendance.row) : Prop :=
  Attendance.id a' = Attendance.id a
  /\ Attendance.employeeId a' = Attendance.employeeId a
  /\ Attendance.date a' = Attendance.date a
  /\ Attendance.checkOut a' = Attendance.checkOut a
  /\ Attendance.hoursWorked a' = Attendance.hoursWorked a
  /\ Attendance.notes a' = Attendance.notes a.

Definition same_but_checkOut_hours (a a' : Attendance.row) : Prop :=
  Attendance.id a' = Attendance.id a
  /\ Attendance.employeeId a' = Attendance.employeeId a
  /\ Attendance.date a' = Attendance.date a
  /\ Attendance.checkIn a' = Attendance.checkIn a
  /\ Attendance.status a' = Attendance.status a
  /\ Attendance.notes a' = Attendance.notes a.

Definition same_but_paid (p p' : Payroll.row) : Prop :=
  Payroll.id p' = Payroll.id p
  /\ Payroll.employeeId p' = Payroll.employeeId p
  /\ Payroll.month p' = Payroll.month p
  /\ Payroll.year p' = Payroll.year p
  /\ Payroll.basicSalary p' = Payroll.basicSalary p
  /\ Payroll.allowances p' = Payroll.allowances p
  /\ Payroll.deductions p' = Payroll.deductions p
  /\ Payroll.netSalary p' = Payroll.netSalary p
  /\ Payroll.workingDays p' = Payroll.workingDays p.

(* --------------------------------------------------------------------- *)
(** *** More worked examples *)

Module Reading.
(** Payroll of three periods, John's and Jane's, in no particular order. *)
Definition pay (id employeeId month year : Z) (status : Payroll.status_t)
    : Payroll.row :=
  Payroll.mk id employeeId month year (Number.of_Z 5000) (Number.of_Z 500)
    (Number.of_Z 250) (Number.of_Z 5250) 20 status None.
Definition db_payroll : store :=
  mkStore [1; 2] [Seed.john; Seed.jane] []
    [ pay 1 1 12 2023 Payroll.paid; pay 2 2 2 2024 Payroll.pending;
      pay 3 1 2 2024 Payroll.pending; pay 4 1 1 2024 Payroll.paid ]
    1 5.

Definition john_all : payroll_query := mkPayrollQuery None None None.
Definition john_asked : payroll_query := mkPayrollQuery (Some 1) None None.
Definition jane_asked : payroll_query := mkPayrollQuery (Some 2) None None.

(** A user without an employee record. *)
Definition db_orphan : store :=
  mkStore [1; 2; 3] [Seed.john; Seed.jane] [] [pay 1 1 12 2023 Payroll.paid] 1 2.

(** March 2024 attendance, seen through GET /api/attendance. *)
Definition march_query : attendance_query :=
  mkAttendanceQuery None (Some 1709244000000) (Some 1711922399999).
Definition march_john_query : attendance_query :=
  mkAttendanceQuery (Some 1) (Some 1709244000000) (Some 1711922399999).
End Reading.

Module Entries.
(** An HR entry for an employee id that is not on file. *)
Definition stranger : attendance_body :=
  mkBody 9 Seed.mar4_0800 (Some Seed.mar4_0800) (Some Seed.mar4_1630)
    Attendance.present None.

(** An HR entry whose check-out time is 18 seconds before its check-in
    time. *)
Definition just_before : attendance_body :=
  mkBody 1 Seed.mar4_0800 (Some Seed.mar4_0800) (Some (Seed.mar4_0800 - 18000))
    Attendance.present None.

(** The morning of 5 March 2024 in Kigali. *)
Definition mar5_0800 : Z := Seed.mar4_0800 + JSDate.msPerDay.
End Entries.

(* ===================================================================== *)
(** ** Proofs *)

(** *** Lists of rows *)

Lemma find_none_iff {A : Type} (p : A -> bool) (l : list A) :
  find p l = None <-> forall x, In x l -> p x = false.
Proof.
  split.
  - intros H x Hx. exact (find_none p l H x Hx).
  - induction l as [|a l IH]; intros H; simpl; [reflexivity|].
    rewrite (H a (or_introl eq_refl)). apply IH.
    intros x Hx. apply H. now right.
Qed.

Lemma find_some_of_in {A : Type} (p : A -> bool) (l : list A) (x : A) :
  In x l -> p x = true -> exists y, find p l = Some y.
Proof.
  intros Hx Hp. destruct (find p l) as [y|] eqn:E; [now exists y|].
  rewrite (find_none p l E x Hx) in Hp. discriminate.
Qed.

(** Rewriting rows without touching what a search looks at leaves the search
    on the same row. *)
Lemma find_map_stable {A : Type} (p : A -> bool) (g : A -> A) (l : list A) :
  (forall x, p (g x) = p x) ->
  find p (map g l) = option_map g (find p l).
Proof.
  intros Hg. induction l as [|a l IH]; simpl; [reflexivity|].
  rewrite Hg. destruct (p a); [reflexivity|exact IH].
Qed.

Lemma find_app_none {A : Type} (p : A -> bool) (l : list A) (a : A) :
  find p l = None -> find p (l ++ [a]) = if p a then Some a else None.
Proof.
  induction l as [|b l IH]; simpl; intros H; [reflexivity|].
  destruct (p b); [discriminate|]. now apply IH.
Qed.

(** *** Marking a payroll row paid *)

Lemma paid_update_id now p : Payroll.id (paid_update now p) = Payroll.id p.
Proof. reflexivity. Qed.

(** C7.  [markPaid] answers 404 NotFound when no payroll row has the id and
    leaves the table alone; when a row has it, the answer is that row with
    status [paid] and [paidDate] the clock reading, and every row of that id
    in the table is in that state afterwards.  A row that is already paid is
    no exception: the call succeeds and the status stays [paid]. *)
Theorem markPaid_spec (st : store) (payrollId now : Z) :
  ((forall p, In p (payroll st) -> Payroll.id p <> payrollId) ->
     markPaid st payrollId now = (Failed NotFound, st))
  /\
  (forall p, In p (payroll st) -> Payroll.id p = payrollId ->
     exists p',
       fst (markPaid st payrollId now) = Sent 200 p'
       /\ In p' (payroll (snd (markPaid st payrollId now)))
       /\ Payroll.id p' = payrollId
       /\ Payroll.status p' = Payroll.paid
       /\ Payroll.paidDate p' = Some now
       /\ In (paid_update now p) (payroll (snd (markPaid st payrollId now)))
       /\ (Payroll.status p = Payroll.paid ->
           Payroll.status (paid_update now p) = Payroll.paid)
       /\ forall q, In q (payroll (snd (markPaid st payrollId now))) ->
                    Payroll.id q = payrollId ->
                    Payroll.status q = Payroll.paid /\ Payroll.paidDate q = Some now).
Proof.
  unfold markPaid. split.
  - intros Hno.
    assert (E : find (fun p => Payroll.id p =? payrollId) (payroll st) = None).
    { apply find_none_iff. intros x Hx. apply Z.eqb_neq. now apply Hno. }
    now rewrite E.
  - intros p Hp Hid.
    destruct (find_some_of_in (fun p => Payroll.id p =? payrollId) _ p Hp) as [p0 E].
    { now apply Z.eqb_eq. }
    rewrite E. cbn [fst snd with_payroll payroll].
    destruct (find_some _ _ E) as [Hin0 Hid0]. apply Z.eqb_eq in Hid0.
    set (g := fun x => if Payroll.id x =? payrollId then paid_update now x else x).
    assert (Hg : forall x, Payroll.id x = payrollId -> g x = paid_update now x).
    { intros x Hx. unfold g. apply Z.eqb_eq in Hx. now rewrite Hx. }
    exists (paid_update now p0). repeat split.
    + rewrite <- (Hg p0 Hid0). now apply in_map.
    + exact Hid0.
    + rewrite <- (Hg p Hid). now apply in_map.
    + apply in_map_iff in H. destruct H as [x [Hx _]]. subst q.
      unfold g in *. destruct (Payroll.id x =? payrollId) eqn:Ex; [reflexivity|].
      apply Z.eqb_neq in Ex. contradiction.
    + apply in_map_iff in H. destruct H as [x [Hx _]]. subst q.
      unfold g in *. destruct (Payroll.id x =? payrollId) eqn:Ex; [reflexivity|].
      apply Z.eqb_neq in Ex. contradiction.
Qed.

(** The seeded March payroll: paying it stamps the date, paying it again
    succeeds and re-stamps it, and an unknown id is a 404. *)
Lemma markPaid_spec_witness :
  markPaid Seed.db 7 Seed.mar4_0800 = (Failed NotFound, Seed.db)
  /\ (exists p',
        fst (markPaid Seed.db_march 1 Seed.mar4_0800) = Sent 200 p'
        /\ Payroll.status p' = Payroll.paid
        /\ Payroll.paidDate p' = Some Seed.mar4_0800)
  /\ (exists p',
        fst (markPaid Seed.db_march_paid 1 Seed.mar4_1630) = Sent 200 p'
        /\ Payroll.status p' = Payroll.paid
        /\ Payroll.paidDate p' = Some Seed.mar4_1630).
Proof.
  split; [|split].
  - apply (proj1 (markPaid_spec Seed.db 7 Seed.mar4_0800)).
    intros p [].
  - destruct (proj2 (markPaid_spec Seed.db_march 1 Seed.mar4_0800)
                Seed.march_pending (or_introl eq_refl) eq_refl)
      as [p' [H1 [_ [_ [H2 [H3 _]]]]]].
    exists p'. repeat split; assumption.
  - destruct (proj2 (markPaid_spec Seed.db_march_paid 1 Seed.mar4_1630)
                (paid_update Seed.mar4_0800 Seed.march_pending) (or_introl eq_refl) eq_refl)
      as [p' [H1 [_ [_ [H2 [H3 _]]]]]].
    exists p'. repeat split; assumption.
Defined.

(** *** Generating a payroll twice *)

Lemma same_period_true employeeId month year p :
  same_period employeeId month year p = true <->
  Payroll.employeeId p = employeeId /\ Payroll.month p = month /\ Payroll.year p = year.
Proof.
  unfold same_period. rewrite !andb_true_iff, !Z.eqb_eq. tauto.
Qed.

Lemma includes_name (name : string) (month year : Z) :
  includes (duplicate_message name month year) name.
Proof.
  exists "Payroll for "%string.
  exists (" for " ++ show month ++ "/" ++ show year
          ++ " already exists. Please check the payroll list or delete the existing record first.")%string.
  reflexivity.
Qed.

(** What the route does when the period is already on file. *)
Lemma generatePayroll_on_existing tz st employeeId month year :
  valid_period month year = true ->
  has_payroll st employeeId month year ->
  generatePayroll tz st employeeId month year =
    (Failed (DuplicatePayroll
               (duplicate_message (employee_name (employee_by_id st employeeId)) month year)),
     st).
Proof.
  intros Hv [p [Hin Hp]]. unfold generatePayroll, payroll_findFirst.
  rewrite Hv. cbn [negb].
  destruct (find_some_of_in (same_period employeeId month year) _ p Hin) as [p0 E].
  { now apply same_period_true. }
  rewrite E. destruct (find_some _ _ E) as [_ H0].
  apply same_period_true in H0. destruct H0 as [H0 _]. now rewrite H0.
Qed.

(** C3.  With a payroll row on file for the employee, month and year, the
    route answers DuplicatePayroll, the message carries the employee's first
    and last name, and the database is what it was. *)
Theorem generatePayroll_duplicate tz st employeeId month year e :
  valid_period month year = true ->
  has_payroll st employeeId month year ->
  employee_by_id st employeeId = Some e ->
  exists message,
    generatePayroll tz st employeeId month year = (Failed (DuplicatePayroll message), st)
    /\ includes message (display_name e).
Proof.
  intros Hv Hp He.
  exists (duplicate_message (display_name e) month year). split.
  - rewrite (generatePayroll_on_existing tz st employeeId month year Hv Hp), He.
    reflexivity.
  - apply includes_name.
Qed.

Lemma generatePayroll_duplicate_witness :
  exists message,
    generatePayroll Seed.kigali Seed.db_march 1 3 2024
      = (Failed (DuplicatePayroll message), Seed.db_march)
    /\ includes message "John Doe".
Proof.
  apply (generatePayroll_duplicate Seed.kigali Seed.db_march 1 3 2024 Seed.john).
  - reflexivity.
  - exists Seed.march_pending. repeat split. now left.
  - reflexivity.
Defined.

(** A successful call puts the period on file, so the next call for the same
    employee, month and year is refused. *)
Lemma generatePayroll_twice tz st employeeId month year p st' :
  generatePayroll tz st employeeId month year = (Sent 201 p, st') ->
  exists message,
    generatePayroll tz st' employeeId month year = (Failed (DuplicatePayroll message), st')
    /\ payroll st' = payroll st ++ [p]
    /\ forall e, employee_by_id st employeeId = Some e -> includes message (display_name e).
Proof.
  unfold generatePayroll at 1.
  destruct (valid_period month year) eqn:Hv; cbn [negb]; [|discriminate].
  destruct (payroll_findFirst st employeeId month year) as [[? ?]|]; [discriminate|].
  destruct (employee_by_id st employeeId) as [e|] eqn:He; [|discriminate].
  destruct (startDate tz month year) as [gte|]; [|discriminate].
  destruct (endDate tz month year) as [lte|]; [|discriminate].
  unfold payroll_create. intros H. injection H as Hp Hst. subst st'.
  eexists. split; [|split].
  - apply generatePayroll_on_existing; [exact Hv|].
    exists p. cbn [payroll with_payroll]. split; [apply in_or_app; right; now left|].
    subst p. repeat split.
  - cbn [payroll with_payroll]. now rewrite Hp.
  - intros e' He'. injection He' as <-.
    change (employee_by_id (with_payroll st _ _) employeeId)
      with (employee_by_id st employeeId).
    rewrite He. apply includes_name.
Qed.

(** *** Check-in *)

Lemma same_day_true employeeId date a :
  same_day employeeId date a = true <->
  Attendance.employeeId a = employeeId /\ Attendance.date a = date.
Proof.
  unfold same_day. rewrite andb_true_iff, !Z.eqb_eq. tauto.
Qed.

(** After an upsert that keeps employee and day, the day's row is the
    updated one. *)
Lemma findUnique_after_update st employeeId date update a next :
  (forall x, Attendance.employeeId (update x) = Attendance.employeeId x
             /\ Attendance.date (update x) = Attendance.date x) ->
  attendance_findUnique st employeeId date = Some a ->
  attendance_findUnique
    (with_attendance st
       (map (fun x => if same_day employeeId date x then update x else x) (attendance st))
       next)
    employeeId date = Some (update a).
Proof.
  intros Hk Ha. unfold attendance_findUnique in *. cbn [attendance with_attendance].
  rewrite find_map_stable.
  - rewrite Ha. cbn [option_map]. destruct (find_some _ _ Ha) as [_ Hs]. now rewrite Hs.
  - intros x. destruct (same_day employeeId date x) eqn:Ex; [|exact Ex].
    unfold same_day in *. destruct (Hk x) as [-> ->]. exact Ex.
Qed.

Lemma findUnique_after_create st employeeId date a next :
  Attendance.employeeId a = employeeId -> Attendance.date a = date ->
  attendance_findUnique st employeeId date = None ->
  attendance_findUnique (with_attendance st (attendance st ++ [a]) next) employeeId date
    = Some a.
Proof.
  intros He Hd Hn. unfold attendance_findUnique in *. cbn [attendance with_attendance].
  rewrite (find_app_none _ _ a Hn).
  now rewrite (proj2 (same_day_true employeeId date a) (conj He Hd)).
Qed.

(** C6.  [recordCheckIn] answers AlreadyCheckedIn exactly when the row of
    that employee and day has a check-in time, and then changes nothing.
    Otherwise it succeeds: a row without check-in time is updated, a missing
    row is created, and either way the day's row afterwards has the clock
    reading as [checkIn] and status [present]. *)
Theorem recordCheckIn_spec (st : store) (employeeId today now_u now_c : Z) :
  (fst (recordCheckIn st employeeId today now_u now_c) = Failed AlreadyCheckedIn
     <-> exists a t, attendance_findUnique st employeeId today = Some a
                     /\ Attendance.checkIn a = Some t)
  /\ (fst (recordCheckIn st employeeId today now_u now_c) = Failed AlreadyCheckedIn ->
      snd (recordCheckIn st employeeId today now_u now_c) = st)
  /\ (forall a, attendance_findUnique st employeeId today = Some a ->
        Attendance.checkIn a = None ->
        exists a' st',
          recordCheckIn st employeeId today now_u now_c = (Sent 201 a', st')
          /\ attendance_findUnique st' employeeId today = Some a'
          /\ Attendance.id a' = Attendance.id a
          /\ Attendance.checkIn a' = Some now_u
          /\ Attendance.status a' = Attendance.present)
  /\ (attendance_findUnique st employeeId today = None ->
        exists a' st',
          recordCheckIn st employeeId today now_u now_c = (Sent 201 a', st')
          /\ attendance_findUnique st' employeeId today = Some a'
          /\ Attendance.employeeId a' = employeeId
          /\ Attendance.date a' = today
          /\ Attendance.checkIn a' = Some now_c
          /\ Attendance.status a' = Attendance.present).
Proof.
  unfold recordCheckIn, attendance_upsert.
  destruct (attendance_findUnique st employeeId today) as [a|] eqn:Ef.
  - destruct a as [i e d [ci|] co h s n]; cbn [fst snd].
    + split; [|split; [|split]].
      * split; [intros _; eexists; eexists; split; reflexivity|reflexivity].
      * reflexivity.
      * intros a Ha. injection Ha as <-. discriminate.
      * discriminate.
    + split; [|split; [|split]].
      * split; [discriminate|]. intros [a [t [Ha Ht]]]. injection Ha as <-. discriminate.
      * discriminate.
      * intros a Ha _. injection Ha as <-. eexists. eexists. split; [reflexivity|].
        split; [|repeat split].
        apply (findUnique_after_update st employeeId today (checkin_update now_u) _ _
                 (fun x => conj eq_refl eq_refl) Ef).
      * discriminate.
  - cbn [fst snd]. split; [|split; [|split]].
    + split; [discriminate|]. intros [a [t [Ha _]]]. discriminate.
    + discriminate.
    + discriminate.
    + intros _. eexists. eexists. split; [reflexivity|]. split; [|repeat split].
      now apply findUnique_after_create.
Qed.

Lemma recordCheckIn_spec_witness :
  (exists a' st',
     recordCheckIn Seed.db 1 Seed.mar4 Seed.mar4_0800 Seed.mar4_0800 = (Sent 201 a', st')
     /\ attendance_findUnique st' 1 Seed.mar4 = Some a'
     /\ Attendance.checkIn a' = Some Seed.mar4_0800
     /\ Attendance.status a' = Attendance.present)
  /\ (exists a' st',
        recordCheckIn Cases.db_checkout_only 1 Seed.mar4 Seed.mar4_0800 Seed.mar4_0800
          = (Sent 201 a', st')
        /\ Attendance.checkIn a' = Some Seed.mar4_0800)
  /\ fst (recordCheckIn Cases.db_with_note 1 Seed.mar4 Seed.mar4_1630 Seed.mar4_1630)
       = Failed AlreadyCheckedIn.
Proof.
  split; [|split].
  - destruct (recordCheckIn_spec Seed.db 1 Seed.mar4 Seed.mar4_0800 Seed.mar4_0800)
      as [_ [_ [_ H]]].
    destruct (H eq_refl) as [a' [st' [H1 [H2 [_ [_ [H3 H4]]]]]]].
    exists a', st'. repeat split; assumption.
  - destruct (recordCheckIn_spec Cases.db_checkout_only 1 Seed.mar4
                Seed.mar4_0800 Seed.mar4_0800) as [_ [_ [H _]]].
    destruct (H _ eq_refl eq_refl) as [a' [st' [H1 [_ [_ [H3 _]]]]]].
    exists a', st'. split; assumption.
  - apply (proj1 (recordCheckIn_spec Cases.db_with_note 1 Seed.mar4
                    Seed.mar4_1630 Seed.mar4_1630)).
    eexists. eexists. split; reflexivity.
Defined.

(** *** Check-out: the refusals *)

(** C5, as the code has it.  [recordCheckOut] answers NotCheckedIn when the
    day has no row or the row has no check-in time, and AlreadyCheckedOut when
    the row has both a check-in and a check-out time; the database is
    unchanged in all three cases. *)
Theorem recordCheckOut_errors (st : store) (employeeId today now : Z) :
  (attendance_findUnique st employeeId today = None ->
     recordCheckOut st employeeId today now = (Failed NotCheckedIn, st))
  /\ (forall a, attendance_findUnique st employeeId today = Some a ->
        Attendance.checkIn a = None ->
        recordCheckOut st employeeId today now = (Failed NotCheckedIn, st))
  /\ (forall a t t', attendance_findUnique st employeeId today = Some a ->
        Attendance.checkIn a = Some t ->
        Attendance.checkOut a = Some t' ->
        recordCheckOut st employeeId today now = (Failed AlreadyCheckedOut, st)).
Proof.
  unfold recordCheckOut. split; [|split].
  - intros ->. reflexivity.
  - intros a -> ->. reflexivity.
  - intros a t t' -> -> ->. reflexivity.
Qed.

Lemma recordCheckOut_errors_witness :
  recordCheckOut Seed.db 1 Seed.mar4 Seed.mar4_1630 = (Failed NotCheckedIn, Seed.db)
  /\ recordCheckOut Cases.db_checkout_only 1 Seed.mar4 Seed.mar4_1630
       = (Failed NotCheckedIn, Cases.db_checkout_only)
  /\ recordCheckOut (snd (hrUpsert Seed.kigali Seed.db Cases.correction)) 1 Seed.mar4
       Seed.mar4_1630
       = (Failed AlreadyCheckedOut, snd (hrUpsert Seed.kigali Seed.db Cases.correction)).
Proof.
  split; [|split].
  - apply (proj1 (recordCheckOut_errors Seed.db 1 Seed.mar4 Seed.mar4_1630)).
    reflexivity.
  - destruct (recordCheckOut_errors Cases.db_checkout_only 1 Seed.mar4 Seed.mar4_1630)
      as [_ [H _]].
    apply (H _ eq_refl eq_refl).
  - destruct (recordCheckOut_errors (snd (hrUpsert Seed.kigali Seed.db Cases.correction))
                1 Seed.mar4 Seed.mar4_1630) as [_ [_ H]].
    apply (H _ Seed.mar4_0800 Seed.mar4_1630 eq_refl eq_refl eq_refl).
Defined.

(** C5 as stated fails on a row that has a check-out time and no check-in
    time (the HR route writes such a row when only [checkOut] is sent): the
    answer is NotCheckedIn, not AlreadyCheckedOut. *)
Lemma recordCheckOut_checkout_only_counterexample :
  exists a t',
    attendance_findUnique Cases.db_checkout_only 1 Seed.mar4 = Some a
    /\ Attendance.checkOut a = Some t'
    /\ fst (recordCheckOut Cases.db_checkout_only 1 Seed.mar4 Seed.mar4_1630)
         = Failed NotCheckedIn
    /\ fst (recordCheckOut Cases.db_checkout_only 1 Seed.mar4 Seed.mar4_1630)
         <> Failed AlreadyCheckedOut.
Proof.
  eexists. eexists. split; [reflexivity|]. split; [reflexivity|].
  split; [reflexivity|]. discriminate.
Qed.

(** *** The HR route: what an update overwrites *)

Lemma fromValue_valid v : valid_time v -> JSDate.fromValue v = Some v.
Proof.
  unfold valid_time, JSDate.fromValue, JSDate.TimeClip. intros H.
  now rewrite (proj2 (Z.leb_le _ _) H).
Qed.

Lemma prisma_date_valid v :
  valid_opt v -> prisma_date (hr_date_field v) = Some v.
Proof.
  destruct v as [x|]; cbn; [|reflexivity]. intros H. now rewrite fromValue_valid.
Qed.

(** The database takes the upsert when the day's row or the employee is on
    file, and rejects it when both are missing. *)
Lemma upsert_fk_taken st employeeId date update create :
  attendance_findUnique st employeeId date <> None
  \/ employee_by_id st employeeId <> None ->
  attendance_upsert_fk st employeeId date update create
  = Some (attendance_upsert st employeeId date update create).
Proof.
  unfold attendance_upsert_fk. intros H.
  destruct (attendance_findUnique st employeeId date); [reflexivity|].
  destruct (employee_by_id st employeeId); [reflexivity|].
  destruct H as [H|H]; now contradiction H.
Qed.

Lemma upsert_fk_rejected st employeeId date update create :
  attendance_findUnique st employeeId date = None ->
  employee_by_id st employeeId = None ->
  attendance_upsert_fk st employeeId date update create = None.
Proof. unfold attendance_upsert_fk. now intros -> ->. Qed.

(** In POST /checkin the employee is a row of the employee table, so the
    upsert of its day's row is never rejected. *)
Lemma checkin_employee_on_file st uid e date update create :
  user_with_employee st uid = Some (Some e) ->
  employee_by_id st (Employee.id e) <> None
  /\ attendance_upsert_fk st (Employee.id e) date update create
     = Some (attendance_upsert st (Employee.id e) date update create).
Proof.
  unfold user_with_employee. destruct (existsb _ _); [|discriminate].
  intros H. injection H as H. destruct (find_some _ _ H) as [Hin _].
  assert (Hon : employee_by_id st (Employee.id e) <> None).
  { unfold employee_by_id. intros Hnone.
    pose proof (find_none _ _ Hnone e Hin) as Hf. cbn in Hf.
    now rewrite Z.eqb_refl in Hf. }
  split; [exact Hon|]. apply upsert_fk_taken. now right.
Qed.

(** The route's answer when the dates it is sent are dates and the database
    takes the upsert: the row written. *)
Lemma hrUpsert_valid tz st b attendanceDate :
  JSDate.setHours tz (JSDate.fromValue (body_date b)) 0 0 0 0 = Some attendanceDate ->
  valid_opt (body_checkIn b) -> valid_opt (body_checkOut b) ->
  attendance_findUnique st (body_employeeId b) attendanceDate <> None
  \/ employee_by_id st (body_employeeId b) <> None ->
  let h := hr_hoursWorked_field (hr_hoursWorked (body_checkIn b) (body_checkOut b)) in
  hrUpsert tz st b =
    (Sent 201
       (fst (attendance_upsert st (body_employeeId b) attendanceDate
               (hr_update (body_checkIn b) (body_checkOut b) h (body_status b) (body_notes b))
               (hr_create (body_employeeId b) attendanceDate (body_checkIn b)
                  (body_checkOut b) h (body_status b) (body_notes b)))),
     snd (attendance_upsert st (body_employeeId b) attendanceDate
            (hr_update (body_checkIn b) (body_checkOut b) h (body_status b) (body_notes b))
            (hr_create (body_employeeId b) attendanceDate (body_checkIn b)
               (body_checkOut b) h (body_status b) (body_notes b)))).
Proof.
  intros Hd Hi Ho Hon h. unfold hrUpsert. rewrite Hd.
  rewrite (prisma_date_valid _ Hi), (prisma_date_valid _ Ho).
  fold h. rewrite (upsert_fk_taken _ _ _ _ _ Hon).
  now destruct (attendance_upsert _ _ _ _ _).
Qed.

(** With valid dates, no row for the day and no such employee, the route
    answers 500 and writes nothing. *)
Lemma hrUpsert_unknown_employee tz st b attendanceDate :
  JSDate.setHours tz (JSDate.fromValue (body_date b)) 0 0 0 0 = Some attendanceDate ->
  valid_opt (body_checkIn b) -> valid_opt (body_checkOut b) ->
  attendance_findUnique st (body_employeeId b) attendanceDate = None ->
  employee_by_id st (body_employeeId b) = None ->
  hrUpsert tz st b = (Failed ServerError, st).
Proof.
  intros Hd Hi Ho Hrow He. unfold hrUpsert. rewrite Hd.
  rewrite (prisma_date_valid _ Hi), (prisma_date_valid _ Ho).
  now rewrite (upsert_fk_rejected _ _ _ _ _ Hrow He).
Qed.

(** C10, as the code has it.  When the HR route updates the existing row of
    an employee and day, [checkIn], [checkOut] and [hoursWorked] are replaced
    by what the request gives, null when it gives nothing; [notes] is
    replaced when the request carries the field, an explicit null included,
    and keeps its stored value when the request has no [notes] field. *)
Theorem hrUpsert_update_overwrites tz st b attendanceDate a :
  JSDate.setHours tz (JSDate.fromValue (body_date b)) 0 0 0 0 = Some attendanceDate ->
  valid_opt (body_checkIn b) -> valid_opt (body_checkOut b) ->
  attendance_findUnique st (body_employeeId b) attendanceDate = Some a ->
  exists a' st',
    hrUpsert tz st b = (Sent 201 a', st')
    /\ attendance_findUnique st' (body_employeeId b) attendanceDate = Some a'
    /\ Attendance.id a' = Attendance.id a
    /\ Attendance.checkIn a' = body_checkIn b
    /\ Attendance.checkOut a' = body_checkOut b
    /\ Attendance.hoursWorked a'
         = hr_hoursWorked_field (hr_hoursWorked (body_checkIn b) (body_checkOut b))
    /\ Attendance.status a' = body_status b
    /\ Attendance.notes a' = match body_notes b with
                             | Some supplied => supplied
                             | None => Attendance.notes a
                             end.
Proof.
  intros Hd Hi Ho Ha.
  rewrite (hrUpsert_valid tz st b attendanceDate Hd Hi Ho)
    by (left; rewrite Ha; discriminate).
  unfold attendance_upsert. rewrite Ha. cbn [fst snd].
  eexists. eexists. split; [reflexivity|]. split; [|repeat split].
  now apply findUnique_after_update.
Qed.

Lemma hrUpsert_update_overwrites_witness :
  exists a' st',
    hrUpsert Seed.kigali Cases.db_with_note Cases.correction = (Sent 201 a', st')
    /\ Attendance.checkOut a' = Some Seed.mar4_1630
    /\ Attendance.notes a' = Some "bus strike"%string.
Proof.
  destruct (hrUpsert_update_overwrites Seed.kigali Cases.db_with_note Cases.correction
              Seed.mar4
              (Attendance.mk 1 1 Seed.mar4 (Some Seed.mar4_0800) None None Attendance.late
                 (Some "bus strike"%string)))
    as [a' [st' [H1 [_ [_ [_ [H2 [_ [_ H3]]]]]]]]].
  - reflexivity.
  - cbv. discriminate.
  - cbv. discriminate.
  - reflexivity.
  - exists a', st'. repeat split; assumption.
Defined.

(** C10 as stated fails for [notes]: a request without the field leaves the
    stored note in place instead of writing null. *)
Lemma hrUpsert_notes_kept_counterexample :
  exists a a' st',
    attendance_findUnique Cases.db_with_note 1 Seed.mar4 = Some a
    /\ body_notes Cases.correction = None
    /\ hrUpsert Seed.kigali Cases.db_with_note Cases.correction = (Sent 201 a', st')
    /\ attendance_findUnique st' 1 Seed.mar4 = Some a'
    /\ Attendance.notes a' = Attendance.notes a
    /\ Attendance.notes a' <> None.
Proof.
  eexists. eexists. eexists. split; [reflexivity|]. split; [reflexivity|].
  split; [reflexivity|]. split; [reflexivity|]. split; [reflexivity|]. discriminate.
Qed.

(** *** The month window *)

Lemma InLeapYear_is_leap_year y : JSDate.InLeapYear y = Calendar.is_leap_year y.
Proof.
  unfold JSDate.InLeapYear, Calendar.is_leap_year.
  destruct (y mod 4 =? 0) eqn:E4, (y mod 100 =? 0) eqn:E100, (y mod 400 =? 0) eqn:E400;
    try reflexivity; exfalso;
    rewrite ?Z.eqb_eq, ?Z.eqb_neq in *; Z.div_mod_to_equations; lia.
Qed.

Lemma DayFromYear_succ y :
  JSDate.DayFromYear (y + 1) = JSDate.DayFromYear y + Calendar.days_in_year y.
Proof.
  unfold JSDate.DayFromYear, Calendar.days_in_year, Calendar.is_leap_year.
  destruct (y mod 4 =? 0) eqn:E4, (y mod 100 =? 0) eqn:E100, (y mod 400 =? 0) eqn:E400;
    cbn [andb orb negb];
    rewrite ?Z.eqb_eq, ?Z.eqb_neq in *; Z.div_mod_to_equations; lia.
Qed.

Lemma DayFromYear_counts (n : nat) :
  JSDate.DayFromYear (1970 + Z.of_nat n) = Calendar.days_of_years n.
Proof.
  induction n as [|n IH].
  - reflexivity.
  - rewrite Nat2Z.inj_succ. cbn [Calendar.days_of_years]. rewrite <- IH.
    replace (1970 + Z.succ (Z.of_nat n)) with (1970 + Z.of_nat n + 1) by lia.
    apply DayFromYear_succ.
Qed.

Lemma DayFromYear_day_number y :
  1970 <= y -> JSDate.DayFromYear y = Calendar.days_of_years (Z.to_nat (y - 1970)).
Proof.
  intros Hy. rewrite <- DayFromYear_counts. f_equal. lia.
Qed.

Lemma DayWithinYear_counts y (n : nat) :
  (n <= 11)%nat ->
  JSDate.DayWithinYear (JSDate.InLeapYear y) (Z.of_nat n) = Calendar.days_of_months y n.
Proof.
  intros Hn. rewrite InLeapYear_is_leap_year.
  do 12 (destruct n as [|n];
         [cbn; destruct (Calendar.is_leap_year y); reflexivity|]).
  lia.
Qed.

Lemma days_of_months_year y :
  Calendar.days_of_months y 12 = Calendar.days_in_year y.
Proof.
  unfold Calendar.days_in_year. cbn. destruct (Calendar.is_leap_year y); reflexivity.
Qed.

(** [new Date(year, month - 1, 1)] falls on the first day of the month. *)
Lemma MakeDay_first y m :
  1970 <= y -> 1 <= m <= 12 ->
  JSDate.MakeDay y (m - 1) 1 = Calendar.day_number y m 1.
Proof.
  intros Hy Hm. unfold JSDate.MakeDay, Calendar.day_number.
  rewrite (Z.div_small (m - 1) 12), (Z.mod_small (m - 1) 12) by lia.
  replace (y + 0) with y by lia. rewrite (DayFromYear_day_number y Hy).
  rewrite <- (DayWithinYear_counts y (Z.to_nat (m - 1))) by lia.
  rewrite Z2Nat.id by lia. lia.
Qed.

(** [new Date(year, month, 0)] falls on the last day of the month. *)
Lemma MakeDay_last y m :
  1970 <= y -> 1 <= m <= 12 ->
  JSDate.MakeDay y m 0 = Calendar.day_number y m (Calendar.days_in_month y m).
Proof.
  intros Hy Hm. unfold JSDate.MakeDay, Calendar.day_number.
  assert (Hs : Calendar.days_of_months y (Z.to_nat m)
               = Calendar.days_of_months y (Z.to_nat (m - 1)) + Calendar.days_in_month y m).
  { replace (Z.to_nat m) with (S (Z.to_nat (m - 1))) by lia.
    cbn [Calendar.days_of_months]. do 2 f_equal. lia. }
  destruct (Z.eq_dec m 12) as [->|Hne].
  - change (12 / 12) with 1. change (12 mod 12) with 0.
    rewrite DayFromYear_succ, (DayFromYear_day_number y Hy).
    rewrite <- (days_of_months_year y). change (Z.to_nat 12) with 12%nat in Hs.
    rewrite Hs. cbn [JSDate.DayWithinYear]. lia.
  - rewrite (Z.div_small m 12), (Z.mod_small m 12) by lia.
    replace (y + 0) with y by lia. rewrite (DayFromYear_day_number y Hy).
    rewrite <- (Z2Nat.id m) at 1 by lia.
    rewrite (DayWithinYear_counts y (Z.to_nat m)) by lia.
    rewrite Hs. lia.
Qed.

Lemma DayFromYear_range y :
  2000 <= y <= 275759 -> 10957 <= JSDate.DayFromYear y <= 99999379.
Proof.
  intros Hy. unfold JSDate.DayFromYear. Z.div_mod_to_equations. lia.
Qed.

Lemma DayWithinYear_range l mn : 0 <= JSDate.DayWithinYear l mn <= 335.
Proof.
  unfold JSDate.DayWithinYear.
  destruct l; repeat (destruct mn as [|[mn|mn|]|]; try lia; try (cbn; lia)).
Qed.

Lemma MakeDay_range y month date :
  2000 <= y <= 275759 -> 0 <= month <= 12 -> 0 <= date <= 1 ->
  10956 <= JSDate.MakeDay y month date <= 99999745.
Proof.
  intros Hy Hm Hd. unfold JSDate.MakeDay.
  pose proof (DayWithinYear_range (JSDate.InLeapYear (y + month / 12)) (month mod 12)) as Hw.
  destruct (Z.eq_dec month 12) as [->|Hne].
  - change (12 / 12) with 1. change (12 mod 12) with 0 in *.
    pose proof (DayFromYear_range y Hy) as H0.
    rewrite DayFromYear_succ. unfold Calendar.days_in_year.
    cbn [JSDate.DayWithinYear]. destruct (Calendar.is_leap_year y); lia.
  - rewrite (Z.div_small month 12) in * by lia.
    replace (y + 0) with y in * by lia.
    pose proof (DayFromYear_range y Hy). lia.
Qed.

Lemma fromYMD_value tz y month date :
  2000 <= y <= 275759 -> 0 <= month <= 12 -> 0 <= date <= 1 ->
  Z.abs tz <= JSDate.msPerDay ->
  JSDate.fromYMD tz y month date
    = Some (JSDate.MakeDay y month date * JSDate.msPerDay - tz).
Proof.
  intros Hy Hm Hd Htz. unfold JSDate.fromYMD, JSDate.TimeClip, JSDate.UTC, JSDate.MakeDate.
  replace ((0 <=? y) && (y <=? 99)) with false
    by (symmetry; apply andb_false_iff; right; apply Z.leb_gt; lia).
  change (JSDate.MakeTime 0 0 0 0) with 0. rewrite Z.add_0_r.
  pose proof (MakeDay_range y month date Hy Hm Hd) as Hr.
  unfold JSDate.msPerDay in *.
  replace (Z.abs _ <=? _) with true; [reflexivity|].
  symmetry. apply Z.leb_le. lia.
Qed.

Lemma setHours_value tz day h m s ms :
  Z.abs (day * JSDate.msPerDay + JSDate.MakeTime h m s ms - tz) <= 8640000000000000 ->
  JSDate.setHours tz (Some (day * JSDate.msPerDay - tz)) h m s ms
    = Some (day * JSDate.msPerDay + JSDate.MakeTime h m s ms - tz).
Proof.
  intros Hr. unfold JSDate.setHours, JSDate.LocalTime, JSDate.Day, JSDate.UTC, JSDate.MakeDate.
  replace (day * JSDate.msPerDay - tz + tz) with (day * JSDate.msPerDay) by lia.
  rewrite Z.div_mul by (unfold JSDate.msPerDay; lia).
  unfold JSDate.TimeClip. now rewrite (proj2 (Z.leb_le _ _) Hr).
Qed.

(** The window the route queries is the month, from the first millisecond of
    its first day to the last millisecond of its last day, on the server's
    clock. *)
Lemma month_window tz month year :
  1 <= month <= 12 -> 2000 <= year <= 275759 -> Z.abs tz <= JSDate.msPerDay ->
  startDate tz month year = Some (Calendar.month_start tz year month)
  /\ endDate tz month year = Some (Calendar.month_end tz year month).
Proof.
  intros Hm Hy Htz. unfold startDate, endDate.
  rewrite !fromYMD_value by lia.
  pose proof (MakeDay_range year (month - 1) 1 Hy) as H1.
  pose proof (MakeDay_range year month 0 Hy) as H2.
  rewrite !setHours_value
    by (unfold JSDate.MakeTime, JSDate.msPerHour, JSDate.msPerDay in *; lia).
  rewrite MakeDay_first, MakeDay_last by lia.
  unfold Calendar.month_start, Calendar.month_end, Calendar.local_instant,
    JSDate.MakeTime, JSDate.msPerHour, JSDate.msPerDay.
  split; f_equal; lia.
Qed.

(** *** Generating a payroll *)

Lemma findFirst_none st employeeId month year :
  ~ has_payroll st employeeId month year ->
  payroll_findFirst st employeeId month year = None.
Proof.
  intros Hno. unfold payroll_findFirst.
  destruct (find _ (payroll st)) as [p|] eqn:E; [|reflexivity].
  destruct (find_some _ _ E) as [Hin Hp]. apply same_period_true in Hp.
  exfalso. apply Hno. now exists p.
Qed.

Lemma present_in_window_counts employeeId first last a :
  present_in_window employeeId first last a = is_working_day employeeId first last a.
Proof.
  unfold present_in_window, is_working_day.
  destruct (Attendance.status a); cbn [Attendance.status_eqb];
    rewrite ?andb_true_r, ?andb_false_r; reflexivity.
Qed.

Section NewPeriod.
(** A request for a known employee and a period that is not on file yet, on a
    server whose zone is within a day of UTC.  Years up to 275759 keep the
    whole month inside the range of JS dates. *)
Variables (tz : Z) (st : store) (employeeId month year : Z) (e : Employee.row).
Hypothesis month_ok : 1 <= month <= 12.
Hypothesis year_ok : 2000 <= year <= 275759.
Hypothesis zone_ok : Z.abs tz <= JSDate.msPerDay.
Hypothesis not_on_file : ~ has_payroll st employeeId month year.
Hypothesis employee_known : employee_by_id st employeeId = Some e.

(** The route's answer: the row it creates and the store that holds it. *)
Lemma generatePayroll_success :
  let p := payroll_row e employeeId month year
             (attendance_findMany st employeeId
                (Calendar.month_start tz year month) (Calendar.month_end tz year month))
             (nextPayrollId st) in
  generatePayroll tz st employeeId month year =
    (Sent 201 p, with_payroll st (payroll st ++ [p]) (nextPayrollId st + 1)).
Proof.
  intros p. unfold generatePayroll.
  replace (valid_period month year) with true
    by (symmetry; unfold valid_period; rewrite !andb_true_iff, !Z.leb_le; lia).
  cbn [negb]. rewrite (findFirst_none _ _ _ _ not_on_file), employee_known.
  destruct (month_window tz month year month_ok year_ok zone_ok) as [-> ->].
  reflexivity.
Qed.

(** C1.  For a known employee and a month not yet on file, the route stores
    a payroll row whose [workingDays] is the number of the employee's
    attendance rows with status [present] and a date from the first day of the
    month at 00:00:00.000 to its last day at 23:59:59.999, both ends
    included. *)
Theorem generatePayroll_workingDays :
  exists p st',
    generatePayroll tz st employeeId month year = (Sent 201 p, st')
    /\ payroll st' = payroll st ++ [p]
    /\ Payroll.workingDays p
       = count_working_days st employeeId
           (Calendar.month_start tz year month) (Calendar.month_end tz year month).
Proof.
  rewrite generatePayroll_success.
  eexists. eexists. split; [reflexivity|]. split; [reflexivity|].
  cbn [payroll_row Payroll.workingDays]. unfold count_working_days, attendance_findMany.
  do 2 f_equal. apply filter_ext. intros a. apply present_in_window_counts.
Qed.

(** C2.  For a known employee with stored salary [s] and a month not yet on
    file, the route stores basicSalary = s, allowances = s * 0.1,
    deductions = s * 0.05 and netSalary = s + allowances - deductions, in the
    arithmetic of JS numbers; for s = 5000 these are 500, 250 and 5250. *)
Theorem generatePayroll_amounts :
  exists p st',
    generatePayroll tz st employeeId month year = (Sent 201 p, st')
    /\ payroll st' = payroll st ++ [p]
    /\ Payroll.basicSalary p = Employee.salary e
    /\ Payroll.allowances p = Number.mul (Employee.salary e) Number.lit_0_1
    /\ Payroll.deductions p = Number.mul (Employee.salary e) Number.lit_0_05
    /\ Payroll.netSalary p
       = Number.sub (Number.add (Employee.salary e) (Payroll.allowances p))
           (Payroll.deductions p)
    /\ (Employee.salary e = Number.of_Z 5000 ->
        Payroll.allowances p = Number.of_Z 500
        /\ Payroll.deductions p = Number.of_Z 250
        /\ Payroll.netSalary p = Number.of_Z 5250).
Proof.
  rewrite generatePayroll_success.
  eexists. eexists. split; [reflexivity|]. split; [reflexivity|].
  cbn [payroll_row Payroll.basicSalary Payroll.allowances Payroll.deductions
       Payroll.netSalary].
  repeat (split; [reflexivity|]).
  intros ->. repeat split; vm_compute; reflexivity.
Qed.

End NewPeriod.

Lemma generatePayroll_workingDays_witness :
  exists p st',
    generatePayroll Seed.kigali Cases.db_march_attendance 1 3 2024 = (Sent 201 p, st')
    /\ Payroll.workingDays p = 3.
Proof.
  destruct (generatePayroll_workingDays Seed.kigali Cases.db_march_attendance 1 3 2024
              Seed.john)
    as [p [st' [H1 [_ H2]]]].
  - lia.
  - lia.
  - vm_compute. discriminate.
  - intros [q [[] _]].
  - reflexivity.
  - exists p, st'. split; [exact H1|]. rewrite H2. reflexivity.
Defined.

(** The literals are the doubles nearest to the decimal fractions. *)
Lemma literals_nearest :
  Number.lit_0_1 = Number.div (Number.of_Z 1) (Number.of_Z 10)
  /\ Number.lit_0_05 = Number.div (Number.of_Z 5) (Number.of_Z 100).
Proof. split; reflexivity. Qed.

Lemma generatePayroll_amounts_witness :
  exists p st',
    generatePayroll Seed.kigali Seed.db 1 3 2024 = (Sent 201 p, st')
    /\ Payroll.basicSalary p = Number.of_Z 5000
    /\ Payroll.allowances p = Number.of_Z 500
    /\ Payroll.deductions p = Number.of_Z 250
    /\ Payroll.netSalary p = Number.of_Z 5250.
Proof.
  destruct (generatePayroll_amounts Seed.kigali Seed.db 1 3 2024 Seed.john)
    as [p [st' [H1 [_ [H2 [_ [_ [_ H3]]]]]]]].
  - lia.
  - lia.
  - vm_compute. discriminate.
  - intros [q [[] _]].
  - reflexivity.
  - destruct (H3 eq_refl) as [H4 [H5 H6]].
    exists p, st'. repeat split; assumption.
Defined.

(** *** Binary64 arithmetic on integers *)

(** The number of binary digits, in terms of the standard library's
    logarithm. *)
Lemma digits2_pos_size p : digits2_pos p = Pos.size p.
Proof. induction p; simpl; congruence. Qed.

Lemma Zdigits2_log2 p : Zdigits2 (Zpos p) = Z.log2 (Zpos p) + 1.
Proof.
  unfold Zdigits2. rewrite digits2_pos_size.
  destruct p; simpl; rewrite ?Pos.add_1_r; try reflexivity; lia.
Qed.

Lemma Zdigits2_unique z k :
  0 <= k -> 2 ^ k <= z < 2 ^ (k + 1) -> Zdigits2 z = k + 1.
Proof.
  intros Hk Hz. assert (0 < z) by (pose proof (Z.pow_pos_nonneg 2 k); lia).
  destruct z as [|p|p]; try lia.
  rewrite Zdigits2_log2. f_equal. apply Z.log2_unique; [exact Hk|].
  replace (Z.succ k) with (k + 1) by lia. exact Hz.
Qed.

Lemma Zdigits2_bounds p :
  2 ^ (Zdigits2 (Zpos p) - 1) <= Zpos p < 2 ^ (Zdigits2 (Zpos p)).
Proof.
  rewrite Zdigits2_log2. replace (Z.log2 (Zpos p) + 1 - 1) with (Z.log2 (Zpos p)) by lia.
  pose proof (Z.log2_spec (Zpos p) ltac:(lia)) as H.
  replace (Z.succ (Z.log2 (Zpos p))) with (Z.log2 (Zpos p) + 1) in H by lia. exact H.
Qed.

Lemma Zdigits2_mul_pow2 p n :
  0 <= n -> Zdigits2 (Zpos p * 2 ^ n) = Zdigits2 (Zpos p) + n.
Proof.
  intros Hn. pose proof (Z.pow_pos_nonneg 2 n ltac:(lia) Hn).
  destruct (Zpos p * 2 ^ n) as [|q|q] eqn:E; try lia.
  rewrite !Zdigits2_log2, <- E, Z.log2_mul_pow2 by lia. lia.
Qed.


(** Shifting out zero bits loses nothing. *)
Lemma shr_1_double M : 0 <= M -> shr_1 (exact_record (2 * M)) = exact_record M.
Proof. intros H. destruct M; try lia; reflexivity. Qed.

Lemma iter_shr_exact n : forall M, 0 <= M ->
  iter_pos shr_1 n (exact_record (2 ^ Zpos n * M)) = exact_record M.
Proof.
  induction n as [n IH|n IH|]; intros M HM; cbn [iter_pos].
  - assert (E : 2 ^ Zpos n~1 = 2 * (2 ^ Zpos n * 2 ^ Zpos n)).
    { rewrite <- Z.pow_add_r, <- Z.pow_succ_r by lia. f_equal. lia. }
    assert (0 < 2 ^ Zpos n) by (apply Z.pow_pos_nonneg; lia).
    rewrite E, <- !Z.mul_assoc, shr_1_double by nia.
    rewrite IH by nia. now apply IH.
  - assert (E : 2 ^ Zpos n~0 = 2 ^ Zpos n * 2 ^ Zpos n).
    { rewrite <- Z.pow_add_r by lia. f_equal. lia. }
    assert (0 < 2 ^ Zpos n) by (apply Z.pow_pos_nonneg; lia).
    rewrite E, <- !Z.mul_assoc, IH by nia. now apply IH.
  - change (2 ^ 1) with 2. now apply shr_1_double.
Qed.

(** In the normal range a number of magnitude 2^e has its last bit at
    2^(e-53). *)
Lemma fexp_normal e : -1021 <= e -> fexp 53 1024 e = e - 53.
Proof. intros H. unfold fexp, emin. lia. Qed.

Lemma shr_fexp_exact M n e :
  Zdigits2 (Zpos M) = 53 -> 0 <= n -> -1074 <= e + n ->
  shr_fexp 53 1024 (Zpos M * 2 ^ n) e loc_Exact = (exact_record (Zpos M), e + n).
Proof.
  intros HM Hn He. unfold shr_fexp.
  rewrite Zdigits2_mul_pow2, HM, fexp_normal by lia.
  replace (53 + n + e - 53 - e) with n by lia.
  change (shr_record_of_loc (Zpos M * 2 ^ n) loc_Exact) with (exact_record (Zpos M * 2 ^ n)).
  unfold shr. destruct n as [|k|k]; try lia.
  - now rewrite Z.mul_1_r, Z.add_0_r.
  - now rewrite Z.mul_comm, iter_shr_exact by lia.
Qed.

(** A 53-bit mantissa followed by [n] zero bits rounds to itself. *)
Lemma round_aux_exact s M n e :
  Zdigits2 (Zpos M) = 53 -> 0 <= n -> -1074 <= e + n <= 971 ->
  binary_round_aux 53 1024 s (Zpos M * 2 ^ n) e loc_Exact = S754_finite s M (e + n).
Proof.
  intros HM Hn He. unfold binary_round_aux.
  rewrite shr_fexp_exact by lia.
  cbn [exact_record shr_m loc_of_shr_record round_nearest_even].
  replace (Zpos M) with (Zpos M * 2 ^ 0) at 1 by (now rewrite Z.mul_1_r).
  rewrite shr_fexp_exact by lia. cbn [exact_record shr_m].
  rewrite Z.add_0_r.
  replace (e + n <=? 1024 - 53) with true by (symmetry; apply Z.leb_le; lia).
  reflexivity.
Qed.

Lemma Zpos_iter_xO m k : Zpos (Pos.iter xO m k) = Zpos m * 2 ^ Zpos k.
Proof.
  change (Pos.iter xO m k) with (shift_pos k m).
  rewrite shift_pos_correct. rewrite Z.mul_comm. reflexivity.
Qed.


Lemma Zdigits2_small z : z <> 0 -> Z.abs z < 2 ^ 53 -> 1 <= Zdigits2 z <= 53.
Proof.
  intros Hz Hb.
  assert (H : forall p, Zpos p < 2 ^ 53 -> 1 <= Zdigits2 (Zpos p) <= 53).
  { intros p Hp. pose proof (Zdigits2_bounds p) as [H1 _].
    split; [unfold Zdigits2; lia|].
    destruct (Z_le_gt_dec (Zdigits2 (Zpos p)) 53) as [|Hgt]; [assumption|].
    assert (2 ^ 53 <= 2 ^ (Zdigits2 (Zpos p) - 1)) by (apply Z.pow_le_mono_r; lia).
    lia. }
  destruct z as [|p|p]; try lia; apply (H p); lia.
Qed.

(** An integer below 2^53, written with [j] extra zero bits, rounds to its
    canonical form: the conversion is exact whatever the scaling. *)
Lemma binary_round_exact s p j :
  Zpos p < 2 ^ 53 -> 0 <= j ->
  forall m, Zpos m = Zpos p * 2 ^ j ->
  binary_round 53 1024 s m (- j)
  = S754_finite s (Z.to_pos (Zpos p * 2 ^ (53 - Zdigits2 (Zpos p)))) (Zdigits2 (Zpos p) - 53).
Proof.
  intros Hp Hj m Hm.
  pose proof (Zdigits2_small (Zpos p) ltac:(lia) ltac:(lia)) as Hd.
  set (d := Zdigits2 (Zpos p)) in *.
  assert (Hdm : Zpos (digits2_pos m) = d + j).
  { change (Zpos (digits2_pos m)) with (Zdigits2 (Zpos m)).
    rewrite Hm. now apply Zdigits2_mul_pow2. }
  assert (Hpow : 0 < 2 ^ (53 - d)) by (apply Z.pow_pos_nonneg; lia).
  destruct (Zpos p * 2 ^ (53 - d)) as [|M|M] eqn:EM; try lia.
  assert (HdM : Zdigits2 (Zpos M) = 53).
  { rewrite <- EM, Zdigits2_mul_pow2 by lia. fold d. lia. }
  cbn [Z.to_pos].
  unfold binary_round. rewrite Hdm, fexp_normal by lia.
  replace (d + j + - j - 53) with (d - 53) by lia.
  unfold shl_align.
  destruct (d - 53 - - j) as [|k|k] eqn:Ek.
  - replace (Zpos m) with (Zpos M * 2 ^ 0).
    + rewrite round_aux_exact by lia. f_equal. lia.
    + rewrite Z.mul_1_r, Hm, <- EM. f_equal. f_equal. lia.
  - replace (Zpos m) with (Zpos M * 2 ^ Zpos k).
    + rewrite round_aux_exact by lia. f_equal. lia.
    + rewrite Hm, <- EM, <- Z.mul_assoc, <- Z.pow_add_r by lia. do 2 f_equal. lia.
  - replace (Zpos (Pos.iter xO m k)) with (Zpos M * 2 ^ 0).
    + rewrite round_aux_exact by lia. f_equal. lia.
    + rewrite Z.mul_1_r, Zpos_iter_xO, Hm, <- EM, <- Z.mul_assoc, <- Z.pow_add_r by lia.
      do 2 f_equal. lia.
Qed.

Lemma binary_normalize_exact z j :
  z <> 0 -> Z.abs z < 2 ^ 53 -> 0 <= j ->
  binary_normalize 53 1024 (z * 2 ^ j) (- j) false = canonical z.
Proof.
  intros Hz Hb Hj. assert (Hpow : 0 < 2 ^ j) by (apply Z.pow_pos_nonneg; lia).
  unfold canonical. destruct z as [|p|p]; try lia.
  - destruct (Zpos p * 2 ^ j) as [|m|m] eqn:E; try lia.
    cbn [binary_normalize Z.abs]. change (Zpos p <? 0) with false.
    apply binary_round_exact; [lia|lia|now rewrite E].
  - destruct (Zneg p * 2 ^ j) as [|m|m] eqn:E; try lia.
    cbn [binary_normalize Z.abs]. change (Zneg p <? 0) with true.
    change (Zdigits2 (Zneg p)) with (Zdigits2 (Zpos p)).
    apply binary_round_exact; [lia|lia|lia].
Qed.

Lemma of_Z_canonical z :
  z <> 0 -> Z.abs z < 2 ^ 53 -> binary_normalize 53 1024 z 0 false = canonical z.
Proof.
  intros Hz Hb. rewrite <- (binary_normalize_exact z 0 Hz Hb (Z.le_refl 0)).
  now rewrite Z.mul_1_r.
Qed.

Lemma canon_mantissa z :
  z <> 0 -> Z.abs z < 2 ^ 53 ->
  Zpos (Z.to_pos (Z.abs z * 2 ^ (53 - Zdigits2 z))) = Z.abs z * 2 ^ (53 - Zdigits2 z).
Proof.
  intros Hz Hb. pose proof (Zdigits2_small z Hz Hb).
  assert (0 < 2 ^ (53 - Zdigits2 z)) by (apply Z.pow_pos_nonneg; lia).
  rewrite Z2Pos.id; [reflexivity|]. apply Z.mul_pos_pos; lia.
Qed.

Lemma shl_align_value m e ez :
  ez <= e -> Zpos (fst (shl_align m e ez)) = Zpos m * 2 ^ (e - ez).
Proof.
  intros H. unfold shl_align. destruct (ez - e) as [|k|k] eqn:E; try lia; cbn [fst].
  - replace (e - ez) with 0 by lia. now rewrite Z.mul_1_r.
  - rewrite Zpos_iter_xO. do 2 f_equal. lia.
Qed.

Lemma cond_Zopp_abs z x : cond_Zopp (z <? 0) (Z.abs z * x) = z * x.
Proof.
  unfold cond_Zopp. destruct (z <? 0) eqn:E.
  - apply Z.ltb_lt in E. rewrite Z.abs_neq by lia. ring.
  - apply Z.ltb_ge in E. rewrite Z.abs_eq by lia. ring.
Qed.

(** The difference of two such integers is the rounding of their exact
    difference. *)
Lemma sub_canonical a b :
  a <> 0 -> Z.abs a < 2 ^ 53 -> b <> 0 -> Z.abs b < 2 ^ 53 ->
  exists j, 0 <= j /\
    SFsub 53 1024 (canonical b) (canonical a) = binary_normalize 53 1024 ((b - a) * 2 ^ j) (- j) false.
Proof.
  intros Ha Hab Hb Hbb.
  pose proof (Zdigits2_small a Ha Hab) as Hda.
  pose proof (Zdigits2_small b Hb Hbb) as Hdb.
  unfold canonical. cbn [SFsub].
  set (ea := Zdigits2 a - 53) in *. set (eb := Zdigits2 b - 53) in *.
  set (ez := Z.min eb ea).
  exists (- ez). split; [lia|].
  rewrite !shl_align_value by lia.
  rewrite !canon_mantissa by assumption.
  rewrite <- !Z.mul_assoc, <- !Z.pow_add_r by lia.
  rewrite !cond_Zopp_abs.
  replace (53 - Zdigits2 b + (eb - ez)) with (- ez) by lia.
  replace (53 - Zdigits2 a + (ea - ez)) with (- ez) by lia.
  rewrite Z.opp_involutive. f_equal. ring.
Qed.

(** Subtraction of integers below 2^53 is exact when the difference is below
    2^53 too. *)
Lemma sub_of_Z_exact a b :
  Z.abs a < 2 ^ 53 -> Z.abs b < 2 ^ 53 -> Z.abs (b - a) < 2 ^ 53 ->
  SFsub 53 1024 (binary_normalize 53 1024 b 0 false) (binary_normalize 53 1024 a 0 false)
  = binary_normalize 53 1024 (b - a) 0 false.
Proof.
  intros Ha Hb Hd.
  destruct (Z.eq_dec a 0) as [->|Ha0]; destruct (Z.eq_dec b 0) as [->|Hb0].
  - reflexivity.
  - rewrite Z.sub_0_r, of_Z_canonical by assumption. reflexivity.
  - rewrite Z.sub_0_l.
    rewrite (of_Z_canonical a), (of_Z_canonical (- a)) by (rewrite ?Z.abs_opp; lia).
    unfold canonical. cbn [binary_normalize SFsub].
    replace (Zdigits2 (- a)) with (Zdigits2 a) by (destruct a; reflexivity).
    rewrite Z.abs_opp. f_equal.
    destruct a; try lia; reflexivity.
  - rewrite (of_Z_canonical a), (of_Z_canonical b) by assumption.
    destruct (sub_canonical a b Ha0 Ha Hb0 Hb) as [j [Hj ->]].
    destruct (Z.eq_dec (b - a) 0) as [->|Hne]; [reflexivity|].
    rewrite binary_normalize_exact, of_Z_canonical by assumption. reflexivity.
Qed.


Lemma binary_round_aux_stages s mx ex lx :
  binary_round_aux 53 1024 s mx ex lx
  = let '(mrs, e1) := shr_fexp 53 1024 mx ex lx in
    renormalize s (round_nearest_even (shr_m mrs) (loc_of_shr_record mrs)) e1.
Proof. reflexivity. Qed.

(** Renormalising a mantissa of 53 bits, or 2^53 itself, keeps its value. *)
Lemma renormalize_value s m1 e1 :
  2 ^ 52 <= m1 <= 2 ^ 53 -> -1074 <= e1 <= 970 ->
  exists m E, renormalize s m1 e1 = S754_finite s m E
              /\ e1 <= E <= e1 + 1 /\ Zpos m * 2 ^ (E - e1) = m1.
Proof.
  intros Hm He. unfold renormalize.
  destruct (Z.eq_dec m1 (2 ^ 53)) as [->|Hne].
  - change (2 ^ 53) with (Zpos 4503599627370496 * 2 ^ 1).
    rewrite (shr_fexp_exact 4503599627370496 1 e1) by (try reflexivity; lia). cbn [exact_record shr_m].
    replace (e1 + 1 <=? 1024 - 53) with true by (symmetry; apply Z.leb_le; lia).
    eexists. eexists. split; [reflexivity|]. split; [lia|]. f_equal. f_equal. lia.
  - destruct m1 as [|M|M]; try lia.
    assert (HM : Zdigits2 (Zpos M) = 53) by (apply (Zdigits2_unique _ 52); lia).
    pose proof (shr_fexp_exact M 0 e1 HM (Z.le_refl 0) ltac:(lia)) as Hs.
    rewrite Z.mul_1_r, Z.add_0_r in Hs. rewrite Hs. cbn [exact_record shr_m].
    replace (e1 <=? 1024 - 53) with true by (symmetry; apply Z.leb_le; lia).
    eexists. eexists. split; [reflexivity|]. split; [lia|].
    rewrite Z.sub_diag. now rewrite Z.mul_1_r.
Qed.

Lemma shr_m_of_loc m l : shr_m (shr_record_of_loc m l) = m.
Proof. destruct l as [|[]]; reflexivity. Qed.

Lemma loc_of_loc m l : loc_of_shr_record (shr_record_of_loc m l) = l.
Proof. destruct l as [|[]]; reflexivity. Qed.

Lemma round_nearest_even_range m l :
  round_nearest_even m l = m \/ round_nearest_even m l = m + 1.
Proof.
  destruct l as [|[]]; cbn; try (now left); try (now right).
  destruct (Z.even m); [now left|now right].
Qed.

(** Rounding a quotient of 53 or 54 bits: the result, read at the exponent of
    the quotient, is within one unit of it, and below it only when the
    division was exact. *)
Lemma round_aux_near s q e loc :
  2 ^ 52 <= q < 2 ^ 54 -> -1074 <= e <= 960 ->
  exists m E,
    binary_round_aux 53 1024 s q e loc = S754_finite s m E
    /\ e <= E <= e + 2
    /\ q - 1 <= Zpos m * 2 ^ (E - e) <= q + 1
    /\ (Zpos m * 2 ^ (E - e) < q -> loc = loc_Exact).
Proof.
  intros Hq He. rewrite binary_round_aux_stages. unfold shr_fexp at 1.
  destruct (Z_lt_ge_dec q (2 ^ 53)) as [Hlt|Hge].
  - rewrite (Zdigits2_unique q 52) by lia. rewrite fexp_normal by lia.
    replace (52 + 1 + e - 53 - e) with 0 by lia. cbn [shr].
    rewrite shr_m_of_loc, loc_of_loc.
    destruct (renormalize_value s (round_nearest_even q loc) e) as [m [E [H1 [H2 H3]]]].
    { destruct (round_nearest_even_range q loc) as [-> | ->]; lia. }
    { lia. }
    exists m, E. split; [exact H1|]. split; [lia|]. rewrite H3.
    destruct (round_nearest_even_range q loc) as [-> | ->]; lia.
  - rewrite (Zdigits2_unique q 53) by lia. rewrite fexp_normal by lia.
    replace (53 + 1 + e - 53 - e) with 1 by lia. cbn [shr iter_pos].
    destruct q as [|p|p]; try lia.
    assert (Hcase : forall q' r sb,
              2 ^ 52 <= q' < 2 ^ 53 ->
              (Zpos p = 2 * q' \/ Zpos p = 2 * q' + 1) ->
              (r = false -> Zpos p = 2 * q') ->
              (r = true -> sb = false -> loc = loc_Exact /\ Zpos p = 2 * q' + 1) ->
              (r = true -> sb = true -> Zpos p = 2 * q' + 1) ->
              exists m E,
                renormalize s (round_nearest_even q' (loc_of_shr_record (Build_shr_record q' r sb)))
                  (e + 1) = S754_finite s m E
                /\ e <= E <= e + 2
                /\ Zpos p - 1 <= Zpos m * 2 ^ (E - e) <= Zpos p + 1
                /\ (Zpos m * 2 ^ (E - e) < Zpos p -> loc = loc_Exact)).
    { intros q' r sb Hq' Hpar Hf Ht1 Ht2.
      set (l1 := loc_of_shr_record (Build_shr_record q' r sb)).
      destruct (renormalize_value s (round_nearest_even q' l1) (e + 1)) as [m [E [H1 [H2 H3]]]].
      { destruct (round_nearest_even_range q' l1) as [-> | ->]; lia. }
      { lia. }
      exists m, E. split; [exact H1|]. split; [lia|].
      assert (Hv : Zpos m * 2 ^ (E - e) = 2 * round_nearest_even q' l1).
      { rewrite <- H3. replace (E - e) with (E - (e + 1) + 1) by lia.
        rewrite Z.pow_add_r by lia. change (2 ^ 1) with 2. ring. }
      rewrite Hv. unfold l1.
      destruct r, sb; cbn [loc_of_shr_record round_nearest_even].
      - specialize (Ht2 eq_refl eq_refl). lia.
      - destruct (Ht1 eq_refl eq_refl) as [Hl Hp]. destruct (Z.even q'); split; try lia; auto.
      - specialize (Hf eq_refl). lia.
      - specialize (Hf eq_refl). lia. }
    destruct p as [p'|p'|]; try lia.
    + pose proof (Pos2Z.inj_xI p') as Hx.
      destruct loc as [|[]]; cbn [shr_record_of_loc shr_1 orb shr_m];
        apply Hcase; try lia; try discriminate; intros; try discriminate;
        try (split; [reflexivity|]); lia.
    + pose proof (Pos2Z.inj_xO p') as Hx.
      destruct loc as [|[]]; cbn [shr_record_of_loc shr_1 orb shr_m];
        apply Hcase; try lia; try discriminate; intros; try discriminate;
        try (split; [reflexivity|]); lia.
Qed.


Lemma div_eucl_eq a b : Z.div_eucl a b = (a / b, a mod b).
Proof. unfold Z.div, Z.modulo. now destruct (Z.div_eucl a b). Qed.

(** The integer division behind [x / 3600000] for a 53-bit [x]: the
    mantissa is scaled by 2^53 and divided by the mantissa of 3600000. *)
Lemma div_core_hours mx ex :
  Zdigits2 (Zpos mx) = 53 -> -52 <= ex <= 0 ->
  SFdiv_core_binary 53 1024 (Zpos mx) ex (Zpos hour_mantissa) (-31)
  = (Zpos mx * 2 ^ 53 / Zpos hour_mantissa, ex - 22,
     new_location (Zpos hour_mantissa) (Zpos mx * 2 ^ 53 mod Zpos hour_mantissa)).
Proof.
  intros Hd He. unfold SFdiv_core_binary. cbv zeta.
  rewrite Hd. change (Zdigits2 (Zpos hour_mantissa)) with 53.
  rewrite fexp_normal by lia.
  replace (Z.min (53 + ex - (53 + -31) - 53) (ex - -31)) with (ex - 22) by lia.
  replace (ex - -31 - (ex - 22)) with 53 by lia.
  rewrite Z.shiftl_mul_pow2 by lia. rewrite div_eucl_eq. reflexivity.
Qed.

Lemma new_location_exact r :
  new_location (Zpos hour_mantissa) r = loc_Exact -> r = 0.
Proof.
  unfold new_location. change (Z.even (Zpos hour_mantissa)) with true. cbv iota.
  unfold new_location_even. destruct (r =? 0) eqn:E; [|discriminate].
  intros _. now apply Z.eqb_eq.
Qed.

(** Dividing a nonzero integer below 2^53 by 3600000: the quotient is
    finite, has the sign of the integer, and is within one unit in the last
    place of the exact quotient. *)
Lemma div_hours d :
  d <> 0 -> Z.abs d < 2 ^ 53 ->
  exists m E c,
    SFdiv 53 1024 (canonical d) (S754_finite false hour_mantissa (-31)) = S754_finite (d <? 0) m E
    /\ E <= -20 /\ 0 < c
    /\ 2 ^ 22 <= 2 ^ (- E) * c
    /\ Z.abs (3600000 * (Zpos m * c) - Z.abs d * (2 ^ (- E) * c)) <= 3600000.
Proof.
  intros Hd Hb. pose proof (Zdigits2_small d Hd Hb) as Hdd.
  unfold canonical. cbn [SFdiv].
  set (ex := Zdigits2 d - 53) in *.
  assert (Hmx : Zpos (Z.to_pos (Z.abs d * 2 ^ (53 - Zdigits2 d))) = Z.abs d * 2 ^ (- ex)).
  { rewrite canon_mantissa by assumption. do 2 f_equal. lia. }
  set (mx := Z.to_pos (Z.abs d * 2 ^ (53 - Zdigits2 d))) in *.
  assert (Hdig : Zdigits2 (Zpos mx) = 53).
  { rewrite Hmx. destruct (Z.abs d) as [|p|p] eqn:Ep; try lia.
    rewrite Zdigits2_mul_pow2 by lia.
    replace (Zdigits2 (Zpos p)) with (Zdigits2 d); [lia|].
    destruct d; try discriminate; injection Ep as ->; reflexivity. }
  rewrite div_core_hours by (try assumption; lia).
  rewrite xorb_false_r.
  pose proof (Zdigits2_bounds mx) as Hrange. rewrite Hdig in Hrange.
  change (53 - 1) with 52 in Hrange.
  set (q := Zpos mx * 2 ^ 53 / Zpos hour_mantissa).
  set (r := Zpos mx * 2 ^ 53 mod Zpos hour_mantissa).
  assert (Hqr : Zpos mx * 2 ^ 53 = Zpos hour_mantissa * q + r /\ 0 <= r < Zpos hour_mantissa).
  { split; [apply Z.div_mod; lia|apply Z.mod_pos_bound; lia]. }
  assert (Hq : 2 ^ 52 <= q < 2 ^ 54).
  { unfold hour_mantissa in *. change (2 ^ 52) with 4503599627370496 in *.
    change (2 ^ 53) with 9007199254740992 in *.
    change (2 ^ 54) with 18014398509481984. lia. }
  destruct (round_aux_near (d <? 0) q (ex - 22) (new_location (Zpos hour_mantissa) r) Hq ltac:(lia))
    as [m [E [H1 [H2 [H3 H4]]]]].
  exists m, E, (2 ^ (E - (ex - 22))).
  assert (Hc : 0 < 2 ^ (E - (ex - 22))) by (apply Z.pow_pos_nonneg; lia).
  split; [exact H1|]. split; [lia|]. split; [exact Hc|].
  rewrite <- Z.pow_add_r by lia.
  replace (- E + (E - (ex - 22))) with (22 - ex) by lia.
  split; [apply Z.pow_le_mono_r; lia|].
  set (M := Zpos m * 2 ^ (E - (ex - 22))) in *.
  assert (HA : Zpos mx * 2 ^ 53 = Z.abs d * 2 ^ (22 - ex) * 2 ^ 31).
  { rewrite Hmx, <- !Z.mul_assoc, <- !Z.pow_add_r by lia. do 2 f_equal. lia. }
  set (A := Z.abs d * 2 ^ (22 - ex)) in *.
  assert (Hr0 : M < q -> r = 0) by (intros Hlt; apply new_location_exact; now apply H4).
  unfold hour_mantissa in *. change (2 ^ 31) with 2147483648 in HA.
  destruct (Z_lt_ge_dec M q) as [Hlt|Hge]; [specialize (Hr0 Hlt)|]; lia.
Qed.

(** *** Hours worked *)

(** [toFixed(2)] of a quotient that is within one unit in the last place of
    [|d| / 3600000] prints a value within 0.005 of [d / 3600000]. *)
Lemma toFixed2_hours m E c d :
  E <= -20 -> 0 < c -> 2 ^ 22 <= 2 ^ (- E) * c ->
  Z.abs (3600000 * (Zpos m * c) - Z.abs d * (2 ^ (- E) * c)) <= 3600000 ->
  Z.abs d < 2 ^ 53 ->
  exists h, Number.toFixed2 (S754_finite (d <? 0) m E) = Number.Dec h
            /\ rounds_to_hundredths d 3600000 h.
Proof.
  intros HE Hc HP Hnear Hd.
  destruct E as [|k|k]; try lia.
  unfold Number.toFixed2, Number.nearest_hundredths.
  change (- Zneg k) with (Zpos k) in *.
  set (K := 2 ^ Zpos k) in *.
  assert (HK : 0 < K) by (apply Z.pow_pos_nonneg; lia).
  replace (2 ^ (Zpos k + 1)) with (2 * K)
    by (rewrite Z.pow_add_r by lia; change (2 ^ 1) with 2; fold K; ring).
  set (n := (200 * Zpos m + K) / (2 * K)).
  assert (Hn : 2 * K * n <= 200 * Zpos m + K < 2 * K * n + 2 * K).
  { pose proof (Z.div_mod (200 * Zpos m + K) (2 * K) ltac:(lia)) as H1.
    pose proof (Z.mod_pos_bound (200 * Zpos m + K) (2 * K) ltac:(lia)) as H2.
    fold n in H1. lia. }
  set (P := K * c) in *. set (M := Zpos m * c) in *. set (A := Z.abs d * P) in *.
  assert (Hn' : 2 * (P * n) <= 200 * M + P < 2 * (P * n) + 2 * P).
  { unfold P, M. split; nia. }
  change (2 ^ 22) with 4194304 in HP.
  assert (Hup : 72000 * n - 2 * Z.abs d - 36000 < 2).
  { assert (H1 : P * (72000 * n - 2 * Z.abs d - 36000) <= 7200000).
    { replace (P * (72000 * n - 2 * Z.abs d - 36000))
        with (72000 * (P * n) - 2 * A - 36000 * P) by (unfold A; ring).
      lia. }
    destruct (Z_lt_ge_dec (72000 * n - 2 * Z.abs d - 36000) 2) as [|Hge]; [assumption|].
    assert (P * 2 <= P * (72000 * n - 2 * Z.abs d - 36000))
      by (apply Z.mul_le_mono_nonneg_l; lia).
    lia. }
  assert (Hlo : -2 < 72000 * n - 2 * Z.abs d + 36000).
  { assert (H1 : - 7200000 <= P * (72000 * n - 2 * Z.abs d + 36000)).
    { replace (P * (72000 * n - 2 * Z.abs d + 36000))
        with (72000 * (P * n) - 2 * A + 36000 * P) by (unfold A; ring).
      lia. }
    destruct (Z_lt_ge_dec (-2) (72000 * n - 2 * Z.abs d + 36000)) as [|Hge]; [assumption|].
    assert (P * (72000 * n - 2 * Z.abs d + 36000) <= P * (-2))
      by (apply Z.mul_le_mono_nonneg_l; lia).
    lia. }
  assert (Hbig : (10 ^ 23 <=? n) = false).
  { apply Z.leb_gt. change (2 ^ 53) with 9007199254740992 in Hd.
    change (10 ^ 23) with 100000000000000000000000. lia. }
  rewrite Hbig. eexists. split; [reflexivity|].
  unfold rounds_to_hundredths. destruct (d <? 0) eqn:Es.
  - apply Z.ltb_lt in Es. lia.
  - apply Z.ltb_ge in Es. lia.
Qed.

Lemma of_Z_msPerHour :
  Number.of_Z JSDate.msPerHour = S754_finite false hour_mantissa (-31).
Proof. reflexivity. Qed.

(** The hours between two instants, as the routes compute and print them:
    a two-decimal value within 0.005 of the exact number of hours. *)
Lemma hours_between_rounds checkIn checkOut :
  valid_time checkIn -> valid_time checkOut -> safe_distance checkIn checkOut ->
  let hoursWorked := hours_between (Some checkIn) (Some checkOut) in
  (checkOut = checkIn -> hoursWorked = S754_zero false)
  /\ (checkOut <> checkIn -> Number.truthy hoursWorked = true)
  /\ exists h, Number.toFixed2 hoursWorked = Number.Dec h
               /\ rounds_to_hundredths (checkOut - checkIn) JSDate.msPerHour h.
Proof.
  unfold valid_time, safe_distance. intros Hi Ho Hd.
  assert (Hi' : Z.abs checkIn < 2 ^ 53) by (change (2 ^ 53) with 9007199254740992; lia).
  assert (Ho' : Z.abs checkOut < 2 ^ 53) by (change (2 ^ 53) with 9007199254740992; lia).
  unfold hours_between, JSDate.diff, JSDate.toNumber, Number.sub, Number.div.
  rewrite of_Z_msPerHour. unfold Number.of_Z, Number.prec, Number.emax.
  rewrite (sub_of_Z_exact checkIn checkOut Hi' Ho' Hd).
  destruct (Z.eq_dec (checkOut - checkIn) 0) as [E|Hne].
  - rewrite E. cbn [binary_normalize SFdiv xorb Number.truthy Number.toFixed2].
    split; [reflexivity|]. split; [lia|].
    exists 0. split; [reflexivity|]. unfold rounds_to_hundredths, JSDate.msPerHour. lia.
  - rewrite of_Z_canonical by assumption.
    destruct (div_hours (checkOut - checkIn) Hne Hd) as [m [E [c [H1 [H2 [H3 [H4 H5]]]]]]].
    rewrite H1. cbn [Number.truthy]. split; [lia|]. split; [reflexivity|].
    exact (toFixed2_hours m E c (checkOut - checkIn) H2 H3 H4 H5 Hd).
Qed.

(** A check-out on a row that is open for it: the row written and where it
    is found afterwards. *)
Lemma recordCheckOut_open st employeeId today now a checkIn :
  attendance_findUnique st employeeId today = Some a ->
  Attendance.checkIn a = Some checkIn ->
  Attendance.checkOut a = None ->
  let h := Number.toFixed2 (hours_between (Some checkIn) (Some now)) in
  let st' := snd (attendance_update st a (checkout_update now h)) in
  recordCheckOut st employeeId today now = (Sent 200 (checkout_update now h a), st')
  /\ attendance_findUnique st' employeeId today = Some (checkout_update now h a).
Proof.
  intros Hf Hi Ho h st'. split.
  - unfold recordCheckOut. rewrite Hf, Hi, Ho. reflexivity.
  - unfold st', attendance_update, attendance_findUnique in *.
    cbn [snd attendance with_attendance].
    rewrite find_map_stable.
    + rewrite Hf. cbn [option_map]. now rewrite Z.eqb_refl.
    + intros x. destruct (Attendance.id x =? Attendance.id a); reflexivity.
Qed.

(** C4.  A check-out on a row with a check-in time and no check-out time
    succeeds, stamps the clock reading as [checkOut] and stores as
    [hoursWorked] the value [toFixed(2)] prints for
    (checkOut - checkIn) / (1000 * 60 * 60).  For dates less than 2^53 ms
    apart that value is a two-decimal number within 0.005 of the exact
    elapsed time in hours. *)
Theorem recordCheckOut_hoursWorked st employeeId today now a checkIn :
  attendance_findUnique st employeeId today = Some a ->
  Attendance.checkIn a = Some checkIn ->
  Attendance.checkOut a = None ->
  exists a' st',
    recordCheckOut st employeeId today now = (Sent 200 a', st')
    /\ attendance_findUnique st' employeeId today = Some a'
    /\ Attendance.id a' = Attendance.id a
    /\ Attendance.checkIn a' = Some checkIn
    /\ Attendance.checkOut a' = Some now
    /\ Attendance.hoursWorked a'
       = Some (Number.toFixed2 (hours_between (Some checkIn) (Some now)))
    /\ (valid_time checkIn -> valid_time now -> safe_distance checkIn now ->
        exists h,
          Attendance.hoursWorked a' = Some (Number.Dec h)
          /\ rounds_to_hundredths (now - checkIn) JSDate.msPerHour h).
Proof.
  intros Hf Hi Ho.
  destruct (recordCheckOut_open st employeeId today now a checkIn Hf Hi Ho) as [H1 H2].
  eexists. eexists. split; [exact H1|]. split; [exact H2|].
  cbn [checkout_update Attendance.id Attendance.checkIn Attendance.checkOut
       Attendance.hoursWorked].
  repeat (split; [reflexivity || assumption|]).
  intros Hvi Hvo Hd.
  destruct (hours_between_rounds checkIn now Hvi Hvo Hd) as [_ [_ [h [Hh Hr]]]].
  exists h. split; [now rewrite Hh|exact Hr].
Qed.

(** John checks in at 08:00 and out at 16:30: 8.50 hours. *)
Lemma recordCheckOut_hoursWorked_witness :
  exists a' st',
    recordCheckOut Durations.db_checked_in 1 Seed.mar4 Seed.mar4_1630 = (Sent 200 a', st')
    /\ Attendance.checkOut a' = Some Seed.mar4_1630
    /\ Attendance.hoursWorked a' = Some (Number.Dec 850).
Proof.
  destruct (recordCheckOut_hoursWorked Durations.db_checked_in 1 Seed.mar4 Seed.mar4_1630
              (Attendance.mk 1 1 Seed.mar4 (Some Seed.mar4_0800) None None
                 Attendance.present None)
              Seed.mar4_0800)
    as [a' [st' [H1 [_ [_ [_ [H2 [_ H3]]]]]]]].
  - reflexivity.
  - reflexivity.
  - reflexivity.
  - exists a', st'. split; [exact H1|]. split; [exact H2|].
    destruct H3 as [h [H3 H4]].
    + unfold valid_time. vm_compute. discriminate.
    + unfold valid_time. vm_compute. discriminate.
    + unfold safe_distance. vm_compute. reflexivity.
    + rewrite H3. do 2 f_equal.
      unfold rounds_to_hundredths, Seed.mar4_1630, Seed.mar4_0800, Seed.mar4,
        JSDate.msPerHour in H4.
      lia.
Defined.

(** The bound on the distance is needed for the accuracy, though only at
    distances no attendance row has: from the earliest JS date to a day in
    the year 13606 the difference itself is rounded, and the printed hours
    are off by 0.005 hours and one millisecond. *)
Remark hours_beyond_safe_distance :
  let checkIn := -8640000000000000 in
  let checkOut := 367199254782001 in
  valid_time checkIn /\ valid_time checkOut
  /\ Number.toFixed2 (hours_between (Some checkIn) (Some checkOut))
     = Number.Dec 250199979299
  /\ ~ rounds_to_hundredths (checkOut - checkIn) JSDate.msPerHour 250199979299.
Proof.
  cbv zeta. unfold valid_time, rounds_to_hundredths.
  split; [vm_compute; discriminate|]. split; [vm_compute; discriminate|].
  split; [vm_compute; reflexivity|]. vm_compute. intros H. now apply H.
Qed.

(** *** The sign of the hours worked *)

Lemma shr_1_nonneg mrs : 0 <= shr_m mrs -> 0 <= shr_m (shr_1 mrs).
Proof.
  destruct mrs as [m r s]. cbn [shr_m]. intros H.
  destruct m as [|[p|p|]|p]; cbn; lia.
Qed.

Lemma iter_shr_nonneg n : forall mrs,
  0 <= shr_m mrs -> 0 <= shr_m (iter_pos shr_1 n mrs).
Proof.
  induction n as [n IH|n IH|]; intros mrs H; cbn [iter_pos].
  - apply IH, IH, shr_1_nonneg, H.
  - apply IH, IH, H.
  - apply shr_1_nonneg, H.
Qed.

Lemma shr_fexp_nonneg m e l :
  0 <= m -> 0 <= shr_m (fst (shr_fexp 53 1024 m e l)).
Proof.
  intros H. unfold shr_fexp, shr.
  destruct (fexp 53 1024 (Zdigits2 m + e) - e) as [|n|n]; cbn [fst];
    try (rewrite shr_m_of_loc; exact H).
  apply iter_shr_nonneg. rewrite shr_m_of_loc. exact H.
Qed.

(** Rounding keeps the sign it is given. *)
Lemma round_aux_sign s m e l :
  0 <= m -> signed_as s (binary_round_aux 53 1024 s m e l).
Proof.
  intros H. rewrite binary_round_aux_stages.
  pose proof (shr_fexp_nonneg m e l H) as H1.
  destruct (shr_fexp 53 1024 m e l) as [mrs e1]. cbn [fst] in H1.
  unfold renormalize.
  set (m1 := round_nearest_even (shr_m mrs) (loc_of_shr_record mrs)).
  assert (Hm1 : 0 <= m1).
  { unfold m1. destruct (round_nearest_even_range (shr_m mrs) (loc_of_shr_record mrs))
      as [-> | ->]; lia. }
  pose proof (shr_fexp_nonneg m1 e1 loc_Exact Hm1) as H2.
  destruct (shr_fexp 53 1024 m1 e1 loc_Exact) as [mrs2 e2]. cbn [fst] in H2.
  destruct (shr_m mrs2) as [|p|p]; try lia; cbn [signed_as]; [exact I|].
  destruct (e2 <=? 1024 - 53); reflexivity.
Qed.

Lemma normalize_sign z e : 0 <= z -> signed_as false (binary_normalize 53 1024 z e false).
Proof.
  intros H. destruct z as [|p|p]; try lia; cbn [binary_normalize]; [exact I|].
  unfold binary_round. destruct (shl_align p e _) as [mz ez].
  apply round_aux_sign. lia.
Qed.

Lemma sub_sign a b :
  Z.abs a < 2 ^ 53 -> Z.abs b < 2 ^ 53 -> a <= b ->
  signed_as false (Number.sub (Number.of_Z b) (Number.of_Z a)).
Proof.
  intros Ha Hb Hab. unfold Number.sub, Number.of_Z, Number.prec, Number.emax.
  destruct (Z.eq_dec a 0) as [->|Ha0]; destruct (Z.eq_dec b 0) as [->|Hb0].
  - exact I.
  - rewrite (of_Z_canonical b) by assumption. unfold canonical.
    cbn [binary_normalize SFsub signed_as]. apply Z.ltb_ge. lia.
  - rewrite (of_Z_canonical a) by assumption. unfold canonical.
    cbn [binary_normalize SFsub signed_as].
    replace (a <? 0) with true by (symmetry; apply Z.ltb_lt; lia). reflexivity.
  - rewrite (of_Z_canonical a), (of_Z_canonical b) by assumption.
    destruct (sub_canonical a b Ha0 Ha Hb0 Hb) as [j [Hj ->]].
    apply normalize_sign. apply Z.mul_nonneg_nonneg; [lia|]. apply Z.pow_nonneg. lia.
Qed.

Lemma div_sign x :
  signed_as false x -> signed_as false (Number.div x (Number.of_Z JSDate.msPerHour)).
Proof.
  rewrite of_Z_msPerHour. unfold Number.div, Number.prec, Number.emax.
  destruct x as [s|s| |s m e]; cbn [signed_as SFdiv]; try tauto.
  - intros ->. reflexivity.
  - intros ->. cbn [xorb].
    destruct (SFdiv_core_binary 53 1024 (Zpos m) e (Zpos hour_mantissa) (-31))
      as [[mz ez] lz] eqn:E.
    apply round_aux_sign.
    unfold SFdiv_core_binary in E. cbv zeta in E. rewrite div_eucl_eq in E.
    injection E as <- _ _. apply Z.div_pos; [|lia].
    destruct (_ - _ - _) as [|p|p]; try lia. rewrite Z.shiftl_mul_pow2 by lia.
    apply Z.mul_nonneg_nonneg; [lia|]. apply Z.pow_nonneg. lia.
Qed.

Lemma nearest_hundredths_nonneg m e : 0 <= Number.nearest_hundredths m e.
Proof.
  unfold Number.nearest_hundredths. destruct e as [|k|k].
  - lia.
  - assert (0 <= 2 ^ Zpos k) by (apply Z.pow_nonneg; lia). nia.
  - assert (0 < 2 ^ Zpos k) by (apply Z.pow_pos_nonneg; lia).
    assert (0 < 2 ^ (Zpos k + 1)) by (apply Z.pow_pos_nonneg; lia).
    apply Z.div_pos; lia.
Qed.

Lemma toFixed2_sign x :
  signed_as false x -> ~ negative_hours (Some (Number.toFixed2 x)).
Proof.
  destruct x as [s|s| |s m e]; cbn [signed_as Number.toFixed2 negative_hours]; try tauto.
  - lia.
  - intros ->. discriminate.
  - intros ->. destruct (10 ^ 23 <=? _); cbn [negative_hours]; [discriminate|].
    pose proof (nearest_hundredths_nonneg m e). lia.
Qed.

(** Hours between a check-in and a check-out that is not earlier are not
    negative. *)
Lemma hours_between_sign checkIn checkOut :
  valid_time checkIn -> valid_time checkOut -> checkIn <= checkOut ->
  ~ negative_hours (Some (Number.toFixed2 (hours_between (Some checkIn) (Some checkOut)))).
Proof.
  unfold valid_time. intros Hi Ho Hle.
  apply toFixed2_sign. unfold hours_between, JSDate.diff, JSDate.toNumber.
  apply div_sign, sub_sign; try assumption; change (2 ^ 53) with 9007199254740992; lia.
Qed.

Lemma findUnique_after_upsert st employeeId date update create :
  (forall x, Attendance.employeeId (update x) = Attendance.employeeId x
             /\ Attendance.date (update x) = Attendance.date x) ->
  (forall id, Attendance.employeeId (create id) = employeeId
              /\ Attendance.date (create id) = date) ->
  attendance_findUnique (snd (attendance_upsert st employeeId date update create))
    employeeId date
  = Some (fst (attendance_upsert st employeeId date update create)).
Proof.
  intros Hu Hc. unfold attendance_upsert.
  destruct (attendance_findUnique st employeeId date) as [a|] eqn:E; cbn [fst snd].
  - now apply findUnique_after_update.
  - destruct (Hc (nextAttendanceId st)). now apply findUnique_after_create.
Qed.

(** The row the HR route writes, field by field, whichever branch of the
    upsert runs. *)
Lemma hr_row_fields st employeeId date ci co h status notes :
  let a := fst (attendance_upsert st employeeId date
                  (hr_update ci co h status notes)
                  (hr_create employeeId date ci co h status notes)) in
  Attendance.checkIn a = ci /\ Attendance.checkOut a = co
  /\ Attendance.hoursWorked a = h /\ Attendance.status a = status.
Proof.
  unfold attendance_upsert.
  destruct (attendance_findUnique st employeeId date); cbn; repeat split.
Qed.

(** The HR route with both times sent, for an employee on file. *)
Lemma hrUpsert_both tz st b attendanceDate ci co e :
  JSDate.setHours tz (JSDate.fromValue (body_date b)) 0 0 0 0 = Some attendanceDate ->
  body_checkIn b = Some ci -> body_checkOut b = Some co ->
  valid_time ci -> valid_time co ->
  employee_by_id st (body_employeeId b) = Some e ->
  exists a' st',
    hrUpsert tz st b = (Sent 201 a', st')
    /\ attendance_findUnique st' (body_employeeId b) attendanceDate = Some a'
    /\ Attendance.checkIn a' = Some ci
    /\ Attendance.checkOut a' = Some co
    /\ Attendance.hoursWorked a'
       = hr_hoursWorked_field (Some (hours_between (Some ci) (Some co))).
Proof.
  intros Hd Hi Ho Hvi Hvo He.
  rewrite (hrUpsert_valid tz st b attendanceDate Hd)
    by (rewrite ?Hi, ?Ho, ?He; try assumption; right; discriminate).
  rewrite Hi, Ho. cbn [hr_hoursWorked]. rewrite !fromValue_valid by assumption.
  eexists. eexists. split; [reflexivity|]. split.
  - apply findUnique_after_upsert; intros; split; reflexivity.
  - split; [|split].
    + refine (proj1 (hr_row_fields _ _ _ _ _ _ _ _)).
    + refine (proj1 (proj2 (hr_row_fields _ _ _ _ _ _ _ _))).
    + refine (proj1 (proj2 (proj2 (hr_row_fields _ _ _ _ _ _ _ _)))).
Qed.

(** C8, as the code has it.  On both routes that compute it (the check-out
    of a checked-in row, and the HR entry with both times for an employee on
    file), the stored [hoursWorked] is not negative when the check-out time
    is not earlier than the check-in time. *)
Theorem hoursWorked_not_negative :
  (forall st employeeId today now a checkIn,
     attendance_findUnique st employeeId today = Some a ->
     Attendance.checkIn a = Some checkIn ->
     Attendance.checkOut a = None ->
     valid_time checkIn -> valid_time now ->
     checkIn <= now ->
     exists a' st',
       recordCheckOut st employeeId today now = (Sent 200 a', st')
       /\ attendance_findUnique st' employeeId today = Some a'
       /\ ~ negative_hours (Attendance.hoursWorked a'))
  /\
  (forall tz st b attendanceDate checkIn checkOut e,
     JSDate.setHours tz (JSDate.fromValue (body_date b)) 0 0 0 0 = Some attendanceDate ->
     body_checkIn b = Some checkIn -> body_checkOut b = Some checkOut ->
     valid_time checkIn -> valid_time checkOut ->
     employee_by_id st (body_employeeId b) = Some e ->
     checkIn <= checkOut ->
     exists a' st',
       hrUpsert tz st b = (Sent 201 a', st')
       /\ attendance_findUnique st' (body_employeeId b) attendanceDate = Some a'
       /\ ~ negative_hours (Attendance.hoursWorked a')).
Proof.
  split.
  - intros st employeeId today now a checkIn Hf Hi Ho Hvi Hvo Hle.
    destruct (recordCheckOut_open st employeeId today now a checkIn Hf Hi Ho) as [H1 H2].
    eexists. eexists. split; [exact H1|]. split; [exact H2|].
    cbn [checkout_update Attendance.hoursWorked].
    now apply hours_between_sign.
  - intros tz st b attendanceDate checkIn checkOut e Hd Hi Ho Hvi Hvo He Hle.
    destruct (hrUpsert_both tz st b attendanceDate checkIn checkOut e Hd Hi Ho Hvi Hvo He)
      as [a' [st' [H1 [H2 [_ [_ H3]]]]]].
    exists a', st'. split; [exact H1|]. split; [exact H2|].
    rewrite H3. cbn [hr_hoursWorked_field].
    destruct (Number.truthy _); [|cbn; tauto].
    now apply hours_between_sign.
Qed.

Lemma hoursWorked_not_negative_witness :
  (exists a' st',
     recordCheckOut Durations.db_checked_in 1 Seed.mar4 Seed.mar4_1630 = (Sent 200 a', st')
     /\ ~ negative_hours (Attendance.hoursWorked a'))
  /\ (exists a' st',
        hrUpsert Seed.kigali Seed.db Cases.correction = (Sent 201 a', st')
        /\ ~ negative_hours (Attendance.hoursWorked a')).
Proof.
  split.
  - destruct (proj1 hoursWorked_not_negative Durations.db_checked_in 1 Seed.mar4
                Seed.mar4_1630
                (Attendance.mk 1 1 Seed.mar4 (Some Seed.mar4_0800) None None
                   Attendance.present None)
                Seed.mar4_0800)
      as [a' [st' [H1 [_ H2]]]].
    + reflexivity.
    + reflexivity.
    + reflexivity.
    + unfold valid_time. vm_compute. discriminate.
    + unfold valid_time. vm_compute. discriminate.
    + vm_compute. discriminate.
    + exists a', st'. split; assumption.
  - destruct (proj2 hoursWorked_not_negative Seed.kigali Seed.db Cases.correction
                Seed.mar4 Seed.mar4_0800 Seed.mar4_1630 Seed.john)
      as [a' [st' [H1 [_ H2]]]].
    + reflexivity.
    + reflexivity.
    + reflexivity.
    + unfold valid_time. vm_compute. discriminate.
    + unfold valid_time. vm_compute. discriminate.
    + reflexivity.
    + vm_compute. discriminate.
    + exists a', st'. split; assumption.
Defined.

(** C8 as stated fails: neither route checks that the check-out time comes
    after the check-in time.  An HR entry from 16:30 to 08:00 is stored with
    -8.50 hours, and so is a check-out at 08:00 on a row whose check-in time
    is 16:30. *)
Lemma hoursWorked_negative_counterexample :
  (exists a st',
     hrUpsert Seed.kigali Seed.db Durations.reversed = (Sent 201 a, st')
     /\ attendance_findUnique st' 1 Seed.mar4 = Some a
     /\ Attendance.hoursWorked a = Some (Number.Dec (-850))
     /\ negative_hours (Attendance.hoursWorked a))
  /\ (exists a st',
        recordCheckOut Durations.db_ahead 1 Seed.mar4 Seed.mar4_0800 = (Sent 200 a, st')
        /\ attendance_findUnique st' 1 Seed.mar4 = Some a
        /\ Attendance.hoursWorked a = Some (Number.Dec (-850))
        /\ negative_hours (Attendance.hoursWorked a)).
Proof.
  split.
  - eexists. eexists. split; [reflexivity|]. split; [reflexivity|].
    split; [reflexivity|]. cbn. lia.
  - eexists. eexists. split; [reflexivity|]. split; [reflexivity|].
    split; [reflexivity|]. cbn. lia.
Qed.

(** *** A zero duration in the HR route *)

(** C9.  When the HR route is sent the same instant as check-in and
    check-out time, for an employee on file, the duration it computes is
    zero, zero is falsy, and the row is stored with [hoursWorked] null, not
    0.00. *)
Theorem hrUpsert_zero_duration_null tz st b attendanceDate t e :
  JSDate.setHours tz (JSDate.fromValue (body_date b)) 0 0 0 0 = Some attendanceDate ->
  body_checkIn b = Some t -> body_checkOut b = Some t ->
  valid_time t ->
  employee_by_id st (body_employeeId b) = Some e ->
  hr_hoursWorked (body_checkIn b) (body_checkOut b) = Some (S754_zero false)
  /\ Number.toFixed2 (S754_zero false) = Number.Dec 0
  /\ exists a' st',
       hrUpsert tz st b = (Sent 201 a', st')
       /\ attendance_findUnique st' (body_employeeId b) attendanceDate = Some a'
       /\ Attendance.checkIn a' = Some t
       /\ Attendance.checkOut a' = Some t
       /\ Attendance.hoursWorked a' = None.
Proof.
  intros Hd Hi Ho Hv He.
  assert (Hz : hours_between (Some t) (Some t) = S754_zero false).
  { apply (hours_between_rounds t t Hv Hv); [|reflexivity].
    unfold safe_distance. rewrite Z.sub_diag. reflexivity. }
  split; [|split; [reflexivity|]].
  - rewrite Hi, Ho. cbn [hr_hoursWorked]. rewrite fromValue_valid by assumption.
    now rewrite Hz.
  - destruct (hrUpsert_both tz st b attendanceDate t t e Hd Hi Ho Hv Hv He)
      as [a' [st' [H1 [H2 [H3 [H4 H5]]]]]].
    exists a', st'. repeat (split; [assumption|]).
    rewrite H5, Hz. reflexivity.
Qed.

Lemma hrUpsert_zero_duration_null_witness :
  exists a' st',
    hrUpsert Seed.kigali Seed.db Durations.same_instant = (Sent 201 a', st')
    /\ Attendance.checkIn a' = Some Seed.mar4_0800
    /\ Attendance.checkOut a' = Some Seed.mar4_0800
    /\ Attendance.hoursWorked a' = None.
Proof.
  destruct (hrUpsert_zero_duration_null Seed.kigali Seed.db Durations.same_instant
              Seed.mar4 Seed.mar4_0800 Seed.john)
    as [_ [_ [a' [st' [H1 [_ [H2 [H3 H4]]]]]]]].
  - reflexivity.
  - reflexivity.
  - reflexivity.
  - unfold valid_time. vm_compute. discriminate.
  - reflexivity.
  - exists a', st'. repeat split; assumption.
Defined.

(** *** The routes around the day's row *)

(** The day a check-in or check-out is booked on is the local midnight before
    the clock reading. *)
Lemma today_is_local_midnight tz now :
  valid_time now -> Z.abs tz <= JSDate.msPerDay -> Z.abs now <= 8 * 10 ^ 15 ->
  JSDate.setHours tz (Some now) 0 0 0 0
  = Some (now - (now + tz) mod JSDate.msPerDay).
Proof.
  unfold valid_time, JSDate.setHours, JSDate.LocalTime, JSDate.Day, JSDate.UTC,
    JSDate.MakeDate, JSDate.TimeClip, JSDate.MakeTime, JSDate.msPerHour, JSDate.msPerDay.
  intros Hv Htz Hn. change (8 * 10 ^ 15) with 8000000000000000 in Hn.
  replace ((now + tz) / 86400000 * 86400000 + (0 * (1000 * 60 * 60) + 0 * 60000 + 0 * 1000 + 0) - tz)
    with (now - (now + tz) mod 86400000)
    by (Z.div_mod_to_equations; lia).
  replace (Z.abs _ <=? _) with true; [reflexivity|].
  symmetry. apply Z.leb_le. Z.div_mod_to_equations. lia.
Qed.

(** POST /checkin and POST /checkout, for a user with an employee record, are
    the check-in and check-out of that employee on the current local day. *)
Lemma routes_for_employee tz st uid e now t1 t2 :
  user_with_employee st uid = Some (Some e) ->
  valid_time now -> Z.abs tz <= JSDate.msPerDay -> Z.abs now <= 8 * 10 ^ 15 ->
  let today := now - (now + tz) mod JSDate.msPerDay in
  checkin tz st uid now t1 t2 = recordCheckIn st (Employee.id e) today t1 t2
  /\ checkout tz st uid now t1 = recordCheckOut st (Employee.id e) today t1.
Proof.
  intros Hu Hv Htz Hn today. unfold checkin, checkout.
  rewrite Hu, today_is_local_midnight by assumption. split; reflexivity.
Qed.

(** Without an employee record both routes answer 404 and change nothing. *)
Lemma routes_without_employee tz st uid now t1 t2 :
  user_with_employee st uid = Some None ->
  checkin tz st uid now t1 t2 = (Failed EmployeeRecordNotFound, st)
  /\ checkout tz st uid now t1 = (Failed EmployeeRecordNotFound, st)
  /\ http_status EmployeeRecordNotFound = 404.
Proof.
  intros Hu. unfold checkin, checkout. rewrite Hu. repeat split.
Qed.

(* ===================================================================== *)
(** ** Further properties of the routes *)

(** *** Ordered results *)

Section OrderByFacts.
Context {A : Type}.
Variable before : A -> A -> bool.
Hypothesis before_total : forall x y, before x y = true \/ before y x = true.

Lemma insert_row_perm x l : Permutation (insert_row before x l) (x :: l).
Proof.
  induction l as [|y l IH]; cbn; [reflexivity|].
  destruct (before x y); [reflexivity|].
  rewrite IH. apply perm_swap.
Qed.

Lemma orderBy_perm l : Permutation (orderBy before l) l.
Proof.
  induction l as [|x l IH]; cbn; [reflexivity|].
  rewrite insert_row_perm. now constructor.
Qed.

Lemma insert_row_sorted x l :
  Sorted (fun a b => before a b = true) l ->
  Sorted (fun a b => before a b = true) (insert_row before x l).
Proof.
  induction l as [|y l IH]; cbn; intros Hs.
  - repeat constructor.
  - destruct (before x y) eqn:E.
    + constructor; [exact Hs|]. now constructor.
    + inversion Hs as [|? ? Hs' Hr]; subst.
      constructor; [now apply IH|].
      destruct l as [|z l]; cbn.
      * constructor. destruct (before_total x y); congruence.
      * destruct (before x z).
        -- constructor. destruct (before_total x y); congruence.
        -- constructor. now inversion Hr.
Qed.

Lemma orderBy_sorted l : Sorted (fun a b => before a b = true) (orderBy before l).
Proof.
  induction l as [|x l IH]; cbn; [constructor|]. now apply insert_row_sorted.
Qed.

Lemma orderBy_in l x : In x (orderBy before l) <-> In x l.
Proof.
  split; apply Permutation_in; [|symmetry]; apply orderBy_perm.
Qed.
End OrderByFacts.

Lemma Sorted_weaken {A : Type} (R R' : A -> A -> Prop) (l : list A) :
  (forall a b, R a b -> R' a b) -> Sorted R l -> Sorted R' l.
Proof.
  intros H Hs. induction Hs as [|a l Hs IH Hr]; constructor; [exact IH|].
  destruct Hr; constructor. now apply H.
Qed.

Lemma date_desc_total a b : date_desc a b = true \/ date_desc b a = true.
Proof. unfold date_desc. rewrite !Z.leb_le. lia. Qed.

Lemma period_desc_total p q : period_desc p q = true \/ period_desc q p = true.
Proof.
  unfold period_desc.
  rewrite !orb_true_iff, !andb_true_iff, !Z.ltb_lt, !Z.eqb_eq, !Z.leb_le. lia.
Qed.

Lemma matches_some w x : matches (Some w) x = true <-> x = w.
Proof. apply Z.eqb_eq. Qed.

(** *** GET /api/payroll *)

(** For HR managers and admins the list is the rows that match the query,
    each exactly once, latest period first. *)
Theorem getPayrolls_sorted_complete st uid userRole q :
  userRole <> role_employee ->
  exists rows,
    getPayrolls st uid userRole q = Ok rows
    /\ Permutation rows
         (filter (payroll_where (pquery_employeeId q) (pquery_month q) (pquery_year q))
            (payroll st))
    /\ Sorted (fun p p' =>
                 Payroll.year p' < Payroll.year p
                 \/ (Payroll.year p' = Payroll.year p /\ Payroll.month p' <= Payroll.month p))
         rows.
Proof.
  intros Hr. eexists. split; [|split].
  - destruct userRole; [contradiction| |]; reflexivity.
  - apply orderBy_perm.
  - eapply Sorted_weaken; [|apply orderBy_sorted, period_desc_total].
    intros p p'. unfold period_desc.
    rewrite orb_true_iff, andb_true_iff, Z.ltb_lt, Z.eqb_eq, Z.leb_le. tauto.
Qed.

Lemma getPayrolls_sorted_complete_witness :
  exists rows,
    getPayrolls Reading.db_payroll 2 role_hr_manager Reading.john_asked = Ok rows
    /\ map Payroll.id rows = [3; 4; 1].
Proof.
  destruct (getPayrolls_sorted_complete Reading.db_payroll 2 role_hr_manager
              Reading.john_asked) as [rows [H _]].
  - discriminate.
  - exists rows. split; [exact H|]. injection H as <-. reflexivity.
Defined.

(** An employee gets the rows of their own employee record and no others,
    whatever [employeeId] the query names; without an employee record the
    answer is 404. *)
Theorem getPayrolls_own_rows_only st uid q :
  (forall e, user_with_employee st uid = Some (Some e) ->
     exists rows,
       getPayrolls st uid role_employee q = Ok rows
       /\ forall p, In p rows <->
                    In p (payroll st)
                    /\ Payroll.employeeId p = Employee.id e
                    /\ matches (pquery_month q) (Payroll.month p) = true
                    /\ matches (pquery_year q) (Payroll.year p) = true)
  /\ (user_with_employee st uid = Some None ->
      getPayrolls st uid role_employee q = Refused 404 "Employee record not found").
Proof.
  unfold getPayrolls, reading_scope. split.
  - intros e ->. eexists. split; [reflexivity|]. intros p.
    rewrite (orderBy_in period_desc), filter_In. unfold payroll_where.
    rewrite !andb_true_iff, matches_some. tauto.
  - intros ->. reflexivity.
Qed.

Lemma getPayrolls_own_rows_only_witness :
  (exists rows,
     getPayrolls Reading.db_payroll 1 role_employee Reading.jane_asked = Ok rows
     /\ map Payroll.id rows = [3; 4; 1])
  /\ getPayrolls Reading.db_orphan 3 role_employee Reading.john_all
     = Refused 404 "Employee record not found".
Proof.
  split.
  - destruct (proj1 (getPayrolls_own_rows_only Reading.db_payroll 1 Reading.jane_asked)
                Seed.john eq_refl) as [rows [H _]].
    exists rows. split; [exact H|]. injection H as <-. reflexivity.
  - apply (proj2 (getPayrolls_own_rows_only Reading.db_orphan 3 Reading.john_all)).
    reflexivity.
Defined.

(** *** GET /api/payroll/:id *)

(** An employee is shown a payroll row exactly when the row exists and
    belongs to their own employee record; an HR manager or admin is shown any
    row that exists. *)
Theorem getPayrollById_access st uid payrollId p :
  (getPayrollById st uid role_employee payrollId = Ok p
     <-> payroll_by_id st payrollId = Some p
         /\ exists e, user_with_employee st uid = Some (Some e)
                      /\ Employee.id e = Payroll.employeeId p)
  /\ (forall userRole, userRole <> role_employee ->
        (getPayrollById st uid userRole payrollId = Ok p
           <-> payroll_by_id st payrollId = Some p)).
Proof.
  unfold getPayrollById. split.
  - destruct (payroll_by_id st payrollId) as [p0|].
    + destruct (user_with_employee st uid) as [[e|]|].
      * destruct (Employee.id e =? Payroll.employeeId p0) eqn:E.
        -- apply Z.eqb_eq in E. split.
           ++ intros H. injection H as <-. split; [reflexivity|]. now exists e.
           ++ intros [H _]. now injection H as <-.
        -- apply Z.eqb_neq in E. split; [discriminate|].
           intros [H [e' [He' Hid]]]. injection H as <-. injection He' as <-.
           contradiction.
      * split; [discriminate|]. intros [_ [e [He _]]]. discriminate.
      * split; [discriminate|]. intros [_ [e [He _]]]. discriminate.
    + split; [discriminate|]. intros [H _]. discriminate.
  - intros userRole Hr. destruct (payroll_by_id st payrollId) as [p0|].
    + destruct userRole; [contradiction| |]; split; intros H; now injection H as <-.
    + destruct userRole; split; discriminate.
Qed.

(** The refusals of GET /api/payroll/:id: 404 for an id that is not on file,
    whoever asks, and 403 for an employee asking for a row of somebody
    else. *)
Theorem getPayrollById_refusals st uid userRole payrollId :
  (payroll_by_id st payrollId = None ->
     getPayrollById st uid userRole payrollId = Refused 404 "Payroll record not found")
  /\ (forall p e, payroll_by_id st payrollId = Some p ->
        user_with_employee st uid = Some (Some e) ->
        Employee.id e <> Payroll.employeeId p ->
        getPayrollById st uid role_employee payrollId = Refused 403 "Access denied").
Proof.
  unfold getPayrollById. split.
  - intros ->. reflexivity.
  - intros p e -> -> Hne. apply Z.eqb_neq in Hne. now rewrite Hne.
Qed.

Lemma getPayrollById_refusals_witness :
  getPayrollById Reading.db_payroll 1 role_employee 9
    = Refused 404 "Payroll record not found"
  /\ getPayrollById Reading.db_payroll 1 role_employee 2 = Refused 403 "Access denied".
Proof.
  split.
  - apply (proj1 (getPayrollById_refusals Reading.db_payroll 1 role_employee 9)).
    reflexivity.
  - apply (proj2 (getPayrollById_refusals Reading.db_payroll 1 role_employee 2)
             (Reading.pay 2 2 2 2024 Payroll.pending) Seed.john).
    + reflexivity.
    + reflexivity.
    + discriminate.
Defined.

(** *** DELETE /api/payroll/:id *)

(** Deleting an id that is on file removes the rows of that id and no other
    row, so that the id is not found afterwards; deleting an id that is not on
    file answers 404 and changes nothing. *)
Theorem deletePayroll_spec st payrollId :
  (payroll_by_id st payrollId = None ->
     deletePayroll st payrollId = (Refused 404 "Payroll record not found", st))
  /\ (forall p, payroll_by_id st payrollId = Some p ->
        exists st',
          deletePayroll st payrollId
            = (Ok "Payroll record deleted successfully"%string, st')
          /\ payroll_by_id st' payrollId = None
          /\ (forall q, In q (payroll st') <->
                        In q (payroll st) /\ Payroll.id q <> payrollId)
          /\ attendance st' = attendance st
          /\ employees st' = employees st).
Proof.
  unfold deletePayroll. split.
  - intros ->. reflexivity.
  - intros p ->. eexists. split; [reflexivity|]. split; [|split; [|split; reflexivity]].
    + unfold payroll_by_id. cbn [payroll with_payroll]. apply find_none_iff.
      intros x Hx. apply filter_In in Hx. destruct Hx as [_ Hx].
      now apply negb_true_iff in Hx.
    + intros q. cbn [payroll with_payroll]. rewrite filter_In, negb_true_iff, Z.eqb_neq.
      tauto.
Qed.

Lemma deletePayroll_spec_witness :
  deletePayroll Reading.db_payroll 9
    = (Refused 404 "Payroll record not found", Reading.db_payroll)
  /\ exists st',
       deletePayroll Reading.db_payroll 3
         = (Ok "Payroll record deleted successfully"%string, st')
       /\ map Payroll.id (payroll st') = [1; 2; 4].
Proof.
  split.
  - apply (proj1 (deletePayroll_spec Reading.db_payroll 9)). reflexivity.
  - destruct (proj2 (deletePayroll_spec Reading.db_payroll 3)
                (Reading.pay 3 1 2 2024 Payroll.pending) eq_refl)
      as [st' [H _]].
    exists st'. split; [exact H|]. injection H as <-. reflexivity.
Defined.

Lemma getPayrollById_access_witness :
  getPayrollById Reading.db_payroll 1 role_employee 4
    = Ok (Reading.pay 4 1 1 2024 Payroll.paid)
  /\ getPayrollById Reading.db_payroll 2 role_system_admin 4
     = Ok (Reading.pay 4 1 1 2024 Payroll.paid).
Proof.
  destruct (getPayrollById_access Reading.db_payroll 1 4
              (Reading.pay 4 1 1 2024 Payroll.paid)) as [H1 _].
  destruct (getPayrollById_access Reading.db_payroll 2 4
              (Reading.pay 4 1 1 2024 Payroll.paid)) as [_ H2].
  split.
  - apply H1. split; [reflexivity|]. exists Seed.john. split; reflexivity.
  - apply (H2 role_system_admin); [discriminate|reflexivity].
Defined.

(** *** GET /api/attendance *)

(** For HR managers and admins, with bounds that are dates, the list is the
    rows of the queried employee (of everybody without [employeeId]) dated
    from [startDate] to [endDate], both included, each exactly once, latest
    date first. *)
Theorem getAttendance_sorted_complete st uid userRole q :
  userRole <> role_employee ->
  valid_opt (query_startDate q) -> valid_opt (query_endDate q) ->
  exists rows,
    getAttendance st uid userRole q = Ok rows
    /\ Permutation rows
         (filter (attendance_where (query_employeeId q) (query_startDate q)
                    (query_endDate q))
            (attendance st))
    /\ Sorted (fun a b => Attendance.date b <= Attendance.date a) rows.
Proof.
  intros Hr Hs He. unfold getAttendance, reading_scope.
  rewrite (prisma_date_valid _ Hs), (prisma_date_valid _ He).
  eexists. split; [|split].
  - destruct userRole; [contradiction| |]; reflexivity.
  - apply orderBy_perm.
  - eapply Sorted_weaken; [|apply orderBy_sorted, date_desc_total].
    intros a b. unfold date_desc. now rewrite Z.leb_le.
Qed.

Lemma getAttendance_sorted_complete_witness :
  exists rows,
    getAttendance Cases.db_march_attendance 2 role_hr_manager Reading.march_john_query
      = Ok rows
    /\ map Attendance.id rows = [5; 4; 3; 2].
Proof.
  destruct (getAttendance_sorted_complete Cases.db_march_attendance 2 role_hr_manager
              Reading.march_john_query) as [rows [H _]].
  - discriminate.
  - cbv. discriminate.
  - cbv. discriminate.
  - exists rows. split; [exact H|]. injection H as <-. reflexivity.
Defined.

(** An employee gets rows of their own employee record only, whatever
    [employeeId] the query names; without an employee record the answer is
    404. *)
Theorem getAttendance_own_rows_only st uid q :
  (forall e rows, user_with_employee st uid = Some (Some e) ->
     getAttendance st uid role_employee q = Ok rows ->
     forall a, In a rows -> In a (attendance st) /\ Attendance.employeeId a = Employee.id e)
  /\ (forall e, user_with_employee st uid = Some (Some e) ->
        valid_opt (query_startDate q) -> valid_opt (query_endDate q) ->
        exists rows,
          getAttendance st uid role_employee q = Ok rows
          /\ forall a, In a rows <->
                       In a (attendance st)
                       /\ attendance_where (Some (Employee.id e)) (query_startDate q)
                            (query_endDate q) a = true)
  /\ (user_with_employee st uid = Some None ->
      getAttendance st uid role_employee q = Refused 404 "Employee record not found").
Proof.
  unfold getAttendance, reading_scope. split; [|split].
  - intros e rows ->.
    destruct (prisma_date _) as [gte|]; [|discriminate].
    destruct (prisma_date _) as [lte|]; [|discriminate].
    intros H a Ha. injection H as <-.
    rewrite (orderBy_in date_desc), filter_In in Ha. destruct Ha as [Hin Hw].
    split; [exact Hin|]. unfold attendance_where in Hw.
    rewrite !andb_true_iff, matches_some in Hw. tauto.
  - intros e -> Hs He.
    rewrite (prisma_date_valid _ Hs), (prisma_date_valid _ He).
    eexists. split; [reflexivity|]. intros a.
    now rewrite (orderBy_in date_desc), filter_In.
  - intros ->. reflexivity.
Qed.

Lemma getAttendance_own_rows_only_witness :
  (exists rows,
     getAttendance Cases.db_march_attendance 2 role_employee
       (mkAttendanceQuery (Some 1) None None) = Ok rows
     /\ map Attendance.id rows = [7])
  /\ getAttendance Reading.db_orphan 3 role_employee Reading.march_query
     = Refused 404 "Employee record not found".
Proof.
  destruct (getAttendance_own_rows_only Cases.db_march_attendance 2
              (mkAttendanceQuery (Some 1) None None)) as [_ [H _]].
  destruct (getAttendance_own_rows_only Reading.db_orphan 3 Reading.march_query)
    as [_ [_ H']].
  split.
  - destruct (H Seed.jane eq_refl I I) as [rows [Hr _]].
    exists rows. split; [exact Hr|]. injection Hr as <-. reflexivity.
  - apply H'. reflexivity.
Defined.

(** *** What the tables keep *)

Lemma map_map_same {A B : Type} (f : A -> B) (g : A -> A) (l : list A) :
  (forall x, f (g x) = f x) -> map f (map g l) = map f l.
Proof.
  intros H. rewrite map_map. apply map_ext. exact H.
Qed.

Lemma NoDup_map_filter {K R : Type} (key : R -> K) (keep : R -> bool) (rows : list R) :
  NoDup (map key rows) -> NoDup (map key (filter keep rows)).
Proof.
  induction rows as [|r rows IH]; cbn; intros H; [constructor|].
  inversion H as [|? ? Hn Hd]; subst.
  destruct (keep r); cbn; [constructor|]; auto.
  intros Hin. apply Hn. apply in_map_iff in Hin. destruct Hin as [y [Hy Hin]].
  apply filter_In in Hin. apply in_map_iff. exists y. tauto.
Qed.

Lemma NoDup_snoc {A : Type} (l : list A) (x : A) :
  NoDup l -> ~ In x l -> NoDup (l ++ [x]).
Proof.
  intros Hd Hn. induction Hd as [|y l Hy Hd IH]; cbn.
  - constructor; [intros []|constructor].
  - constructor.
    + intros Hin. apply in_app_or in Hin. destruct Hin as [Hin|[->|[]]]; [auto|].
      apply Hn. now left.
    + apply IH. intros Hin. apply Hn. now right.
Qed.

Lemma NoDup_map_eq {A B : Type} (f : A -> B) (l : list A) (x y : A) :
  NoDup (map f l) -> In x l -> In y l -> f x = f y -> x = y.
Proof.
  induction l as [|z l IH]; cbn; intros Hd Hx Hy E; [contradiction|].
  inversion Hd as [|? ? Hn Hd']; subst.
  destruct Hx as [->|Hx], Hy as [->|Hy]; auto.
  - exfalso. apply Hn. rewrite E. now apply in_map.
  - exfalso. apply Hn. rewrite <- E. now apply in_map.
Qed.

(** An upsert that keeps id, employee and day on update and creates the row
    of the given employee and day under the id it is handed keeps the
    attendance table in order. *)
Lemma attendance_upsert_ok st employeeId date update create :
  (forall x, Attendance.id (update x) = Attendance.id x
             /\ attendance_key (update x) = attendance_key x) ->
  (forall i, Attendance.id (create i) = i
             /\ attendance_key (create i) = (employeeId, date)) ->
  attendance_ok st ->
  attendance_ok (snd (attendance_upsert st employeeId date update create)).
Proof.
  intros Hu Hc [Hk [Hi Hb]]. unfold attendance_upsert, attendance_ok.
  destruct (attendance_findUnique st employeeId date) as [a|] eqn:E;
    cbn [snd attendance nextAttendanceId with_attendance].
  - set (g := fun x => if same_day employeeId date x then update x else x).
    assert (Hg : forall x, Attendance.id (g x) = Attendance.id x
                           /\ attendance_key (g x) = attendance_key x).
    { intros x. unfold g. destruct (same_day employeeId date x); [apply Hu|now split]. }
    rewrite !map_map_same by apply Hg. split; [exact Hk|]. split; [exact Hi|].
    intros x Hx. apply in_map_iff in Hx. destruct Hx as [y [<- Hy]].
    rewrite (proj1 (Hg y)). now apply Hb.
  - destruct (Hc (nextAttendanceId st)) as [Hci Hck].
    rewrite !map_app. cbn [map]. rewrite Hci, Hck. split; [|split].
    + apply NoDup_snoc; [exact Hk|]. intros Hin. apply in_map_iff in Hin.
      destruct Hin as [y [Hy Hin]].
      pose proof (find_none _ _ E y Hin) as Hf. unfold same_day in Hf.
      unfold attendance_key in Hy. injection Hy as H1 H2.
      rewrite H1, H2, !Z.eqb_refl in Hf. discriminate.
    + apply NoDup_snoc; [exact Hi|]. intros Hin. apply in_map_iff in Hin.
      destruct Hin as [y [Hy Hin]]. specialize (Hb y Hin). lia.
    + intros x Hx. apply in_app_or in Hx. destruct Hx as [Hx|[<-|[]]].
      * specialize (Hb x Hx). lia.
      * rewrite Hci. lia.
Qed.

Lemma setHours_midnight tz d t :
  JSDate.setHours tz d 0 0 0 0 = Some t -> local_midnight tz t.
Proof.
  unfold JSDate.setHours, JSDate.TimeClip, JSDate.UTC, JSDate.MakeDate, local_midnight.
  destruct d as [tv|]; [|discriminate].
  destruct (Z.abs _ <=? _); [|discriminate]. intros H. injection H as <-.
  change (JSDate.MakeTime 0 0 0 0) with 0.
  replace (_ - tz + tz) with (JSDate.Day (JSDate.LocalTime tz tv) * JSDate.msPerDay) by lia.
  apply Z_mod_mult.
Qed.

(** The attendance table stays in order under every attendance route: one
    row per employee and day, distinct ids below the counter, and every date
    a midnight on the server's clock. *)
Theorem attendance_routes_keep_order tz st :
  attendance_ok st ->
  (forall a, In a (attendance st) -> local_midnight tz (Attendance.date a)) ->
  forall st',
    (exists uid now t1 t2, st' = snd (checkin tz st uid now t1 t2))
    \/ (exists uid now t1, st' = snd (checkout tz st uid now t1))
    \/ (exists b, st' = snd (hrUpsert tz st b)) ->
    attendance_ok st'
    /\ forall a, In a (attendance st') -> local_midnight tz (Attendance.date a).
Proof.
  intros Hok Hmid st' [[uid [now [t1 [t2 ->]]]] | [[uid [now [t1 ->]]] | [b ->]]].
  - unfold checkin.
    destruct (user_with_employee st uid) as [[e|]|]; cbn [snd]; try (now split).
    destruct (JSDate.setHours tz (Some now) 0 0 0 0) as [today|] eqn:Et;
      cbn [snd]; [|now split].
    pose proof (setHours_midnight _ _ _ Et) as Hm.
    unfold recordCheckIn.
    assert (Hgoal :
      let r := attendance_upsert st (Employee.id e) today (checkin_update t1)
                 (checkin_create (Employee.id e) today t2) in
      attendance_ok (snd r)
      /\ forall a, In a (attendance (snd r)) -> local_midnight tz (Attendance.date a)).
    { split.
      - apply attendance_upsert_ok; [| |exact Hok]; intros; split; reflexivity.
      - unfold attendance_upsert.
        destruct (attendance_findUnique st (Employee.id e) today);
          cbn [snd attendance with_attendance]; intros a Ha.
        + apply in_map_iff in Ha. destruct Ha as [x [<- Hx]].
          destruct (same_day _ _ x); [|now apply Hmid]. cbn. now apply Hmid.
        + apply in_app_or in Ha. destruct Ha as [Ha|[<-|[]]]; [now apply Hmid|exact Hm]. }
    cbv zeta in Hgoal.
    destruct (attendance_findUnique st (Employee.id e) today) as [[i e0 d [ci|] co h s n]|];
      try (cbn [snd]; now split);
      destruct (attendance_upsert st _ _ _ _); exact Hgoal.
  - unfold checkout.
    destruct (user_with_employee st uid) as [[e|]|]; cbn [snd]; try (now split).
    destruct (JSDate.setHours tz (Some now) 0 0 0 0) as [today|]; cbn [snd]; [|now split].
    unfold recordCheckOut.
    destruct (attendance_findUnique st (Employee.id e) today) as [a|]; [|now split].
    destruct (Attendance.checkIn a) as [ci|]; [|now split].
    destruct (Attendance.checkOut a); [now split|].
    cbn [attendance_update snd].
    set (g := fun x => if Attendance.id x =? Attendance.id a then _ else x).
    assert (Hg : forall x, Attendance.id (g x) = Attendance.id x
                           /\ attendance_key (g x) = attendance_key x).
    { intros x. unfold g. destruct (Attendance.id x =? Attendance.id a); now split. }
    destruct Hok as [Hk [Hi Hb]]. unfold attendance_ok.
    cbn [attendance nextAttendanceId with_attendance].
    rewrite !map_map_same by apply Hg. repeat split; try assumption.
    + intros x Hx. apply in_map_iff in Hx. destruct Hx as [y [<- Hy]].
      rewrite (proj1 (Hg y)). now apply Hb.
    + intros x Hx. apply in_map_iff in Hx. destruct Hx as [y [<- Hy]].
      replace (Attendance.date (g y)) with (Attendance.date y); [now apply Hmid|].
      unfold g. now destruct (Attendance.id y =? Attendance.id a).
  - unfold hrUpsert.
    destruct (JSDate.setHours tz (JSDate.fromValue (body_date b)) 0 0 0 0)
      as [attendanceDate|] eqn:Et; cbn [snd]; [|now split].
    pose proof (setHours_midnight _ _ _ Et) as Hm.
    destruct (prisma_date (hr_date_field (body_checkIn b))) as [ci|]; [|now split].
    destruct (prisma_date (hr_date_field (body_checkOut b))) as [co|]; [|now split].
    set (h := hr_hoursWorked_field _).
    assert (Hgoal :
      let r := attendance_upsert st (body_employeeId b) attendanceDate
                 (hr_update ci co h (body_status b) (body_notes b))
                 (hr_create (body_employeeId b) attendanceDate ci co h (body_status b)
                    (body_notes b)) in
      attendance_ok (snd r)
      /\ forall a, In a (attendance (snd r)) -> local_midnight tz (Attendance.date a)).
    { split.
      - apply attendance_upsert_ok; [| |exact Hok]; intros; split; reflexivity.
      - unfold attendance_upsert.
        destruct (attendance_findUnique st (body_employeeId b) attendanceDate);
          cbn [snd attendance with_attendance]; intros a Ha.
        + apply in_map_iff in Ha. destruct Ha as [x [<- Hx]].
          destruct (same_day _ _ x); [|now apply Hmid]. cbn. now apply Hmid.
        + apply in_app_or in Ha. destruct Ha as [Ha|[<-|[]]]; [now apply Hmid|exact Hm]. }
    cbv zeta in Hgoal. unfold attendance_upsert_fk.
    destruct (attendance_findUnique st (body_employeeId b) attendanceDate);
      [|destruct (employee_by_id st (body_employeeId b)); [|cbn [snd]; now split]];
      destruct (attendance_upsert st _ _ _ _); exact Hgoal.
Qed.

Lemma attendance_routes_keep_order_witness :
  attendance_ok (snd (checkin Seed.kigali Cases.db_with_note 2 Seed.mar4_0800
                        Seed.mar4_0800 Seed.mar4_0800))
  /\ List.length (attendance (snd (checkin Seed.kigali Cases.db_with_note 2 Seed.mar4_0800
                                     Seed.mar4_0800 Seed.mar4_0800))) = 2%nat.
Proof.
  split; [|reflexivity].
  apply (attendance_routes_keep_order Seed.kigali Cases.db_with_note).
  - split; [|split].
    + repeat constructor. intros [].
    + repeat constructor. intros [].
    + intros a [<-|[]]. reflexivity.
  - intros a [<-|[]]. reflexivity.
  - left. exists 2, Seed.mar4_0800, Seed.mar4_0800, Seed.mar4_0800. reflexivity.
Defined.

(** The payroll table stays in order under every payroll route that writes:
    one row per employee, month and year, distinct ids below the counter. *)
Theorem payroll_routes_keep_order tz st :
  payroll_ok st ->
  (forall employeeId month year,
     payroll_ok (snd (generatePayroll tz st employeeId month year)))
  /\ (forall payrollId now, payroll_ok (snd (markPaid st payrollId now)))
  /\ (forall payrollId, payroll_ok (snd (deletePayroll st payrollId))).
Proof.
  intros [Hp [Hi Hb]]. split; [|split].
  - intros employeeId month year. unfold generatePayroll.
    destruct (negb (valid_period month year)); [now split|].
    unfold payroll_findFirst.
    destruct (find (same_period employeeId month year) (payroll st)) eqn:E; [now split|].
    destruct (employee_by_id st employeeId) as [e|]; [|now split].
    destruct (startDate tz month year) as [gte|]; [|now split].
    destruct (endDate tz month year) as [lte|]; [|now split].
    unfold payroll_create, payroll_ok.
    cbn [snd payroll nextPayrollId with_payroll payroll_row].
    rewrite !map_app. cbn [map payroll_period Payroll.id Payroll.employeeId
                           Payroll.month Payroll.year].
    split; [|split].
    + apply NoDup_snoc; [exact Hp|]. intros Hin. apply in_map_iff in Hin.
      destruct Hin as [q [Hq Hin]]. pose proof (find_none _ _ E q Hin) as Hf.
      unfold payroll_period in Hq. injection Hq as H1 H2 H3.
      assert (same_period employeeId month year q = true)
        by (apply same_period_true; auto).
      congruence.
    + apply NoDup_snoc; [exact Hi|]. intros Hin. apply in_map_iff in Hin.
      destruct Hin as [q [Hq Hin]]. specialize (Hb q Hin). cbn in Hq. lia.
    + intros q Hq. apply in_app_or in Hq. destruct Hq as [Hq|[<-|[]]].
      * specialize (Hb q Hq). lia.
      * cbn. lia.
  - intros payrollId now. unfold markPaid.
    destruct (find _ (payroll st)); [|now split].
    unfold payroll_ok. cbn [snd payroll nextPayrollId with_payroll].
    set (g := fun x => if Payroll.id x =? payrollId then paid_update now x else x).
    assert (Hg : forall x, Payroll.id (g x) = Payroll.id x
                           /\ payroll_period (g x) = payroll_period x).
    { intros x. unfold g. destruct (Payroll.id x =? payrollId); now split. }
    rewrite !map_map_same by apply Hg. repeat split; try assumption.
    intros q Hq. apply in_map_iff in Hq. destruct Hq as [y [<- Hy]].
    rewrite (proj1 (Hg y)). now apply Hb.
  - intros payrollId. unfold deletePayroll.
    destruct (payroll_by_id st payrollId); [|now split].
    unfold payroll_ok. cbn [snd payroll nextPayrollId with_payroll].
    split; [now apply NoDup_map_filter|]. split; [now apply NoDup_map_filter|].
    intros q Hq. apply filter_In in Hq. now apply Hb.
Qed.

Lemma db_payroll_ok : payroll_ok Reading.db_payroll.
Proof.
  split; [|split].
  - repeat constructor; cbn; intuition discriminate.
  - repeat constructor; cbn; intuition discriminate.
  - intros p Hp. cbn in Hp. intuition (subst; reflexivity).
Qed.

Lemma payroll_routes_keep_order_witness :
  payroll_ok (snd (generatePayroll Seed.kigali Reading.db_payroll 2 3 2024))
  /\ List.length (payroll (snd (generatePayroll Seed.kigali Reading.db_payroll 2 3 2024)))
     = 5%nat.
Proof.
  split; [|reflexivity].
  apply (proj1 (payroll_routes_keep_order Seed.kigali Reading.db_payroll db_payroll_ok)).
Defined.

(** *** A payroll row from creation to deletion *)

(** A generated row starts as pending and unpaid under the next id of the
    counter; GET /:id then shows it, marking it paid changes its status and
    paid date and nothing else about it, and GET /:id shows the paid row. *)
Theorem generated_row_lifecycle tz st employeeId month year e uid now :
  1 <= month <= 12 -> 2000 <= year <= 275759 -> Z.abs tz <= JSDate.msPerDay ->
  ~ has_payroll st employeeId month year ->
  employee_by_id st employeeId = Some e ->
  payroll_ok st ->
  exists p st1 st2,
    generatePayroll tz st employeeId month year = (Sent 201 p, st1)
    /\ Payroll.id p = nextPayrollId st
    /\ Payroll.status p = Payroll.pending
    /\ Payroll.paidDate p = None
    /\ getPayrollById st1 uid role_hr_manager (Payroll.id p) = Ok p
    /\ markPaid st1 (Payroll.id p) now = (Sent 200 (paid_update now p), st2)
    /\ getPayrollById st2 uid role_hr_manager (Payroll.id p) = Ok (paid_update now p)
    /\ same_but_paid p (paid_update now p).
Proof.
  intros Hm Hy Htz Hno He [_ [_ Hb]].
  pose proof (generatePayroll_success tz st employeeId month year e Hm Hy Htz Hno He) as Hg.
  cbv zeta in Hg. rewrite Hg.
  set (p := payroll_row e employeeId month year _ (nextPayrollId st)).
  assert (Hfind : find (fun q => Payroll.id q =? Payroll.id p) (payroll st ++ [p]) = Some p).
  { rewrite find_app_none.
    - now rewrite Z.eqb_refl.
    - apply find_none_iff. intros q Hq. apply Z.eqb_neq. specialize (Hb q Hq).
      unfold p. cbn. lia. }
  eexists. eexists. eexists. split; [reflexivity|].
  repeat (split; [reflexivity|]).
  split; [|split; [|split]].
  - unfold getPayrollById, payroll_by_id. cbn [payroll with_payroll]. now rewrite Hfind.
  - unfold markPaid. cbn [payroll with_payroll]. rewrite Hfind. reflexivity.
  - unfold getPayrollById, payroll_by_id. cbn [payroll with_payroll].
    rewrite find_map_stable.
    + rewrite Hfind. cbn [option_map]. now rewrite Z.eqb_refl.
    + intros x. destruct (Payroll.id x =? Payroll.id p) eqn:E; cbn; exact E.
  - repeat split.
Qed.

Lemma generated_row_lifecycle_witness :
  exists p st1 st2,
    generatePayroll Seed.kigali Reading.db_payroll 2 3 2024 = (Sent 201 p, st1)
    /\ Payroll.id p = 5
    /\ markPaid st1 5 Seed.mar4_0800 = (Sent 200 (paid_update Seed.mar4_0800 p), st2)
    /\ getPayrollById st2 1 role_hr_manager 5 = Ok (paid_update Seed.mar4_0800 p).
Proof.
  destruct (generated_row_lifecycle Seed.kigali Reading.db_payroll 2 3 2024 Seed.jane
              1 Seed.mar4_0800)
    as [p [st1 [st2 [H1 [H2 [_ [_ [_ [H3 [H4 _]]]]]]]]]].
  - lia.
  - lia.
  - vm_compute. discriminate.
  - intros [q [Hq [H5 [H6 H7]]]]. cbn in Hq.
    destruct Hq as [<-|[<-|[<-|[<-|[]]]]]; discriminate.
  - reflexivity.
  - exact db_payroll_ok.
  - rewrite H2 in H3, H4. change (nextPayrollId Reading.db_payroll) with 5 in *.
    exists p, st1, st2. repeat split; assumption.
Defined.

(** Deleting the row of a period makes room for it again: the next request
    for that employee, month and year succeeds, and the new row gets a fresh
    id, not the deleted one. *)
Theorem delete_then_generate tz st p e :
  payroll_ok st -> In p (payroll st) ->
  1 <= Payroll.month p <= 12 -> 2000 <= Payroll.year p <= 275759 ->
  Z.abs tz <= JSDate.msPerDay ->
  employee_by_id st (Payroll.employeeId p) = Some e ->
  exists st1 p' st2,
    deletePayroll st (Payroll.id p)
      = (Ok "Payroll record deleted successfully"%string, st1)
    /\ generatePayroll tz st1 (Payroll.employeeId p) (Payroll.month p) (Payroll.year p)
       = (Sent 201 p', st2)
    /\ Payroll.id p' = nextPayrollId st
    /\ Payroll.id p' <> Payroll.id p.
Proof.
  intros [Hper [Hid Hb]] Hin Hm Hy Htz He. unfold deletePayroll.
  destruct (find_some_of_in (fun q => Payroll.id q =? Payroll.id p) _ p Hin
              (Z.eqb_refl _)) as [p0 E].
  unfold payroll_by_id. rewrite E.
  set (st1 := with_payroll st _ (nextPayrollId st)).
  assert (Hno : ~ has_payroll st1 (Payroll.employeeId p) (Payroll.month p) (Payroll.year p)).
  { intros [q [Hq [H1 [H2 H3]]]]. unfold st1 in Hq. cbn [payroll with_payroll] in Hq.
    apply filter_In in Hq. destruct Hq as [Hq Hne].
    apply negb_true_iff, Z.eqb_neq in Hne. apply Hne. f_equal.
    apply (NoDup_map_eq payroll_period (payroll st)); try assumption.
    unfold payroll_period. now rewrite H1, H2, H3. }
  pose proof (generatePayroll_success tz st1 _ _ _ e Hm Hy Htz Hno He) as Hg.
  cbv zeta in Hg.
  eexists. eexists. eexists. split; [reflexivity|]. split; [exact Hg|].
  cbn [payroll_row Payroll.id]. split; [reflexivity|].
  unfold st1. cbn [nextPayrollId with_payroll]. specialize (Hb p Hin). lia.
Qed.

Lemma delete_then_generate_witness :
  exists st1 p' st2,
    deletePayroll Reading.db_payroll 3
      = (Ok "Payroll record deleted successfully"%string, st1)
    /\ generatePayroll Seed.kigali st1 1 2 2024 = (Sent 201 p', st2)
    /\ Payroll.id p' = 5.
Proof.
  destruct (delete_then_generate Seed.kigali Reading.db_payroll
              (Reading.pay 3 1 2 2024 Payroll.pending) Seed.john)
    as [st1 [p' [st2 [H1 [H2 [H3 _]]]]]].
  - exact db_payroll_ok.
  - cbn. tauto.
  - cbn. lia.
  - cbn. lia.
  - vm_compute. discriminate.
  - reflexivity.
  - exists st1, p', st2. repeat split; assumption.
Defined.

(** *** What marking paid leaves alone *)

(** Marking a payroll paid changes the status and the paid date of the rows
    of that id and nothing else: their period, amounts and working days stay,
    rows of other ids stay as they are, no row is added or removed, and the
    attendance and employee tables are untouched. *)
Theorem markPaid_changes_only_payment st payrollId now :
  let st' := snd (markPaid st payrollId now) in
  attendance st' = attendance st
  /\ employees st' = employees st
  /\ map Payroll.id (payroll st') = map Payroll.id (payroll st)
  /\ (forall q, In q (payroll st) -> Payroll.id q <> payrollId -> In q (payroll st'))
  /\ (forall q', In q' (payroll st') ->
        In q' (payroll st)
        \/ exists q, In q (payroll st) /\ Payroll.id q = payrollId
                     /\ same_but_paid q q' /\ Payroll.status q' = Payroll.paid).
Proof.
  unfold markPaid. destruct (find _ (payroll st)) as [p|]; cbn [snd].
  - cbn [attendance employees payroll with_payroll].
    set (g := fun x => if Payroll.id x =? payrollId then paid_update now x else x).
    split; [reflexivity|]. split; [reflexivity|]. split; [|split].
    + apply map_map_same. intros x. unfold g.
      now destruct (Payroll.id x =? payrollId).
    + intros q Hq Hne. apply in_map_iff. exists q. split; [|exact Hq].
      unfold g. apply Z.eqb_neq in Hne. now rewrite Hne.
    + intros q' Hq'. apply in_map_iff in Hq'. destruct Hq' as [q [<- Hq]].
      unfold g. destruct (Payroll.id q =? payrollId) eqn:E.
      * right. exists q. apply Z.eqb_eq in E. repeat split; assumption.
      * now left.
  - repeat split; auto.
Qed.

(** No writing payroll route takes a paid row back to pending: after
    generating a payroll or marking one paid, a row that was paid is still on
    file, paid, with the same period, amounts and working days. *)
Theorem paid_stays_paid tz st q :
  In q (payroll st) -> Payroll.status q = Payroll.paid ->
  (forall employeeId month year,
     exists q', In q' (payroll (snd (generatePayroll tz st employeeId month year)))
                /\ same_but_paid q q' /\ Payroll.status q' = Payroll.paid)
  /\ (forall payrollId now,
        exists q', In q' (payroll (snd (markPaid st payrollId now)))
                   /\ same_but_paid q q' /\ Payroll.status q' = Payroll.paid).
Proof.
  intros Hq Hs. split.
  - intros employeeId month year.
    assert (Hin : In q (payroll (snd (generatePayroll tz st employeeId month year)))).
    { unfold generatePayroll.
      destruct (negb (valid_period month year)); [exact Hq|].
      destruct (payroll_findFirst st employeeId month year) as [[? ?]|]; [exact Hq|].
      destruct (employee_by_id st employeeId); [|exact Hq].
      destruct (startDate tz month year); [|exact Hq].
      destruct (endDate tz month year); [|exact Hq].
      cbn [payroll_create snd payroll with_payroll]. apply in_or_app. now left. }
    exists q. repeat split; assumption.
  - intros payrollId now. unfold markPaid.
    destruct (find _ (payroll st)); cbn [snd payroll with_payroll].
    + exists (if Payroll.id q =? payrollId then paid_update now q else q). split.
      * apply in_map_iff. exists q. now split.
      * destruct (Payroll.id q =? payrollId); repeat split; assumption.
    + exists q. repeat split; assumption.
Qed.

Lemma paid_stays_paid_witness :
  exists q', In q' (payroll (snd (markPaid Reading.db_payroll 4 Seed.mar4_1630)))
             /\ Payroll.id q' = 4 /\ Payroll.status q' = Payroll.paid.
Proof.
  destruct (proj2 (paid_stays_paid Seed.kigali Reading.db_payroll
                     (Reading.pay 4 1 1 2024 Payroll.paid)
                     ltac:(cbn; tauto) eq_refl) 4 Seed.mar4_1630)
    as [q' [H1 [H2 H3]]].
  exists q'. split; [exact H1|]. split; [|exact H3]. exact (proj1 H2).
Defined.

(** *** The refusals of payroll generation *)

(** A month outside 1..12 or a year before 2000 is refused first, whatever is
    on file; an unknown employee is refused with 404 when the period is free;
    and since the period is looked up before the employee, a row left on file
    for an employee who is gone is reported as a duplicate under the name
    "Employee".  None of the refusals writes. *)
Theorem generatePayroll_refusals tz st employeeId month year :
  (valid_period month year = false ->
     generatePayroll tz st employeeId month year = (Failed ValidationError, st))
  /\ (valid_period month year = true ->
      ~ has_payroll st employeeId month year ->
      employee_by_id st employeeId = None ->
      generatePayroll tz st employeeId month year = (Failed EmployeeNotFound, st))
  /\ (valid_period month year = true ->
      has_payroll st employeeId month year ->
      employee_by_id st employeeId = None ->
      generatePayroll tz st employeeId month year
      = (Failed (DuplicatePayroll (duplicate_message "Employee" month year)), st)).
Proof.
  split; [|split].
  - intros Hv. unfold generatePayroll. now rewrite Hv.
  - intros Hv Hno He. unfold generatePayroll.
    now rewrite Hv, (findFirst_none _ _ _ _ Hno), He.
  - intros Hv Hp He. rewrite (generatePayroll_on_existing tz st _ _ _ Hv Hp), He.
    reflexivity.
Qed.

Lemma generatePayroll_refusals_witness :
  generatePayroll Seed.kigali Seed.db_march 1 13 2024
    = (Failed ValidationError, Seed.db_march)
  /\ generatePayroll Seed.kigali Seed.db_march 1 3 1999
     = (Failed ValidationError, Seed.db_march)
  /\ generatePayroll Seed.kigali Seed.db_march 7 3 2024
     = (Failed EmployeeNotFound, Seed.db_march).
Proof.
  split; [|split].
  - apply (proj1 (generatePayroll_refusals Seed.kigali Seed.db_march 1 13 2024)).
    reflexivity.
  - apply (proj1 (generatePayroll_refusals Seed.kigali Seed.db_march 1 3 1999)).
    reflexivity.
  - apply (proj1 (proj2 (generatePayroll_refusals Seed.kigali Seed.db_march 7 3 2024))).
    + reflexivity.
    + intros [q [[<-|[]] [H _]]]. discriminate.
    + reflexivity.
Defined.

Lemma markPaid_changes_only_payment_witness :
  map Payroll.id (payroll (snd (markPaid Reading.db_payroll 2 Seed.mar4_0800)))
    = [1; 2; 3; 4]
  /\ In (Reading.pay 3 1 2 2024 Payroll.pending)
        (payroll (snd (markPaid Reading.db_payroll 2 Seed.mar4_0800))).
Proof.
  destruct (markPaid_changes_only_payment Reading.db_payroll 2 Seed.mar4_0800)
    as [_ [_ [H1 [H2 _]]]].
  split; [exact H1|]. apply H2; [cbn; tauto|discriminate].
Defined.

(** *** Month after month *)

Lemma days_of_months_step y m :
  1 <= m <= 12 ->
  Calendar.days_of_months y (Z.to_nat m)
  = Calendar.days_of_months y (Z.to_nat (m - 1)) + Calendar.days_in_month y m.
Proof.
  intros Hm. replace (Z.to_nat m) with (S (Z.to_nat (m - 1))) by lia.
  cbn [Calendar.days_of_months]. do 2 f_equal. lia.
Qed.

(** The day after the last day of a month is the first day of the next
    month, in the next year after December. *)
Lemma day_number_next y m :
  1970 <= y -> 1 <= m <= 12 ->
  Calendar.day_number y m (Calendar.days_in_month y m) + 1
  = if m =? 12 then Calendar.day_number (y + 1) 1 1 else Calendar.day_number y (m + 1) 1.
Proof.
  intros Hy Hm. unfold Calendar.day_number.
  destruct (m =? 12) eqn:E.
  - apply Z.eqb_eq in E. subst m.
    replace (Z.to_nat (y + 1 - 1970)) with (S (Z.to_nat (y - 1970))) by lia.
    cbn [Calendar.days_of_years]. rewrite Z2Nat.id by lia.
    replace (1970 + (y - 1970)) with y by lia.
    rewrite <- (days_of_months_year y).
    change (Z.to_nat (1 - 1)) with 0%nat. change (Z.to_nat (12 - 1)) with 11%nat.
    change (Calendar.days_of_months y 12)
      with (Calendar.days_of_months y 11 + Calendar.days_in_month y 12).
    cbn [Calendar.days_of_months]. lia.
  - apply Z.eqb_neq in E.
    replace (m + 1 - 1) with m by lia. rewrite (days_of_months_step y m Hm). lia.
Qed.

(** The windows of consecutive months meet without gap or overlap: each
    window is not empty, and the window of the next month (January of the
    next year after December) starts one millisecond after this one ends. *)
Theorem month_windows_adjacent tz month year :
  1 <= month <= 12 -> 2000 <= year <= 275758 -> Z.abs tz <= JSDate.msPerDay ->
  exists first last,
    startDate tz month year = Some first
    /\ endDate tz month year = Some last
    /\ first < last
    /\ (if month =? 12 then startDate tz 1 (year + 1) else startDate tz (month + 1) year)
       = Some (last + 1).
Proof.
  intros Hm Hy Htz.
  destruct (month_window tz month year Hm ltac:(lia) Htz) as [Hs He].
  exists (Calendar.month_start tz year month), (Calendar.month_end tz year month).
  split; [exact Hs|]. split; [exact He|].
  pose proof (day_number_next year month ltac:(lia) Hm) as Hn.
  assert (Hd : 28 <= Calendar.days_in_month year month).
  { unfold Calendar.days_in_month.
    assert (H : month = 1 \/ month = 2 \/ month = 3 \/ month = 4 \/ month = 5 \/ month = 6
                \/ month = 7 \/ month = 8 \/ month = 9 \/ month = 10 \/ month = 11
                \/ month = 12) by lia.
    repeat (destruct H as [->|H]); try subst month;
      try destruct (Calendar.is_leap_year year); lia. }
  split.
  - unfold Calendar.month_start, Calendar.month_end, Calendar.local_instant.
    unfold Calendar.day_number. lia.
  - destruct (month =? 12) eqn:E.
    + destruct (month_window tz 1 (year + 1) ltac:(lia) ltac:(lia) Htz) as [-> _].
      f_equal. unfold Calendar.month_start, Calendar.month_end, Calendar.local_instant.
      rewrite <- Hn. lia.
    + apply Z.eqb_neq in E.
      destruct (month_window tz (month + 1) year ltac:(lia) ltac:(lia) Htz) as [-> _].
      f_equal. unfold Calendar.month_start, Calendar.month_end, Calendar.local_instant.
      rewrite <- Hn. lia.
Qed.

Lemma month_windows_adjacent_witness :
  exists first last,
    startDate Seed.kigali 12 2024 = Some first
    /\ endDate Seed.kigali 12 2024 = Some last
    /\ startDate Seed.kigali 1 2025 = Some (last + 1).
Proof.
  destruct (month_windows_adjacent Seed.kigali 12 2024) as [f [l [H1 [H2 [_ H3]]]]].
  - lia.
  - lia.
  - vm_compute. discriminate.
  - exists f, l. repeat split; assumption.
Defined.

(** *** Working days and the length of the month *)

Lemma NoDup_map_on {R K : Type} (slot : R -> K) (rows : list R) :
  (forall r r', In r rows -> In r' rows -> slot r = slot r' -> r = r') ->
  NoDup rows -> NoDup (map slot rows).
Proof.
  intros Hinj Hd. induction Hd as [|x l Hx Hd IH]; cbn; constructor.
  - intros Hin. apply in_map_iff in Hin. destruct Hin as [y [Hy Hin]].
    apply Hx. rewrite (Hinj x y); auto; [now left|now right].
  - apply IH. intros a b Ha Hb. apply Hinj; now right.
Qed.

(** With one row per employee and day and every date a local midnight, a
    generated payroll counts at most as many working days as the month has
    days. *)
Theorem workingDays_within_month tz st employeeId month year e :
  1 <= month <= 12 -> 2000 <= year <= 275759 -> Z.abs tz <= JSDate.msPerDay ->
  ~ has_payroll st employeeId month year ->
  employee_by_id st employeeId = Some e ->
  attendance_ok st ->
  (forall a, In a (attendance st) -> local_midnight tz (Attendance.date a)) ->
  exists p st',
    generatePayroll tz st employeeId month year = (Sent 201 p, st')
    /\ 0 <= Payroll.workingDays p <= Calendar.days_in_month year month
    /\ Payroll.workingDays p <= 31.
Proof.
  intros Hm Hy Htz Hno He [Hk [Hi _]] Hmid.
  pose proof (generatePayroll_success tz st employeeId month year e Hm Hy Htz Hno He) as Hg.
  cbv zeta in Hg. rewrite Hg. eexists. eexists. split; [reflexivity|].
  cbn [payroll_row Payroll.workingDays].
  set (first := Calendar.month_start tz year month).
  set (last := Calendar.month_end tz year month).
  set (rows := attendance_findMany st employeeId first last).
  set (dim := Calendar.days_in_month year month).
  assert (Hdim : 28 <= dim <= 31).
  { unfold dim, Calendar.days_in_month.
    assert (H : month = 1 \/ month = 2 \/ month = 3 \/ month = 4 \/ month = 5 \/ month = 6
                \/ month = 7 \/ month = 8 \/ month = 9 \/ month = 10 \/ month = 11
                \/ month = 12) by lia.
    repeat (destruct H as [->|H]); try subst month;
      try destruct (Calendar.is_leap_year year); lia. }
  assert (Hlast : last = first + dim * JSDate.msPerDay - 1).
  { unfold last, first, dim, Calendar.month_end, Calendar.month_start,
      Calendar.local_instant, Calendar.day_number, JSDate.msPerDay. lia. }
  assert (Hfirst : (first + tz) mod JSDate.msPerDay = 0).
  { unfold first, Calendar.month_start, Calendar.local_instant, JSDate.msPerDay.
    replace (_ - tz + tz) with (Calendar.day_number year month 1 * 86400000) by lia.
    apply Z_mod_mult. }
  assert (Hrow : forall a, In a rows ->
            In a (attendance st) /\ Attendance.employeeId a = employeeId
            /\ exists k, 0 <= k < dim /\ Attendance.date a = first + k * JSDate.msPerDay).
  { intros a Ha. unfold rows, attendance_findMany in Ha. apply filter_In in Ha.
    destruct Ha as [Ha Hw]. unfold present_in_window in Hw.
    rewrite !andb_true_iff, Z.eqb_eq, !Z.leb_le in Hw.
    destruct Hw as [[[Hemp Hge] Hle] _]. split; [exact Ha|]. split; [exact Hemp|].
    specialize (Hmid a Ha). unfold local_midnight in Hmid.
    unfold JSDate.msPerDay in *.
    exists ((Attendance.date a - first) / 86400000).
    split; Z.div_mod_to_equations; lia. }
  set (slot := fun a => Z.to_nat ((Attendance.date a - first) / JSDate.msPerDay)).
  assert (Hslot : forall a, In a rows ->
            exists k, 0 <= k < dim /\ Attendance.date a = first + k * JSDate.msPerDay
                      /\ slot a = Z.to_nat k).
  { intros a Ha. destruct (Hrow a Ha) as [_ [_ [k [Hk' Hd]]]].
    exists k. split; [exact Hk'|]. split; [exact Hd|]. unfold slot. f_equal.
    rewrite Hd. replace (first + k * JSDate.msPerDay - first) with (k * JSDate.msPerDay)
      by lia.
    apply Z.div_mul. unfold JSDate.msPerDay. lia. }
  assert (Hnd : NoDup (map slot rows)).
  { apply NoDup_map_on.
    - intros x y Hx Hxy E.
      destruct (Hslot x Hx) as [k [Hk1 [Hk2 Hk3]]].
      destruct (Hslot y Hxy) as [k' [Hk1' [Hk2' Hk3']]].
      destruct (Hrow x Hx) as [Hx1 [Hx2 _]]. destruct (Hrow y Hxy) as [Hy1 [Hy2 _]].
      apply (NoDup_map_eq attendance_key (attendance st)); try assumption.
      unfold attendance_key. rewrite Hx2, Hy2, Hk2, Hk2'. do 3 f_equal. lia.
    - unfold rows, attendance_findMany. apply NoDup_filter.
      eapply NoDup_map_inv. exact Hi. }
  assert (Hincl : incl (map slot rows) (seq 0 (Z.to_nat dim))).
  { intros n Hn. apply in_map_iff in Hn. destruct Hn as [a [<- Ha]].
    destruct (Hslot a Ha) as [k [Hk1 [_ ->]]]. apply in_seq. lia. }
  pose proof (NoDup_incl_length Hnd Hincl) as Hlen.
  rewrite length_map, length_seq in Hlen. fold rows. lia.
Qed.

Lemma db_march_attendance_ok : attendance_ok Cases.db_march_attendance.
Proof.
  split; [|split].
  - repeat constructor; cbn; intuition discriminate.
  - repeat constructor; cbn; intuition discriminate.
  - intros a Ha. cbn in Ha. intuition (subst; reflexivity).
Qed.

Lemma db_checked_in_ok : attendance_ok Durations.db_checked_in.
Proof.
  split; [|split].
  - repeat constructor. intros [].
  - repeat constructor. intros [].
  - intros a [<-|[]]. reflexivity.
Qed.

Lemma workingDays_within_month_witness :
  exists p st',
    generatePayroll Seed.kigali Durations.db_checked_in 1 3 2024 = (Sent 201 p, st')
    /\ Payroll.workingDays p = 1.
Proof.
  destruct (workingDays_within_month Seed.kigali Durations.db_checked_in 1 3 2024 Seed.john)
    as [p [st' [H _]]].
  - lia.
  - lia.
  - vm_compute. discriminate.
  - intros [q [[] _]].
  - reflexivity.
  - exact db_checked_in_ok.
  - intros a [<-|[]]. reflexivity.
  - exists p, st'. split; [exact H|]. injection H as <- _. reflexivity.
Defined.

(** *** The day a check-in is booked on *)

(** The day key the routes compute from a clock reading, [new Date()] with
    [setHours(0, 0, 0, 0)]: the start of the reading's local day. *)
Lemma day_key_value tz n t :
  JSDate.setHours tz (Some n) 0 0 0 0 = Some t ->
  t = JSDate.Day (JSDate.LocalTime tz n) * JSDate.msPerDay - tz.
Proof.
  unfold JSDate.setHours, JSDate.TimeClip, JSDate.UTC, JSDate.MakeDate.
  destruct (Z.abs _ <=? _); [|discriminate]. intros H. injection H as <-.
  change (JSDate.MakeTime 0 0 0 0) with 0. lia.
Qed.

(** After a check-in that went through, the day's row is the one returned
    and carries a check-in time; the user and employee tables are as before,
    and a day of that employee that had no row still has none. *)
Lemma checked_in_row st employeeId today t1 t2 a1 st1 :
  recordCheckIn st employeeId today t1 t2 = (Sent 201 a1, st1) ->
  attendance_findUnique st1 employeeId today = Some a1
  /\ Attendance.employeeId a1 = employeeId
  /\ Attendance.date a1 = today
  /\ (exists t, Attendance.checkIn a1 = Some t)
  /\ users st1 = users st
  /\ employees st1 = employees st
  /\ (forall day, day <> today ->
        attendance_findUnique st employeeId day = None ->
        attendance_findUnique st1 employeeId day = None).
Proof.
  unfold recordCheckIn, attendance_upsert.
  destruct (attendance_findUnique st employeeId today) as [a|] eqn:E.
  - destruct (find_some _ _ E) as [_ Hs]. apply same_day_true in Hs.
    destruct Hs as [He Hd].
    destruct a as [i e d [ci|] co h s n]; [discriminate|].
    cbn [Attendance.employeeId Attendance.date] in He, Hd.
    intros H. injection H as <- <-.
    split; [|split; [exact He|split; [exact Hd|split; [now exists t1|]]]].
    + apply (findUnique_after_update st employeeId today (checkin_update t1) _ _
               (fun x => conj eq_refl eq_refl) E).
    + split; [reflexivity|]. split; [reflexivity|].
      intros day _ Hnone. unfold attendance_findUnique in *.
      cbn [attendance with_attendance]. rewrite find_map_stable.
      * now rewrite Hnone.
      * intros x. now destruct (same_day employeeId today x).
  - intros H. injection H as <- <-.
    split; [now apply findUnique_after_create|].
    split; [reflexivity|]. split; [reflexivity|]. split; [now exists t2|].
    split; [reflexivity|]. split; [reflexivity|].
    intros day Hne Hnone. unfold attendance_findUnique in *.
    cbn [attendance with_attendance]. rewrite (find_app_none _ _ _ Hnone).
    unfold same_day, checkin_create. cbn [Attendance.employeeId Attendance.date].
    replace (today =? day) with false by (symmetry; apply Z.eqb_neq; lia).
    now rewrite andb_false_r.
Qed.

(** Check-ins are booked one row per local calendar day.  After a check-in
    that went through, another check-in of the same user whose clock reading
    falls on the same local day is refused, whatever the time of day; a
    check-in on another local day that has no row yet creates a second row,
    dated that day, next to the first. *)
Theorem checkin_one_row_per_local_day tz st uid e now1 t1 t2 a1 st1 now2 today2 :
  user_with_employee st uid = Some (Some e) ->
  checkin tz st uid now1 t1 t2 = (Sent 201 a1, st1) ->
  JSDate.setHours tz (Some now2) 0 0 0 0 = Some today2 ->
  (JSDate.Day (JSDate.LocalTime tz now2) = JSDate.Day (JSDate.LocalTime tz now1) ->
     forall t3 t4, checkin tz st1 uid now2 t3 t4 = (Failed AlreadyCheckedIn, st1))
  /\ (JSDate.Day (JSDate.LocalTime tz now2) <> JSDate.Day (JSDate.LocalTime tz now1) ->
      attendance_findUnique st (Employee.id e) today2 = None ->
      forall t3 t4, exists a2 st2,
        checkin tz st1 uid now2 t3 t4 = (Sent 201 a2, st2)
        /\ attendance st2 = attendance st1 ++ [a2]
        /\ Attendance.employeeId a2 = Employee.id e
        /\ Attendance.date a2 = today2
        /\ Attendance.date a2 <> Attendance.date a1
        /\ Attendance.checkIn a2 = Some t4).
Proof.
  intros Hu Hin H2. unfold checkin in Hin. rewrite Hu in Hin.
  destruct (JSDate.setHours tz (Some now1) 0 0 0 0) as [today1|] eqn:H1;
    [|discriminate].
  destruct (checked_in_row _ _ _ _ _ _ _ Hin)
    as [Hf1 [_ [Hd1 [[t Ht] [Hus [Hem Hother]]]]]].
  assert (Hu1 : user_with_employee st1 uid = Some (Some e)).
  { unfold user_with_employee in *. now rewrite Hus, Hem. }
  pose proof (day_key_value _ _ _ H1) as K1.
  pose proof (day_key_value _ _ _ H2) as K2.
  split.
  - intros Hday t3 t4. unfold checkin. rewrite Hu1, H2.
    replace today2 with today1 by (rewrite K1, K2, Hday; reflexivity).
    unfold recordCheckIn. rewrite Hf1.
    destruct a1 as [i e1 d1 ci co h s n]. cbn [Attendance.checkIn] in Ht.
    now rewrite Ht.
  - intros Hday Hnone t3 t4.
    assert (Hne : today2 <> today1).
    { rewrite K1, K2. unfold JSDate.msPerDay. lia. }
    unfold checkin. rewrite Hu1, H2. unfold recordCheckIn, attendance_upsert.
    rewrite (Hother today2 Hne Hnone).
    eexists. eexists. split; [reflexivity|].
    cbn [attendance with_attendance checkin_create Attendance.employeeId
         Attendance.date Attendance.checkIn].
    repeat (split; [reflexivity|]). split; [|reflexivity].
    now rewrite Hd1.
Qed.

(** John checks in on the morning of 4 March: a second try that afternoon
    is refused, the check-in of the next morning opens a second row. *)
Lemma checkin_one_row_per_local_day_witness :
  checkin Seed.kigali
    (snd (checkin Seed.kigali Seed.db 1 Seed.mar4_0800 Seed.mar4_0800 Seed.mar4_0800))
    1 Seed.mar4_1630 Seed.mar4_1630 Seed.mar4_1630
  = (Failed AlreadyCheckedIn,
     snd (checkin Seed.kigali Seed.db 1 Seed.mar4_0800 Seed.mar4_0800 Seed.mar4_0800))
  /\ exists a2 st2,
       checkin Seed.kigali
         (snd (checkin Seed.kigali Seed.db 1 Seed.mar4_0800 Seed.mar4_0800
                 Seed.mar4_0800))
         1 Entries.mar5_0800 Entries.mar5_0800 Entries.mar5_0800
       = (Sent 201 a2, st2)
       /\ Attendance.id a2 = 2
       /\ Attendance.date a2 = Seed.mar4 + JSDate.msPerDay.
Proof.
  split.
  - apply (proj1 (checkin_one_row_per_local_day Seed.kigali Seed.db 1 Seed.john
                    Seed.mar4_0800 Seed.mar4_0800 Seed.mar4_0800 _ _
                    Seed.mar4_1630 Seed.mar4 eq_refl eq_refl eq_refl)).
    reflexivity.
  - destruct (proj2 (checkin_one_row_per_local_day Seed.kigali Seed.db 1 Seed.john
                       Seed.mar4_0800 Seed.mar4_0800 Seed.mar4_0800 _ _
                       Entries.mar5_0800 (Seed.mar4 + JSDate.msPerDay)
                       eq_refl eq_refl eq_refl))
      with (t3 := Entries.mar5_0800) (t4 := Entries.mar5_0800)
      as [a2 [st2 [H [Hrows [_ [Hd _]]]]]].
    + vm_compute. discriminate.
    + reflexivity.
    + exists a2, st2. split; [exact H|]. split; [|exact Hd].
      vm_compute in H. injection H as <- _. reflexivity.
Defined.

(** *** A working day, from check-in to check-out *)

(** For a user with an employee record and no row for the day yet: the
    check-in creates the row, a check-out later that local day closes it with
    the hours between the two clock readings, and after that both a second
    check-out and a second check-in on that day are refused. *)
Theorem checkin_then_checkout tz st uid e today now1 t1 t2 now2 t3 :
  user_with_employee st uid = Some (Some e) ->
  JSDate.setHours tz (Some now1) 0 0 0 0 = Some today ->
  JSDate.setHours tz (Some now2) 0 0 0 0 = Some today ->
  attendance_findUnique st (Employee.id e) today = None ->
  exists a st1 a' st2,
    checkin tz st uid now1 t1 t2 = (Sent 201 a, st1)
    /\ Attendance.id a = nextAttendanceId st
    /\ Attendance.date a = today
    /\ Attendance.checkIn a = Some t2
    /\ Attendance.checkOut a = None
    /\ checkout tz st1 uid now2 t3 = (Sent 200 a', st2)
    /\ Attendance.id a' = Attendance.id a
    /\ Attendance.checkIn a' = Some t2
    /\ Attendance.checkOut a' = Some t3
    /\ Attendance.hoursWorked a'
       = Some (Number.toFixed2 (hours_between (Some t2) (Some t3)))
    /\ (forall t, checkout tz st2 uid now2 t = (Failed AlreadyCheckedOut, st2))
    /\ (forall t t', checkin tz st2 uid now2 t t' = (Failed AlreadyCheckedIn, st2))
    /\ (forall t t', checkin tz st1 uid now2 t t' = (Failed AlreadyCheckedIn, st1)).
Proof.
  intros Hu H1 H2 Hnone.
  set (a := checkin_create (Employee.id e) today t2 (nextAttendanceId st)).
  set (st1 := with_attendance st (attendance st ++ [a]) (nextAttendanceId st + 1)).
  assert (Hin : checkin tz st uid now1 t1 t2 = (Sent 201 a, st1)).
  { unfold checkin. rewrite Hu, H1. unfold recordCheckIn, attendance_upsert.
    rewrite Hnone. reflexivity. }
  assert (Hf1 : attendance_findUnique st1 (Employee.id e) today = Some a).
  { now apply findUnique_after_create. }
  assert (Hu1 : forall s rows next,
            user_with_employee (with_attendance s rows next) uid = user_with_employee s uid)
    by reflexivity.
  destruct (recordCheckOut_open st1 (Employee.id e) today t3 a t2 Hf1 eq_refl eq_refl)
    as [Hout Hf2].
  cbv zeta in Hout, Hf2.
  set (a' := checkout_update t3 (Number.toFixed2 (hours_between (Some t2) (Some t3))) a) in *.
  set (st2 := snd (attendance_update st1 a _)) in *.
  exists a, st1, a', st2.
  split; [exact Hin|]. repeat (split; [reflexivity|]).
  split; [|repeat (split; [reflexivity|]); split; [|split]].
  - unfold checkout. unfold st1 at 1. rewrite Hu1, Hu, H2. exact Hout.
  - intros t. unfold checkout, st2, attendance_update. cbn [snd].
    rewrite Hu1. unfold st1 at 1. rewrite Hu1, Hu, H2.
    unfold recordCheckOut. unfold st2, attendance_update in Hf2. cbn [snd] in Hf2.
    rewrite Hf2. reflexivity.
  - intros t t'. unfold checkin, st2, attendance_update. cbn [snd].
    rewrite Hu1. unfold st1 at 1. rewrite Hu1, Hu, H2.
    unfold recordCheckIn. unfold st2, attendance_update in Hf2. cbn [snd] in Hf2.
    rewrite Hf2. reflexivity.
  - intros t t'. unfold checkin. unfold st1 at 1. rewrite Hu1, Hu, H2.
    unfold recordCheckIn. rewrite Hf1. reflexivity.
Qed.

Lemma checkin_then_checkout_witness :
  exists a st1 a' st2,
    checkin Seed.kigali Seed.db 1 Seed.mar4_0800 Seed.mar4_0800 Seed.mar4_0800
      = (Sent 201 a, st1)
    /\ checkout Seed.kigali st1 1 Seed.mar4_1630 Seed.mar4_1630 = (Sent 200 a', st2)
    /\ Attendance.hoursWorked a' = Some (Number.Dec 850)
    /\ checkout Seed.kigali st2 1 Seed.mar4_1630 Seed.mar4_1630
       = (Failed AlreadyCheckedOut, st2).
Proof.
  destruct (checkin_then_checkout Seed.kigali Seed.db 1 Seed.john Seed.mar4
              Seed.mar4_0800 Seed.mar4_0800 Seed.mar4_0800 Seed.mar4_1630 Seed.mar4_1630)
    as [a [st1 [a' [st2 [H1 [_ [_ [_ [_ [H2 [_ [_ [_ [H3 [H4 _]]]]]]]]]]]]]]].
  - reflexivity.
  - reflexivity.
  - reflexivity.
  - reflexivity.
  - exists a, st1, a', st2. split; [exact H1|]. split; [exact H2|].
    split; [rewrite H3; reflexivity|apply H4].
Defined.

(** *** What check-in and check-out leave alone *)

(** A check-in touches the row of its employee and day and no other, and
    leaves the payroll and employee tables alone.  On a row that exists (an HR
    entry without check-in time) it sets the check-in time and the status and
    keeps the check-out time, the hours worked and the notes. *)
Theorem recordCheckIn_touches_one_row st employeeId today now_u now_c :
  let st' := snd (recordCheckIn st employeeId today now_u now_c) in
  payroll st' = payroll st
  /\ employees st' = employees st
  /\ (forall x, In x (attendance st) -> same_day employeeId today x = false ->
        In x (attendance st'))
  /\ (forall x', In x' (attendance st') -> same_day employeeId today x' = false ->
        In x' (attendance st))
  /\ (forall a, attendance_findUnique st employeeId today = Some a ->
        Attendance.checkIn a = None ->
        exists a', attendance_findUnique st' employeeId today = Some a'
                   /\ same_but_checkIn_status a a').
Proof.
  unfold recordCheckIn, attendance_upsert.
  destruct (attendance_findUnique st employeeId today) as [a|] eqn:E.
  - destruct a as [i e d [ci|] co h s n]; cbn [snd].
    + repeat split; auto. intros a Ha. injection Ha as <-. discriminate.
    + cbn [payroll employees attendance with_attendance].
      split; [reflexivity|]. split; [reflexivity|]. split; [|split].
      * intros x Hx Hs. apply in_map_iff. exists x. now rewrite Hs.
      * intros x' Hx' Hs. apply in_map_iff in Hx'. destruct Hx' as [x [<- Hx]].
        destruct (same_day employeeId today x) eqn:Ex; [|exact Hx].
        unfold same_day in *. cbn in Hs. congruence.
      * intros a Ha _. injection Ha as <-. eexists. split.
        -- apply (findUnique_after_update st employeeId today (checkin_update now_u) _ _
                    (fun x => conj eq_refl eq_refl) E).
        -- repeat split.
  - cbn [snd payroll employees attendance with_attendance].
    split; [reflexivity|]. split; [reflexivity|]. split; [|split].
    + intros x Hx _. apply in_or_app. now left.
    + intros x' Hx' Hs. apply in_app_or in Hx'. destruct Hx' as [Hx'|[<-|[]]]; [exact Hx'|].
      unfold same_day in Hs. cbn in Hs. rewrite !Z.eqb_refl in Hs. discriminate.
    + discriminate.
Qed.

Lemma recordCheckIn_touches_one_row_witness :
  exists a',
    attendance_findUnique
      (snd (recordCheckIn Cases.db_checkout_only 1 Seed.mar4 Seed.mar4_0800 Seed.mar4_0800))
      1 Seed.mar4 = Some a'
    /\ Attendance.checkOut a' = Some Seed.mar4_1630.
Proof.
  destruct (recordCheckIn_touches_one_row Cases.db_checkout_only 1 Seed.mar4
              Seed.mar4_0800 Seed.mar4_0800) as [_ [_ [_ [_ H]]]].
  destruct (H _ eq_refl eq_refl) as [a' [H1 [_ [_ [_ [H2 _]]]]]].
  exists a'. split; [exact H1|]. exact H2.
Defined.

(** A check-out sets the check-out time and the hours worked of the day's
    row and nothing else: check-in time, status (a late day stays late) and
    notes are kept, the other rows of a table with distinct ids stay as they
    are, and the payroll and employee tables are untouched. *)
Theorem recordCheckOut_touches_one_row st employeeId today now a checkIn :
  attendance_findUnique st employeeId today = Some a ->
  Attendance.checkIn a = Some checkIn ->
  Attendance.checkOut a = None ->
  NoDup (map Attendance.id (attendance st)) ->
  exists a' st',
    recordCheckOut st employeeId today now = (Sent 200 a', st')
    /\ same_but_checkOut_hours a a'
    /\ payroll st' = payroll st
    /\ employees st' = employees st
    /\ List.length (attendance st') = List.length (attendance st)
    /\ (forall x, In x (attendance st) -> x <> a -> In x (attendance st'))
    /\ (forall x', In x' (attendance st') -> x' = a' \/ In x' (attendance st)).
Proof.
  intros Hf Hi Ho Hid.
  destruct (recordCheckOut_open st employeeId today now a checkIn Hf Hi Ho) as [H1 _].
  cbv zeta in H1. eexists. eexists. split; [exact H1|].
  split; [repeat split; assumption|].
  cbn [attendance_update snd payroll employees attendance with_attendance].
  split; [reflexivity|]. split; [reflexivity|]. split; [apply length_map|].
  destruct (find_some _ _ Hf) as [Ha _]. split.
  - intros x Hx Hne. apply in_map_iff. exists x. split; [|exact Hx].
    destruct (Attendance.id x =? Attendance.id a) eqn:E; [|reflexivity].
    apply Z.eqb_eq in E. exfalso. apply Hne.
    now apply (NoDup_map_eq Attendance.id (attendance st)).
  - intros x' Hx'. apply in_map_iff in Hx'. destruct Hx' as [x [<- Hx]].
    destruct (Attendance.id x =? Attendance.id a) eqn:E; [|now right].
    apply Z.eqb_eq in E. left. f_equal.
    now apply (NoDup_map_eq Attendance.id (attendance st)).
Qed.

Lemma recordCheckOut_touches_one_row_witness :
  exists a' st',
    recordCheckOut Cases.db_with_note 1 Seed.mar4 Seed.mar4_1630 = (Sent 200 a', st')
    /\ Attendance.status a' = Attendance.late
    /\ Attendance.notes a' = Some "bus strike"%string.
Proof.
  destruct (recordCheckOut_touches_one_row Cases.db_with_note 1 Seed.mar4 Seed.mar4_1630
              (Attendance.mk 1 1 Seed.mar4 (Some Seed.mar4_0800) None None Attendance.late
                 (Some "bus strike"%string))
              Seed.mar4_0800)
    as [a' [st' [H1 [[_ [_ [_ [_ [H2 H3]]]]] _]]]].
  - reflexivity.
  - reflexivity.
  - reflexivity.
  - repeat constructor. intros [].
  - exists a', st'. repeat split; assumption.
Defined.

(** *** The HR entry *)

Lemma hr_update_twice ci co h status notes x :
  hr_update ci co h status notes (hr_update ci co h status notes x)
  = hr_update ci co h status notes x.
Proof. unfold hr_update. destruct notes; reflexivity. Qed.

Lemma hr_update_created employeeId date ci co h status notes i :
  hr_update ci co h status notes (hr_create employeeId date ci co h status notes i)
  = hr_create employeeId date ci co h status notes i.
Proof. unfold hr_update, hr_create. destruct notes; reflexivity. Qed.

(** Sending the same HR entry twice is the same as sending it once: the
    second request gets the same answer and leaves the tables as the first
    left them, whether the first created the row or updated it. *)
Theorem hrUpsert_idempotent tz st b :
  hrUpsert tz (snd (hrUpsert tz st b)) b = hrUpsert tz st b.
Proof.
  unfold hrUpsert.
  destruct (JSDate.setHours tz (JSDate.fromValue (body_date b)) 0 0 0 0)
    as [d|]; [|reflexivity].
  destruct (prisma_date (hr_date_field (body_checkIn b))) as [ci|]; [|reflexivity].
  destruct (prisma_date (hr_date_field (body_checkOut b))) as [co|]; [|reflexivity].
  set (h := hr_hoursWorked_field _).
  set (upd := hr_update ci co h (body_status b) (body_notes b)).
  set (cre := hr_create (body_employeeId b) d ci co h (body_status b) (body_notes b)).
  assert (Hkey : forall x, Attendance.employeeId (upd x) = Attendance.employeeId x
                           /\ Attendance.date (upd x) = Attendance.date x)
    by (intros; split; reflexivity).
  unfold attendance_upsert_fk.
  destruct (attendance_findUnique st (body_employeeId b) d) as [a|] eqn:E;
    [|destruct (employee_by_id st (body_employeeId b)) as [e|] eqn:Ee;
      [|cbn [snd]; now rewrite E, Ee]];
    unfold attendance_upsert; rewrite E; cbn [snd].
  - rewrite (findUnique_after_update st (body_employeeId b) d upd a _ Hkey E).
    cbn [attendance nextAttendanceId with_attendance].
    unfold upd at 1. rewrite hr_update_twice. fold upd.
    f_equal. unfold with_attendance.
    cbn [users employees payroll nextPayrollId attendance nextAttendanceId]. f_equal.
    rewrite map_map. apply map_ext. intros x.
    destruct (same_day (body_employeeId b) d x) eqn:Ex; [|now rewrite Ex].
    replace (same_day (body_employeeId b) d (upd x)) with true
      by (unfold same_day in *; destruct (Hkey x) as [-> ->]; now rewrite Ex).
    unfold upd. apply hr_update_twice.
  - rewrite (findUnique_after_create st (body_employeeId b) d
               (cre (nextAttendanceId st)) _ eq_refl eq_refl E).
    cbn [attendance nextAttendanceId with_attendance].
    unfold upd at 1, cre at 1. rewrite hr_update_created. fold cre.
    f_equal. unfold with_attendance.
    cbn [users employees payroll nextPayrollId attendance nextAttendanceId]. f_equal.
    rewrite map_app. cbn [map]. f_equal.
    + rewrite <- (map_id (attendance st)) at 2. apply map_ext_in. intros x Hx.
      now rewrite (find_none _ _ E x Hx).
    + replace (same_day (body_employeeId b) d (cre (nextAttendanceId st))) with true
        by (unfold same_day, cre; cbn; now rewrite !Z.eqb_refl).
      unfold upd, cre. now rewrite hr_update_created.
Qed.

(** When the day has no row, the HR entry creates one if the employee is on
    file: under the next id of the counter, with the request's times, status
    and hours, notes null when the request has none; the rows on file stay as
    they are, and the hours are null as soon as one of the two times is
    missing.  For an employee id that is not on file nothing is created: the
    route answers 500 and the tables are what they were. *)
Theorem hrUpsert_creates_row tz st b attendanceDate :
  JSDate.setHours tz (JSDate.fromValue (body_date b)) 0 0 0 0 = Some attendanceDate ->
  valid_opt (body_checkIn b) -> valid_opt (body_checkOut b) ->
  attendance_findUnique st (body_employeeId b) attendanceDate = None ->
  (forall e, employee_by_id st (body_employeeId b) = Some e ->
     exists a st',
       hrUpsert tz st b = (Sent 201 a, st')
       /\ attendance st' = attendance st ++ [a]
       /\ nextAttendanceId st' = nextAttendanceId st + 1
       /\ Attendance.id a = nextAttendanceId st
       /\ Attendance.employeeId a = body_employeeId b
       /\ Attendance.date a = attendanceDate
       /\ Attendance.checkIn a = body_checkIn b
       /\ Attendance.checkOut a = body_checkOut b
       /\ Attendance.status a = body_status b
       /\ Attendance.notes a = match body_notes b with
                               | Some supplied => supplied
                               | None => None
                               end
       /\ (body_checkIn b = None \/ body_checkOut b = None ->
           Attendance.hoursWorked a = None))
  /\ (employee_by_id st (body_employeeId b) = None ->
      hrUpsert tz st b = (Failed ServerError, st)
      /\ http_status ServerError = 500).
Proof.
  intros Hd Hi Ho Hnone. split.
  - intros e He.
    rewrite (hrUpsert_valid tz st b attendanceDate Hd Hi Ho)
      by (right; rewrite He; discriminate).
    unfold attendance_upsert. rewrite Hnone. cbn [fst snd].
    eexists. eexists. split; [reflexivity|].
    cbn [attendance nextAttendanceId with_attendance hr_create Attendance.id
         Attendance.employeeId Attendance.date Attendance.checkIn Attendance.checkOut
         Attendance.status Attendance.notes Attendance.hoursWorked].
    repeat (split; [reflexivity|]).
    intros [H|H]; rewrite H; [reflexivity|]. now destruct (body_checkIn b).
  - intros He. split; [|reflexivity].
    exact (hrUpsert_unknown_employee tz st b attendanceDate Hd Hi Ho Hnone He).
Qed.

Lemma hrUpsert_creates_row_witness :
  (exists a st',
     hrUpsert Seed.kigali Seed.db Cases.checkout_only = (Sent 201 a, st')
     /\ Attendance.id a = 1
     /\ Attendance.hoursWorked a = None
     /\ Attendance.notes a = None)
  /\ hrUpsert Seed.kigali Seed.db Entries.stranger = (Failed ServerError, Seed.db).
Proof.
  split.
  - destruct (hrUpsert_creates_row Seed.kigali Seed.db Cases.checkout_only Seed.mar4)
      as [H _].
    + reflexivity.
    + exact I.
    + cbv. discriminate.
    + reflexivity.
    + destruct (H Seed.john eq_refl)
        as [a [st' [H1 [_ [_ [H2 [_ [_ [_ [_ [_ [H3 H4]]]]]]]]]]]].
      exists a, st'. split; [exact H1|]. split; [exact H2|].
      split; [apply H4; now left|exact H3].
  - destruct (hrUpsert_creates_row Seed.kigali Seed.db Entries.stranger Seed.mar4)
      as [_ H].
    + reflexivity.
    + unfold valid_opt, valid_time. vm_compute. discriminate.
    + unfold valid_opt, valid_time. vm_compute. discriminate.
    + reflexivity.
    + exact (proj1 (H eq_refl)).
Defined.

(** The two routes that compute hours agree except on a zero duration: for
    a check-in and a check-out time that differ (dates less than 2^53 ms
    apart) the HR entry, made for an employee on file, stores the hours a
    check-out would store, and for equal times the check-out stores 0.00
    where the HR entry stores null. *)
Theorem hr_and_checkout_hours tz st_hr b attendanceDate e st employeeId today a
    checkIn checkOut :
  JSDate.setHours tz (JSDate.fromValue (body_date b)) 0 0 0 0 = Some attendanceDate ->
  body_checkIn b = Some checkIn -> body_checkOut b = Some checkOut ->
  employee_by_id st_hr (body_employeeId b) = Some e ->
  attendance_findUnique st employeeId today = Some a ->
  Attendance.checkIn a = Some checkIn -> Attendance.checkOut a = None ->
  valid_time checkIn -> valid_time checkOut -> safe_distance checkIn checkOut ->
  exists a_hr st_hr' a_out st',
    hrUpsert tz st_hr b = (Sent 201 a_hr, st_hr')
    /\ recordCheckOut st employeeId today checkOut = (Sent 200 a_out, st')
    /\ (checkOut <> checkIn ->
        Attendance.hoursWorked a_hr = Attendance.hoursWorked a_out)
    /\ (checkOut = checkIn ->
        Attendance.hoursWorked a_hr = None
        /\ Attendance.hoursWorked a_out = Some (Number.Dec 0)).
Proof.
  intros Hd Hbi Hbo He Hf Hi Ho Hvi Hvo Hsafe.
  destruct (hrUpsert_both tz st_hr b attendanceDate checkIn checkOut e
              Hd Hbi Hbo Hvi Hvo He)
    as [a_hr [st_hr' [H1 [_ [_ [_ H2]]]]]].
  destruct (recordCheckOut_open st employeeId today checkOut a checkIn Hf Hi Ho) as [H3 _].
  cbv zeta in H3.
  destruct (hours_between_rounds checkIn checkOut Hvi Hvo Hsafe) as [Hz [Ht _]].
  cbv zeta in Hz, Ht.
  eexists. eexists. eexists. eexists. split; [exact H1|]. split; [exact H3|].
  rewrite H2. cbn [checkout_update Attendance.hoursWorked hr_hoursWorked_field]. split.
  - intros Hne. now rewrite (Ht Hne).
  - intros Heq. rewrite (Hz Heq). split; reflexivity.
Qed.

Lemma hr_and_checkout_hours_witness :
  exists a_hr st_hr' a_out st',
    hrUpsert Seed.kigali Seed.db Cases.correction = (Sent 201 a_hr, st_hr')
    /\ recordCheckOut Durations.db_checked_in 1 Seed.mar4 Seed.mar4_1630
       = (Sent 200 a_out, st')
    /\ Attendance.hoursWorked a_hr = Attendance.hoursWorked a_out.
Proof.
  destruct (hr_and_checkout_hours Seed.kigali Seed.db Cases.correction Seed.mar4
              Seed.john Durations.db_checked_in 1 Seed.mar4
              (Attendance.mk 1 1 Seed.mar4 (Some Seed.mar4_0800) None None
                 Attendance.present None)
              Seed.mar4_0800 Seed.mar4_1630)
    as [a_hr [st_hr' [a_out [st' [H1 [H2 [H3 _]]]]]]].
  - reflexivity.
  - reflexivity.
  - reflexivity.
  - reflexivity.
  - reflexivity.
  - reflexivity.
  - reflexivity.
  - unfold valid_time. vm_compute. discriminate.
  - unfold valid_time. vm_compute. discriminate.
  - unfold safe_distance. vm_compute. reflexivity.
  - exists a_hr, st_hr', a_out, st'. split; [exact H1|]. split; [exact H2|].
    apply H3. vm_compute. discriminate.
Defined.

(** *** A check-out time before the check-in time *)

(** For dates less than 2^53 ms apart the hours computed depend on the
    distance alone. *)
Lemma hours_between_distance checkIn checkOut :
  valid_time checkIn -> valid_time checkOut -> safe_distance checkIn checkOut ->
  hours_between (Some checkIn) (Some checkOut)
  = Number.div (Number.of_Z (checkOut - checkIn)) (Number.of_Z JSDate.msPerHour).
Proof.
  unfold valid_time, safe_distance. intros Hi Ho Hd.
  unfold hours_between, JSDate.diff, JSDate.toNumber, Number.sub, Number.of_Z,
    Number.prec, Number.emax.
  rewrite sub_of_Z_exact; [reflexivity| | |exact Hd];
    change (2 ^ 53) with 9007199254740992; lia.
Qed.

(** Neither route compares the two times: a check-out time before the
    check-in time is taken, and the hours stored are the signed duration
    rounded to hundredths.  That is 0.00 while the check-out is less than 18
    seconds (0.005 h) before the check-in, and a negative number from 18
    seconds on. *)
Theorem early_checkout_hours checkIn checkOut :
  valid_time checkIn -> valid_time checkOut -> safe_distance checkIn checkOut ->
  checkOut < checkIn ->
  exists h,
    rounds_to_hundredths (checkOut - checkIn) JSDate.msPerHour h
    /\ h <= 0
    /\ (h < 0 <-> 18000 <= checkIn - checkOut)
    /\ (forall st employeeId today a,
          attendance_findUnique st employeeId today = Some a ->
          Attendance.checkIn a = Some checkIn ->
          Attendance.checkOut a = None ->
          exists a' st',
            recordCheckOut st employeeId today checkOut = (Sent 200 a', st')
            /\ Attendance.hoursWorked a' = Some (Number.Dec h))
    /\ (forall tz st b attendanceDate e,
          JSDate.setHours tz (JSDate.fromValue (body_date b)) 0 0 0 0
            = Some attendanceDate ->
          body_checkIn b = Some checkIn -> body_checkOut b = Some checkOut ->
          employee_by_id st (body_employeeId b) = Some e ->
          exists a' st',
            hrUpsert tz st b = (Sent 201 a', st')
            /\ Attendance.hoursWorked a' = Some (Number.Dec h)).
Proof.
  intros Hvi Hvo Hsafe Hlt.
  destruct (hours_between_rounds checkIn checkOut Hvi Hvo Hsafe) as [_ [Ht [h [Hh Hr]]]].
  cbv zeta in Ht, Hh. exists h. split; [exact Hr|].
  assert (Hedge : checkIn - checkOut = 18000 -> h = -1).
  { intros E. rewrite (hours_between_distance _ _ Hvi Hvo Hsafe) in Hh.
    replace (checkOut - checkIn) with (-18000) in Hh by lia.
    vm_compute in Hh. now injection Hh as <-. }
  unfold rounds_to_hundredths, JSDate.msPerHour in Hr.
  split; [lia|]. split.
  - split; [lia|]. intros Hfar.
    destruct (Z.eq_dec (checkIn - checkOut) 18000) as [E|E]; [rewrite (Hedge E)|]; lia.
  - split.
    + intros st employeeId today a Hf Hi Ho.
      destruct (recordCheckOut_open st employeeId today checkOut a checkIn Hf Hi Ho)
        as [H1 _].
      cbv zeta in H1. eexists. eexists. split; [exact H1|].
      cbn [checkout_update Attendance.hoursWorked]. now rewrite Hh.
    + intros tz st b attendanceDate e Hd Hbi Hbo He.
      destruct (hrUpsert_both tz st b attendanceDate checkIn checkOut e
                  Hd Hbi Hbo Hvi Hvo He)
        as [a' [st' [H1 [_ [_ [_ H2]]]]]].
      exists a', st'. split; [exact H1|].
      rewrite H2. cbn [hr_hoursWorked_field].
      rewrite Ht by lia. now rewrite Hh.
Qed.

(** A check-out 17.999 s before the check-in is stored as 0.00, one 18 s
    before it as -0.01. *)
Lemma early_checkout_hours_witness :
  (exists a' st',
     recordCheckOut Durations.db_checked_in 1 Seed.mar4 (Seed.mar4_0800 - 17999)
     = (Sent 200 a', st')
     /\ Attendance.hoursWorked a' = Some (Number.Dec 0))
  /\ (exists a' st',
        hrUpsert Seed.kigali Seed.db Entries.just_before = (Sent 201 a', st')
        /\ Attendance.hoursWorked a' = Some (Number.Dec (-1))).
Proof.
  split.
  - destruct (early_checkout_hours Seed.mar4_0800 (Seed.mar4_0800 - 17999))
      as [h [_ [H1 [H2 [H3 _]]]]].
    + unfold valid_time. vm_compute. discriminate.
    + unfold valid_time. vm_compute. discriminate.
    + unfold safe_distance. vm_compute. reflexivity.
    + vm_compute. reflexivity.
    + destruct (H3 Durations.db_checked_in 1 Seed.mar4
                  (Attendance.mk 1 1 Seed.mar4 (Some Seed.mar4_0800) None None
                     Attendance.present None) eq_refl eq_refl eq_refl)
        as [a' [st' [H4 H5]]].
      exists a', st'. split; [exact H4|]. rewrite H5. do 2 f_equal.
      assert (Hnot : ~ 18000 <= Seed.mar4_0800 - (Seed.mar4_0800 - 17999)) by lia.
      destruct (Z.eq_dec h 0) as [E|E]; [exact E|].
      exfalso. apply Hnot, H2. lia.
  - destruct (early_checkout_hours Seed.mar4_0800 (Seed.mar4_0800 - 18000))
      as [h [Hr [_ [H2 [_ H3]]]]].
    + unfold valid_time. vm_compute. discriminate.
    + unfold valid_time. vm_compute. discriminate.
    + unfold safe_distance. vm_compute. reflexivity.
    + vm_compute. reflexivity.
    + destruct (H3 Seed.kigali Seed.db Entries.just_before Seed.mar4 Seed.john
                  eq_refl eq_refl eq_refl eq_refl)
        as [a' [st' [H4 H5]]].
      exists a', st'. split; [exact H4|]. rewrite H5. do 2 f_equal.
      assert (Hneg : h < 0) by (apply H2; lia).
      unfold rounds_to_hundredths, JSDate.msPerHour in Hr. lia.
Defined.

(** *** The dashboard count of today's attendance *)

Lemma count_map_stable {A : Type} (p : A -> bool) (g : A -> A) (l : list A) :
  (forall x, p (g x) = p x) ->
  List.length (filter p (map g l)) = List.length (filter p l).
Proof.
  intros H. induction l as [|x l IH]; cbn; [reflexivity|].
  rewrite H. destruct (p x); cbn; now rewrite IH.
Qed.

(** A check-in that opens the day's row raises the dashboard's count of
    today's attendance by one, and no check-out ever changes that count. *)
Theorem todayAttendance_follows_checkin tz st :
  (forall uid e now today n t1 t2,
     user_with_employee st uid = Some (Some e) ->
     JSDate.setHours tz (Some now) 0 0 0 0 = Some today ->
     attendance_findUnique st (Employee.id e) today = None ->
     todayAttendance tz st now = Some n ->
     todayAttendance tz (snd (checkin tz st uid now t1 t2)) now = Some (n + 1))
  /\ (forall uid now t now',
        todayAttendance tz (snd (checkout tz st uid now t)) now'
        = todayAttendance tz st now').
Proof.
  split.
  - intros uid e now today n t1 t2 Hu Ht Hnone Hn.
    unfold checkin. rewrite Hu, Ht. unfold recordCheckIn, attendance_upsert.
    rewrite Hnone. cbn [snd]. unfold todayAttendance in *. rewrite Ht in *.
    destruct (JSDate.setHours tz (Some today) 23 59 59 999) as [todayEnd|] eqn:Ee;
      [|discriminate].
    injection Hn as <-. cbn [attendance with_attendance].
    rewrite filter_app, length_app. cbn [filter checkin_create Attendance.date
                                           Attendance.status Attendance.status_eqb].
    assert (Hle : today <= todayEnd).
    { pose proof (setHours_midnight _ _ _ Ht) as Hm. unfold local_midnight in Hm.
      unfold JSDate.setHours, JSDate.TimeClip, JSDate.UTC, JSDate.MakeDate, JSDate.Day,
        JSDate.LocalTime, JSDate.MakeTime, JSDate.msPerHour, JSDate.msPerDay in *.
      destruct (Z.abs _ <=? _) in Ee; [|discriminate]. injection Ee as <-.
      Z.div_mod_to_equations. lia. }
    rewrite Z.leb_refl, (proj2 (Z.leb_le _ _) Hle). cbn [andb List.length].
    f_equal. lia.
  - intros uid now t now'. unfold checkout.
    destruct (user_with_employee st uid) as [[e|]|]; try reflexivity.
    destruct (JSDate.setHours tz (Some now) 0 0 0 0) as [today|]; [|reflexivity].
    unfold recordCheckOut.
    destruct (attendance_findUnique st (Employee.id e) today) as [a|]; [|reflexivity].
    destruct (Attendance.checkIn a); [|reflexivity].
    destruct (Attendance.checkOut a); [reflexivity|].
    cbn [attendance_update snd]. unfold todayAttendance.
    destruct (JSDate.setHours tz (Some now') 0 0 0 0) as [d|]; [|reflexivity].
    destruct (JSDate.setHours tz (Some d) 23 59 59 999) as [dEnd|]; [|reflexivity].
    cbn [attendance with_attendance]. rewrite count_map_stable; [reflexivity|].
    intros x. now destruct (Attendance.id x =? Attendance.id a).
Qed.

Lemma todayAttendance_follows_checkin_witness :
  todayAttendance Seed.kigali Cases.db_with_note Seed.mar4_0800 = Some 0
  /\ todayAttendance Seed.kigali
       (snd (checkin Seed.kigali Cases.db_with_note 2 Seed.mar4_0800 Seed.mar4_0800
               Seed.mar4_0800))
       Seed.mar4_0800 = Some 1.
Proof.
  split; [reflexivity|].
  apply (proj1 (todayAttendance_follows_checkin Seed.kigali Cases.db_with_note)
           2 Seed.jane Seed.mar4_0800 Seed.mar4 0 Seed.mar4_0800 Seed.mar4_0800);
    reflexivity.
Defined.

(** *** Refusals never write *)

(** Whenever a writing route answers with an error, the database is what it
    was before the request. *)
Theorem refusals_write_nothing tz st :
  (forall uid now t1 t2 err,
     fst (checkin tz st uid now t1 t2) = Failed err ->
     snd (checkin tz st uid now t1 t2) = st)
  /\ (forall uid now t err,
        fst (checkout tz st uid now t) = Failed err ->
        snd (checkout tz st uid now t) = st)
  /\ (forall b err,
        fst (hrUpsert tz st b) = Failed err -> snd (hrUpsert tz st b) = st)
  /\ (forall employeeId month year err,
        fst (generatePayroll tz st employeeId month year) = Failed err ->
        snd (generatePayroll tz st employeeId month year) = st)
  /\ (forall payrollId now err,
        fst (markPaid st payrollId now) = Failed err ->
        snd (markPaid st payrollId now) = st)
  /\ (forall payrollId code message,
        fst (deletePayroll st payrollId) = Refused code message ->
        snd (deletePayroll st payrollId) = st).
Proof.
  repeat split.
  - intros uid now t1 t2 err. unfold checkin.
    destruct (user_with_employee st uid) as [[e|]|]; try reflexivity.
    destruct (JSDate.setHours tz (Some now) 0 0 0 0) as [today|]; [|reflexivity].
    unfold recordCheckIn.
    destruct (attendance_findUnique st (Employee.id e) today)
      as [[i e0 d [ci|] co h s n]|]; try reflexivity;
      destruct (attendance_upsert st _ _ _ _); discriminate.
  - intros uid now t err. unfold checkout.
    destruct (user_with_employee st uid) as [[e|]|]; try reflexivity.
    destruct (JSDate.setHours tz (Some now) 0 0 0 0) as [today|]; [|reflexivity].
    unfold recordCheckOut.
    destruct (attendance_findUnique st (Employee.id e) today) as [a|]; [|reflexivity].
    destruct (Attendance.checkIn a); [|reflexivity].
    destruct (Attendance.checkOut a); [reflexivity|discriminate].
  - intros b err. unfold hrUpsert.
    destruct (JSDate.setHours tz _ 0 0 0 0); [|reflexivity].
    destruct (prisma_date (hr_date_field (body_checkIn b))); [|reflexivity].
    destruct (prisma_date (hr_date_field (body_checkOut b))); [|reflexivity].
    destruct (attendance_upsert_fk st _ _ _ _) as [[a st']|]; [discriminate|reflexivity].
  - intros employeeId month year err. unfold generatePayroll.
    destruct (negb (valid_period month year)); [reflexivity|].
    destruct (payroll_findFirst st employeeId month year) as [[? ?]|]; [reflexivity|].
    destruct (employee_by_id st employeeId); [|reflexivity].
    destruct (startDate tz month year); [|reflexivity].
    destruct (endDate tz month year); [|reflexivity].
    discriminate.
  - intros payrollId now err. unfold markPaid.
    destruct (find _ (payroll st)); [discriminate|reflexivity].
  - intros payrollId code message. unfold deletePayroll.
    destruct (payroll_by_id st payrollId); [discriminate|reflexivity].
Qed.

Lemma refusals_write_nothing_witness :
  snd (checkout Seed.kigali Seed.db 1 Seed.mar4_1630 Seed.mar4_1630) = Seed.db.
Proof.
  destruct (refusals_write_nothing Seed.kigali Seed.db) as [_ [H _]].
  apply (H 1 Seed.mar4_1630 Seed.mar4_1630 NotCheckedIn). reflexivity.
Defined.

(** *** The dashboard count of an employee's payrolls *)

(** Generating a payroll raises the employee's own count of payroll rows by
    one and leaves the count of every other employee as it was; marking a
    payroll paid changes no count. *)
Theorem myPayroll_follows_generation tz st employeeId month year p st' :
  generatePayroll tz st employeeId month year = (Sent 201 p, st') ->
  myPayroll st' employeeId = myPayroll st employeeId + 1
  /\ (forall other, other <> employeeId -> myPayroll st' other = myPayroll st other)
  /\ (forall payrollId now other,
        myPayroll (snd (markPaid st' payrollId now)) other = myPayroll st' other).
Proof.
  unfold generatePayroll.
  destruct (negb (valid_period month year)); [discriminate|].
  destruct (payroll_findFirst st employeeId month year) as [[? ?]|]; [discriminate|].
  destruct (employee_by_id st employeeId) as [e|]; [|discriminate].
  destruct (startDate tz month year) as [gte|]; [|discriminate].
  destruct (endDate tz month year) as [lte|]; [|discriminate].
  unfold payroll_create. intros H. injection H as <- <-.
  unfold myPayroll. cbn [payroll with_payroll]. split; [|split].
  - rewrite filter_app, length_app. cbn [filter payroll_row Payroll.employeeId].
    rewrite Z.eqb_refl. cbn [List.length]. lia.
  - intros other Hne. rewrite filter_app, length_app.
    cbn [filter payroll_row Payroll.employeeId].
    replace (employeeId =? other) with false by (symmetry; apply Z.eqb_neq; lia).
    cbn [List.length]. lia.
  - intros payrollId now other. unfold markPaid.
    destruct (find _ _); [|reflexivity]. cbn [snd payroll with_payroll].
    f_equal. apply count_map_stable. intros x.
    now destruct (Payroll.id x =? payrollId).
Qed.

Lemma myPayroll_follows_generation_witness :
  myPayroll (snd (generatePayroll Seed.kigali Reading.db_payroll 2 3 2024)) 2 = 2
  /\ myPayroll (snd (generatePayroll Seed.kigali Reading.db_payroll 2 3 2024)) 1 = 3.
Proof.
  destruct (myPayroll_follows_generation Seed.kigali Reading.db_payroll 2 3 2024
              (fst (payroll_create Reading.db_payroll (payroll_row Seed.jane 2 3 2024 [])))
              (snd (generatePayroll Seed.kigali Reading.db_payroll 2 3 2024)) eq_refl)
    as [H1 [H2 _]].
  split; [rewrite H1; reflexivity|rewrite (H2 1); [reflexivity|discriminate]].
Defined.

Lemma generatePayroll_twice_witness :
  exists p st' message,
    generatePayroll Seed.kigali Seed.db 1 3 2024 = (Sent 201 p, st')
    /\ generatePayroll Seed.kigali st' 1 3 2024 = (Failed (DuplicatePayroll message), st')
    /\ includes message "John Doe".
Proof.
  destruct (generatePayroll_twice Seed.kigali Seed.db 1 3 2024
              (fst (payroll_create Seed.db (payroll_row Seed.john 1 3 2024 [])))
              (snd (generatePayroll Seed.kigali Seed.db 1 3 2024)) eq_refl)
    as [message [H1 [_ H2]]].
  eexists. eexists. exists message. split; [reflexivity|]. split; [exact H1|].
  apply (H2 Seed.john). reflexivity.
Defined.
